(** * Book catalogue scraper: crawl, extract, persist

    A shallow embedding of [fetcher.py], [parser.py], [main.py] and
    [saver.py], with the properties of the crawl-and-extract pipeline
    proved over it.

    Conventions.
    - A Python [str] is a list of Unicode code points ([list N]); [py]
      turns an ASCII literal into one.
    - [Optional[str]] is [option str]; Python truthiness of such a value
      is [truthy].
    - Code that can raise returns a [result]; code that talks to the
      network runs in the monad [IO], which threads the [trace] of
      requests and pauses.
    - The libraries the program calls (BeautifulSoup's tree builder,
      [requests], [pandas]) are modelled by their interface: the tree
      builder is a parameter of the extraction functions, the network is
      a response oracle, the file system is a finite map. *)

From Stdlib Require Import ZArith NArith QArith Lia SpecFloat.
From Stdlib Require Import DecimalString DecimalPos DecimalZ.
From stdpp Require Import base option list gmap strings.

Set Warnings "-register-all".
Local Open Scope N_scope.
Local Open Scope nat_scope.

(** ** Python strings *)

Module Str.

Definition char := N.
Definition str := list char.

(** An ASCII literal as a [str]. *)
Fixpoint py (s : string) : str :=
  match s with
  | EmptyString => []
  | String a s' => Ascii.N_of_ascii a :: py s'
  end.

Arguments py : simpl never.

(** [str.isspace] on one code point (the interpreter's table of
    whitespace code points). *)
Definition isspace (c : char) : bool :=
  ((9 <=? c) && (c <=? 13) || (28 <=? c) && (c <=? 32)
   || (c =? 133) || (c =? 160) || (c =? 5760)
   || (8192 <=? c) && (c <=? 8202)
   || (c =? 8232) || (c =? 8233) || (c =? 8239) || (c =? 8287)
   || (c =? 12288))%N.

(** [str.lower] on one code point.  The capitals of ASCII and Latin-1
    are lowered; so are the two code points from U+0100 on whose
    lowering holds an ASCII letter, the dotted capital I and the Kelvin
    sign.  The others are left as they are: the interpreter lowers them
    to code points outside ASCII, and the program only looks for ASCII
    text in a lowered string. *)
Definition lower_char (c : char) : str :=
  (if (65 <=? c) && (c <=? 90) then [c + 32]
   else if (192 <=? c) && (c <=? 222) && negb (c =? 215) then [c + 32]
   else if c =? 304 then [105; 775]
   else if c =? 8490 then [107]
   else [c])%N.

Definition lower (s : str) : str := flat_map lower_char s.

Fixpoint lstrip (s : str) : str :=
  match s with
  | c :: s' => if isspace c then lstrip s' else s
  | [] => []
  end.

Definition rstrip (s : str) : str := rev (lstrip (rev s)).

(** [s.strip()] *)
Definition strip (s : str) : str := rstrip (lstrip s).

(** [a == b] on strings. *)
Fixpoint eqb (a b : str) : bool :=
  match a, b with
  | [], [] => true
  | x :: a', y :: b' => (x =? y)%N && eqb a' b'
  | _, _ => false
  end.

Fixpoint startswith (p s : str) : bool :=
  match p, s with
  | [], _ => true
  | _ :: _, [] => false
  | a :: p', b :: s' => (a =? b)%N && startswith p' s'
  end.

(** [p in s] for strings: [p] occurs in [s] as a contiguous run. *)
Fixpoint contains (p s : str) : bool :=
  startswith p s ||
  match s with
  | [] => false
  | _ :: s' => contains p s'
  end.

(** [s.split(sep)] for a non-empty [sep]: cut at the occurrences of
    [sep], scanning left to right without overlap.  [skip] counts the
    characters of a matched separator still to be passed over, [cur] is
    the piece under construction, reversed. *)
Fixpoint split_go (sep : str) (skip : nat) (cur : str) (s : str) : list str :=
  match s with
  | [] => [rev cur]
  | c :: s' =>
      match skip with
      | S k => split_go sep k cur s'
      | O =>
          if startswith sep s
          then rev cur :: split_go sep (length sep - 1) [] s'
          else split_go sep 0 (c :: cur) s'
      end
  end.

Definition split (sep s : str) : list str := split_go sep 0 [] s.

(** [t] is [s] without the whitespace around it. *)
Definition stripped_of (s t : str) : Prop :=
  exists pre post,
    s = pre ++ t ++ post /\
    forallb isspace pre = true /\ forallb isspace post = true /\
    match t with c :: _ => isspace c = false | [] => True end /\
    match last t with Some c => isspace c = false | None => True end.

End Str.
Export Str.

(** ** Exceptions *)

Inductive exn : Type :=
  | AttributeError
  | IndexError
  | ValueError
  | OSError
  | RequestException.

Inductive result (A : Type) : Type :=
  | Ok (a : A)
  | Raise (e : exn).
Arguments Ok {A} a.
Arguments Raise {A} e.

Definition rbind {A B} (r : result A) (k : A -> result B) : result B :=
  match r with
  | Ok a => k a
  | Raise e => Raise e
  end.

(** Truthiness of an [Optional[str]]: [None] and [''] are false. *)
Definition truthy (o : option str) : bool :=
  match o with
  | None | Some [] => false
  | Some (_ :: _) => true
  end.

(** [l[i]] on a Python list. *)
Definition index {A} (l : list A) (i : nat) : result A :=
  match nth_error l i with
  | Some x => Ok x
  | None => Raise IndexError
  end.

(** ** main.py: the end-of-catalogue heuristic *)

Definition not_found_indicators : list str :=
  [ py "page not found";
    py "404 not found";
    py "error 404";
    py "sorry, no results found";
    py "no results found" ].

(** The text after the first [<title>] up to the next [</title>]:
    [content_lower.split('<title>')[1].split('</title>')[0]]. *)
Definition title_segment (content_lower : str) : result str :=
  rbind (index (split (py "<title>") content_lower) 1) (fun after =>
  index (split (py "</title>") after) 0).

(** A phrase occurs in the markup up to case: it occurs in the lowered
    markup. *)
Definition occurs_ignoring_case (phrase html : str) : Prop :=
  exists pre post, lower html = pre ++ phrase ++ post.

(** [c] reads as [p]: it is [p] itself, or the capital of the small
    letter [p]. *)
Definition same_letter (c p : char) : Prop :=
  c = p \/ ((97 <= p)%N /\ (p <= 122)%N /\ c = (p - 32)%N).

(** A phrase occurs in the markup in some mixture of small and capital
    letters. *)
Definition occurs_any_case (phrase html : str) : Prop :=
  exists pre w post, html = pre ++ w ++ post /\ Forall2 same_letter w phrase.

(** The title text holds [404]: after the first [<title>], written in
    any mixture of small and capital letters, [404] stands before any
    further [<title>] and any [</title>]. *)
Definition title_holds_404 (html : str) : Prop :=
  exists pre t s post,
    html = pre ++ t ++ s ++ py "404" ++ post /\
    Forall2 same_letter t (py "<title>") /\
    ~ occurs_any_case (py "<title>") (pre ++ removelast t) /\
    ~ occurs_any_case (py "<title>") s /\
    ~ occurs_any_case (py "</title>") s.

(** A character of a phrase in small ASCII: no capital, and not [k],
    to which the Kelvin sign is lowered as well. *)
Definition plain_char (p : char) : bool :=
  ((p <? 128) && negb ((65 <=? p) && (p <=? 90)) && negb (p =? 107))%N.

(** A phrase of such characters that does not end in [i]: the dotted
    capital I is lowered to an [i] and a combining dot. *)
Definition plain (phrase : str) : Prop :=
  phrase <> [] /\ forallb plain_char phrase = true /\
  last phrase <> Some 105%N.

(** The piece before the first separator, or the whole string:
    [x.split(sep)[0]]. *)
Definition hd_split (sep x : str) : str := hd [] (split sep x).

(** No character of [w] is in [sep]. *)
Definition apart (w sep : str) : Prop :=
  forall c, In c w -> In c sep -> False.

Definition is_page_not_found (html_content : option str) : result bool :=
  match html_content with
  | None | Some [] => Ok true
  | Some html =>
      let content_lower := lower html in
      if existsb (fun indicator => contains indicator content_lower)
           not_found_indicators
      then Ok true
      else if length (strip html) <? 500
      then Ok true
      else if contains (py "<title>") content_lower
      then rbind (title_segment content_lower) (fun t =>
           if contains (py "404") t then Ok true else Ok false)
      else Ok false
  end.

(** ** Python floats

    A [float] is an IEEE 754 binary64 number, as [spec_float] has them.
    [of_str] is the conversion [float(s)] of a string: the decimal
    grammar of the interpreter, the value rounded once to the nearest
    float.  Decimal digits outside ASCII are read through the
    interpreter's character table, which is a parameter here.  Strings
    of more than a thousand million digits, which the interpreter
    refuses, are beyond the model. *)

Module PyFloat.

Definition float := spec_float.

Definition prec : Z := 53.
Definition emax : Z := 1024.

(** [0.0] *)
Definition zero : float := S754_zero false.

(** The float nearest to [(-1)^neg * m * 10^e]. *)
Definition of_decimal (neg : bool) (m : N) (e : Z) : float :=
  match m with
  | N0 => S754_zero neg
  | Npos p =>
      if (0 <=? e)%Z
      then binary_normalize prec emax
             ((if neg then Z.neg p else Z.pos p) * 10 ^ e) 0 neg
      else SFdiv prec emax (S754_finite neg p 0)
             (S754_finite false (Z.to_pos (10 ^ (- e))) 0)
  end.

Definition is_digit (c : char) : bool := ((48 <=? c) && (c <=? 57))%N.

Definition ascii_lower_char (c : char) : char :=
  (if (65 <=? c) && (c <=? 90) then c + 32 else c)%N.

(** The leading run of digits, as digit values, and what follows. *)
Fixpoint span_digits (s : str) : list N * str :=
  match s with
  | c :: s' =>
      if is_digit c
      then let '(ds, r) := span_digits s' in ((c - 48)%N :: ds, r)
      else ([], s)
  | [] => ([], [])
  end.

Definition digits_value (ds : list N) : N :=
  fold_left (fun acc d => (10 * acc + d)%N) ds 0%N.

Definition split_sign (s : str) : bool * str :=
  match s with
  | 45%N :: r => (true, r)
  | 43%N :: r => (false, r)
  | _ => (false, s)
  end.

(** The exponent part, which must reach the end of the string. *)
Definition parse_exponent (s : str) : option Z :=
  match s with
  | [] => Some 0%Z
  | c :: r =>
      if (ascii_lower_char c =? 101)%N
      then let '(neg, r1) := split_sign r in
           match span_digits r1 with
           | ((_ :: _) as ds, []) =>
               let v := Z.of_N (digits_value ds) in
               Some (if neg then (- v)%Z else v)
           | _ => None
           end
      else None
  end.

Definition inf_or_nan (neg : bool) (unsigned : str) : option float :=
  let w := map ascii_lower_char unsigned in
  if Str.eqb w (py "inf") || Str.eqb w (py "infinity")
  then Some (S754_infinity neg)
  else if Str.eqb w (py "nan") then Some S754_nan
  else None.

(** A whole string as a number: sign, digits with an optional point,
    optional exponent; or an infinity or a NaN. *)
Definition strtod (s : str) : option float :=
  let '(neg, s1) := split_sign s in
  let '(ip, s2) := span_digits s1 in
  let '(fp, s3) :=
    match s2 with
    | 46%N :: r => span_digits r
    | _ => ([], s2)
    end in
  match ip ++ fp with
  | [] => inf_or_nan neg s1
  | ds =>
      match parse_exponent s3 with
      | Some e =>
          Some (of_decimal neg (digits_value ds) (e - Z.of_nat (length fp)))
      | None => None
      end
  end.

(** Underscores may stand between two digits only; they are dropped. *)
Fixpoint drop_underscores (prev : char) (s : str) : option str :=
  match s with
  | [] => if (prev =? 95)%N then None else Some []
  | c :: s' =>
      if (c =? 95)%N
      then if is_digit prev then drop_underscores c s' else None
      else if (prev =? 95)%N && negb (is_digit c) then None
      else option_map (cons c) (drop_underscores c s')
  end.

Definition c_isspace (c : char) : bool :=
  ((9 <=? c) && (c <=? 13) || (c =? 32))%N.

Fixpoint c_lstrip (s : str) : str :=
  match s with
  | c :: s' => if c_isspace c then c_lstrip s' else s
  | [] => []
  end.

Definition c_strip (s : str) : str := rev (c_lstrip (rev (c_lstrip s))).

Section OfStr.

(** The digit value of a decimal digit outside ASCII, if the code point
    is one. *)
Variable unicode_decimal : char -> option N.

(** A string that is not all ASCII is first brought to ASCII: spaces
    become blanks, decimal digits become ASCII digits, and the string is
    cut at the first other character, which is replaced by [?]. *)
Fixpoint transform (s : str) : str :=
  match s with
  | [] => []
  | c :: s' =>
      if (c <? 127)%N then c :: transform s'
      else if isspace c then 32%N :: transform s'
      else match unicode_decimal c with
           | Some d => (48 + d)%N :: transform s'
           | None => [63%N]
           end
  end.

Definition to_ascii (s : str) : str :=
  if forallb (fun c => (c <? 128)%N) s then s else transform s.

(** [float(s)] for a string [s]. *)
Definition of_str (s : str) : result float :=
  let a := to_ascii s in
  let digits :=
    if existsb (N.eqb 95) a then drop_underscores 0%N a else Some a in
  match digits with
  | None => Raise ValueError
  | Some d =>
      match strtod (c_strip d) with
      | Some f => Ok f
      | None => Raise ValueError
      end
  end.

End OfStr.

End PyFloat.

(** ** The parse tree of BeautifulSoup *)

(** What the program sees of a parsed document: tags with their
    attributes (a multi-valued attribute such as [class] kept as
    written, and split on whitespace where it is compared), strings and
    comments.  The document itself is the root tag. *)
Inductive node : Type :=
  | Tag (name : str) (attrs : list (str * str)) (contents : list node)
  | NavigableString (s : str)
  | Comment (s : str).

Module Soup.

(** Everything below a node, in document order. *)
Fixpoint descendants (n : node) : list node :=
  match n with
  | Tag _ _ cs => flat_map (fun c => c :: descendants c) cs
  | NavigableString _ | Comment _ => []
  end.

Fixpoint lookup_attr (k : str) (attrs : list (str * str)) : option str :=
  match attrs with
  | [] => None
  | (k', v) :: rest => if Str.eqb k k' then Some v else lookup_attr k rest
  end.

(** [tag.get(key, default)] *)
Definition get (n : node) (key default : str) : str :=
  match n with
  | Tag _ attrs _ =>
      match lookup_attr key attrs with
      | Some v => v
      | None => default
      end
  | _ => default
  end.

(** The whitespace-separated words of an attribute value. *)
Fixpoint words_go (cur : str) (s : str) : list str :=
  match s with
  | [] => match cur with [] => [] | _ => [rev cur] end
  | c :: s' =>
      if isspace c
      then match cur with
           | [] => words_go [] s'
           | _ => rev cur :: words_go [] s'
           end
      else words_go (c :: cur) s'
  end.

Definition words (s : str) : list str := words_go [] s.

Definition has_class (cls : str) (attrs : list (str * str)) : bool :=
  match lookup_attr (py "class") attrs with
  | Some v => existsb (Str.eqb cls) (words v)
  | None => false
  end.

(** Does a node match the search [find(name, class_=cls)]? *)
Definition matches (name : str) (class_ : option str) (n : node) : bool :=
  match n with
  | Tag nm attrs _ =>
      Str.eqb nm name &&
      match class_ with
      | None => true
      | Some cls => has_class cls attrs
      end
  | _ => false
  end.

(** [tag.find_all(name, class_=cls)] *)
Definition find_all (n : node) (name : str) (class_ : option str) : list node :=
  List.filter (matches name class_) (descendants n).

(** [tag.find(name, class_=cls)]: the first match, or [None]. *)
Definition find (n : node) (name : str) (class_ : option str) : option node :=
  head (find_all n name class_).

(** [tag.text]: the strings below the tag, concatenated; comments are
    not part of it. *)
Fixpoint text (n : node) : str :=
  match n with
  | Tag _ _ cs => flat_map text cs
  | NavigableString s => s
  | Comment _ => []
  end.

(** A method call on a value that may be [None]. *)
Definition on_tag {A} (o : option node) (method : node -> A) : result A :=
  match o with
  | Some n => Ok (method n)
  | None => Raise AttributeError
  end.

End Soup.

(** ** Python dictionaries with string keys, in insertion order *)

Module Dict.

Definition dict := list (str * str).

(** [d[k] = v] *)
Fixpoint set (k v : str) (d : dict) : dict :=
  match d with
  | [] => [(k, v)]
  | (k', v') :: rest =>
      if Str.eqb k k' then (k, v) :: rest else (k', v') :: set k v rest
  end.

(** [k in d] *)
Definition mem (k : str) (d : dict) : bool :=
  existsb (fun kv => Str.eqb k (fst kv)) d.

Definition keys (d : dict) : list str := map fst d.

Definition lookup (k : str) (d : dict) : option str := Soup.lookup_attr k d.

End Dict.
Abbreviation dict := Dict.dict.

(** A [for] loop over a list whose body may raise. *)
Fixpoint for_each {A S} (body : S -> A -> result S) (l : list A) (s : S)
  : result S :=
  match l with
  | [] => Ok s
  | x :: l' => rbind (body s x) (for_each body l')
  end.

(** ** parser.py *)

Section Parser.

(** [BeautifulSoup(html_content, 'html.parser')] *)
Variable BeautifulSoup : str -> node.

(** The body of the loop of [parse_books_from_html] (lines 26 to 40):
    the list [books] after the container [book] has been handled. *)
Definition parse_books_body (books : list dict) (book : node)
  : result (list dict) :=
  let book_info : dict := [] in
  rbind (Soup.on_tag (Soup.find book (py "h3") None)
           (fun h3 => Soup.find h3 (py "a") None)) (fun title_element =>
  let book_info :=
    match title_element with
    | Some a =>
        Dict.set (py "Title") (strip (Soup.get a (py "title") [])) book_info
    | None => book_info
    end in
  let price_element := Soup.find book (py "p") (Some (py "price_color")) in
  let book_info :=
    match price_element with
    | Some p => Dict.set (py "Price") (strip (Soup.text p)) book_info
    | None => book_info
    end in
  if Dict.mem (py "Title") book_info && Dict.mem (py "Price") book_info
  then Ok (books ++ [book_info])
  else Ok books).

Definition parse_books_from_html (html_content : option str)
  : result (list dict) :=
  match html_content with
  | None | Some [] => Ok []
  | Some html =>
      let soup := BeautifulSoup html in
      let book_containers :=
        Soup.find_all soup (py "article") (Some (py "product_pod")) in
      for_each parse_books_body book_containers []
  end.

(** The body of the loop of [get_book_urls] (lines 149 to 153). *)
Definition get_book_urls_body (urls : list str) (book : node)
  : result (list str) :=
  rbind (Soup.on_tag (Soup.find book (py "h3") None)
           (fun h3 => Soup.find h3 (py "a") None)) (fun link_element =>
  match link_element with
  | Some a =>
      let href := Soup.get a (py "href") [] in
      match href with
      | [] => Ok urls
      | _ :: _ => Ok (urls ++ [href])
      end
  | None => Ok urls
  end).

Definition get_book_urls (html_content : option str) : result (list str) :=
  match html_content with
  | None | Some [] => Ok []
  | Some html =>
      let soup := BeautifulSoup html in
      let book_containers :=
        Soup.find_all soup (py "article") (Some (py "product_pod")) in
      for_each get_book_urls_body book_containers []
  end.

End Parser.

(** ** parser.py: the price normaliser *)

Section Price.

Variable unicode_decimal : char -> option N.

(** The characters of the class [[£$€¥Â]]. *)
Definition currency_glyphs : list char :=
  [163; 36; 8364; 165; 194]%N.

(** [re.sub(r'[£$€¥Â]', '', price_str)] *)
Definition remove_currency (price_str : str) : str :=
  List.filter (fun c => negb (existsb (N.eqb c) currency_glyphs)) price_str.

Definition clean_price (price_str : str) : result PyFloat.float :=
  match price_str with
  | [] => Ok PyFloat.zero
  | _ :: _ =>
      let cleaned := strip (remove_currency price_str) in
      match PyFloat.of_str unicode_decimal cleaned with
      | Raise ValueError => Ok PyFloat.zero
      | other => other
      end
  end.

End Price.

(** ** The network and the clock

    What the program does to the outside world is recorded as a trace
    of events, oldest first.  The answer to a request is given by an
    oracle that is told how many requests were sent before it, so that
    a server may answer the same request differently each time. *)

Inductive event : Type :=
  | Request (url : str) (timeout : Z)
  | Sleep (seconds : Q).

Record response : Type := Response {
  status_code : Z;
  text : str
}.

Definition trace := list event.

Definition IO (A : Type) : Type := trace -> result A * trace.

Definition ret {A} (a : A) : IO A := fun tr => (Ok a, tr).

Definition bind {A B} (c : IO A) (k : A -> IO B) : IO B :=
  fun tr =>
    match c tr with
    | (Ok a, tr') => k a tr'
    | (Raise e, tr') => (Raise e, tr')
    end.

Definition lift {A} (r : result A) : IO A := fun tr => (r, tr).

Notation "x <- c ;; k" := (bind c (fun x => k))
  (at level 100, c at next level, right associativity).
Notation "c ;;; k" := (bind c (fun _ => k))
  (at level 100, right associativity).

(** [try: body except requests.exceptions.RequestException: handler] *)
Definition try_except_request {A} (body handler : IO A) : IO A :=
  fun tr =>
    match body tr with
    | (Raise RequestException, tr') => handler tr'
    | other => other
    end.

Definition is_request (e : event) : bool :=
  match e with
  | Request _ _ => true
  | Sleep _ => false
  end.

(** [range(a, b)] *)
Definition range (a b : Z) : list Z :=
  map (fun i => (a + Z.of_nat i)%Z) (seq 0 (Z.to_nat (b - a))).

(** [str(n)] for an integer. *)
Definition str_of_int (n : Z) : str :=
  py (NilZero.string_of_int (Z.to_int n)).

(** ** fetcher.py *)

Section Fetcher.

(** [requests.get(url, headers=headers, timeout=timeout)], as answered to
    the request sent after [n] earlier ones: a response, or an
    exception. *)
Variable requests_get : nat -> str -> Z -> result response.

Definition send (url : str) (timeout : Z) : IO response :=
  fun tr =>
    (requests_get (length (List.filter is_request tr)) url timeout,
     tr ++ [Request url timeout]).

(** [time.sleep(seconds)]: a negative length is refused with a
    [ValueError], before any time has passed. *)
Definition sleep (seconds : Q) : IO unit :=
  fun tr =>
    if Qle_bool 0 seconds then (Ok tt, tr ++ [Sleep seconds])
    else (Raise ValueError, tr).

(** [response.raise_for_status()]: client and server error statuses
    become an [HTTPError], which is a [RequestException]. *)
Definition raise_for_status (r : response) : result unit :=
  if ((400 <=? status_code r) && (status_code r <? 600))%Z
  then Raise RequestException
  else Ok tt.

(** The loop of [fetch_html] over the attempts still to be made.  When
    the attempts run out without a [return], the function ends and its
    value is [None]. *)
Fixpoint fetch_html_loop (attempts : list Z) (url : str) (timeout : Z)
    (retry_attempts : Z) : IO (option str) :=
  match attempts with
  | [] => ret None
  | attempt :: rest =>
      try_except_request
        (response <- send url timeout ;;
         lift (raise_for_status response) ;;;
         ret (Some (text response)))
        (if (attempt <? retry_attempts - 1)%Z
         then sleep 2 ;;; fetch_html_loop rest url timeout retry_attempts
         else ret None)
  end.

(** A request fails at the transport level: [requests] raises, or the
    status is one that [raise_for_status] turns into an exception. *)
Definition transport_failure (r : result response) : bool :=
  match r with
  | Raise RequestException => true
  | Raise _ => false
  | Ok resp => ((400 <=? status_code resp) && (status_code resp <? 600))%Z
  end.

(** [n] requests to [url] with two seconds of sleep between one and the
    next. *)
Fixpoint retry_trace (url : str) (timeout : Z) (n : nat) : trace :=
  match n with
  | O => []
  | S O => [Request url timeout]
  | S n' => Request url timeout :: Sleep 2 :: retry_trace url timeout n'
  end.


Definition fetch_html (url : str) (timeout : Z) (retry_attempts : Z)
  : IO (option str) :=
  fetch_html_loop (range 0 retry_attempts) url timeout retry_attempts.

Definition page_url (page_number : Z) : str :=
  if (page_number =? 1)%Z
  then py "https://books.toscrape.com/"
  else py "https://books.toscrape.com/catalogue/page-"
       ++ str_of_int page_number ++ py ".html".

Definition fetch_books_page (page_number : Z) : IO (option str) :=
  fetch_html (page_url page_number) 30 3.

End Fetcher.

(** ** A tree builder for plain markup

    The theorems below hold for every tree builder.  To run the
    extraction on concrete markup, [Markup.tree_of] builds the tree of
    the plain fragment of HTML: start tags whose attribute values are
    quoted or bare, end tags, and text, with no comments, character
    references or self-closing syntax.  An end tag closes the nearest
    open element of that name (and those opened inside it) and is
    dropped when there is none; what is still open at the end of the
    input is closed there. *)

Module Markup.

Definition lt_sign : char := 60%N.
Definition gt_sign : char := 62%N.
Definition slash : char := 47%N.
Definition eq_sign : char := 61%N.
Definition dquote : char := 34%N.
Definition squote : char := 39%N.

(** The input cut into text runs ([false]) and tag bodies ([true], the
    characters between [<] and [>]). *)
Fixpoint chunks (in_tag : bool) (cur : str) (s : str) : list (bool * str) :=
  match s with
  | [] =>
      match in_tag, cur with
      | false, [] => []
      | false, _ => [(false, rev cur)]
      | true, _ => [(false, lt_sign :: rev cur)]
      end
  | c :: s' =>
      if in_tag
      then if (c =? gt_sign)%N then (true, rev cur) :: chunks false [] s'
           else chunks true (c :: cur) s'
      else if (c =? lt_sign)%N
           then match cur with
                | [] => chunks true [] s'
                | _ => (false, rev cur) :: chunks true [] s'
                end
           else chunks false (c :: cur) s'
  end.

Inductive attr_state : Type :=
  | Between
  | InName (name : str)
  | AfterEq (name : str)
  | InQuoted (q : char) (name value : str)
  | InBare (name value : str).

Definition emit (name value : str) (acc : dict) : dict :=
  Dict.set (lower (rev name)) (rev value) acc.

(** The attributes written in a tag body, after the tag name. *)
Fixpoint attrs_go (st : attr_state) (acc : dict) (s : str) : dict :=
  match s with
  | [] =>
      match st with
      | Between => acc
      | InName n | AfterEq n => emit n [] acc
      | InQuoted _ n v | InBare n v => emit n v acc
      end
  | c :: s' =>
      match st with
      | Between =>
          if isspace c then attrs_go Between acc s'
          else attrs_go (InName [c]) acc s'
      | InName n =>
          if (c =? eq_sign)%N then attrs_go (AfterEq n) acc s'
          else if isspace c then attrs_go Between (emit n [] acc) s'
          else attrs_go (InName (c :: n)) acc s'
      | AfterEq n =>
          if (c =? dquote)%N || (c =? squote)%N
          then attrs_go (InQuoted c n []) acc s'
          else if isspace c then attrs_go Between (emit n [] acc) s'
          else attrs_go (InBare n [c]) acc s'
      | InQuoted q n v =>
          if (c =? q)%N then attrs_go Between (emit n v acc) s'
          else attrs_go (InQuoted q n (c :: v)) acc s'
      | InBare n v =>
          if isspace c then attrs_go Between (emit n v acc) s'
          else attrs_go (InBare n (c :: v)) acc s'
      end
  end.

Fixpoint span_name (cur : str) (s : str) : str * str :=
  match s with
  | [] => (rev cur, [])
  | c :: s' => if isspace c then (rev cur, s') else span_name (c :: cur) s'
  end.

Inductive token : Type :=
  | TStart (name : str) (attrs : dict)
  | TEnd (name : str)
  | TText (s : str).

Definition token_of (chunk : bool * str) : token :=
  match chunk with
  | (false, s) => TText s
  | (true, c :: rest) =>
      if (c =? slash)%N then TEnd (lower (strip rest))
      else let '(name, more) := span_name [] (c :: rest) in
           TStart (lower name) (attrs_go Between [] more)
  | (true, []) => TText [lt_sign; gt_sign]
  end.

Definition void_elements : list str :=
  map py [ "area"; "base"; "br"; "col"; "embed"; "hr"; "img"; "input";
           "link"; "meta"; "param"; "source"; "track"; "wbr" ]%string.

(** An open element: its name, attributes and the children seen so
    far, latest first. *)
Definition frame : Type := str * dict * list node.

Record builder : Type := {
  open : list frame;
  top : list node
}.

Definition append_node (c : node) (b : builder) : builder :=
  match open b with
  | [] => {| open := []; top := c :: top b |}
  | (n, a, cs) :: r => {| open := (n, a, c :: cs) :: r; top := top b |}
  end.

Definition close_one (b : builder) : builder :=
  match open b with
  | [] => b
  | (n, a, cs) :: r =>
      append_node (Tag n a (rev cs)) {| open := r; top := top b |}
  end.

Fixpoint depth_of (name : str) (fs : list frame) : option nat :=
  match fs with
  | [] => None
  | (n, _, _) :: r =>
      if Str.eqb n name then Some 1
      else option_map S (depth_of name r)
  end.

Definition feed (b : builder) (t : token) : builder :=
  match t with
  | TText s => append_node (NavigableString s) b
  | TStart n a =>
      if existsb (Str.eqb n) void_elements then append_node (Tag n a []) b
      else {| open := (n, a, []) :: open b; top := top b |}
  | TEnd n =>
      match depth_of n (open b) with
      | Some k => Nat.iter k close_one b
      | None => b
      end
  end.

Definition tree_of (markup : str) : node :=
  let b := fold_left feed (map token_of (chunks false [] markup))
             {| open := []; top := [] |} in
  let b := Nat.iter (length (open b)) close_one b in
  Tag (py "[document]") [] (rev (top b)).

End Markup.

(** ** main.py: the crawl controller *)

Section Crawl.

Variable BeautifulSoup : str -> node.
Variable requests_get : nat -> str -> Z -> result response.

Definition scrape_single_page (page_number : Z) : IO (list dict) :=
  html_content <- fetch_books_page requests_get page_number ;;
  if truthy html_content
  then lift (parse_books_from_html BeautifulSoup html_content)
  else ret [].

(** The loop of [scrape_multiple_pages] over the pages still to be
    visited. *)
Fixpoint scrape_multiple_pages_loop (pages : list Z)
    (start_page num_pages : Z) (delay : Q) (all_books : list dict)
  : IO (list dict) :=
  match pages with
  | [] => ret all_books
  | page :: rest =>
      books <- scrape_single_page page ;;
      match books with
      | _ :: _ =>
          let all_books := all_books ++ books in
          (if (page <? start_page + num_pages - 1)%Z
           then sleep delay
           else ret tt) ;;;
          scrape_multiple_pages_loop rest start_page num_pages delay all_books
      | [] => ret all_books
      end
  end.

Definition scrape_multiple_pages (start_page num_pages : Z) (delay : Q)
  : IO (list dict) :=
  scrape_multiple_pages_loop (range start_page (start_page + num_pages))
    start_page num_pages delay [].

(** The [while True] loop of [scrape_all_pages].  [fuel] bounds the
    number of turns; the value is [None] when the loop is still running
    after that many. *)
Fixpoint scrape_all_pages_loop (fuel : nat) (page : Z)
    (all_books : list dict) (delay : Q) : IO (option (list dict)) :=
  match fuel with
  | O => ret None
  | S fuel' =>
      html_content <- fetch_books_page requests_get page ;;
      if negb (truthy html_content) then ret (Some all_books)
      else
        not_found <- lift (is_page_not_found html_content) ;;
        if (not_found : bool) then ret (Some all_books)
        else
          books <- lift (parse_books_from_html BeautifulSoup html_content) ;;
          match books with
          | [] => ret (Some all_books)
          | _ :: _ =>
              let all_books := all_books ++ books in
              sleep delay ;;;
              scrape_all_pages_loop fuel' (page + 1)%Z all_books delay
          end
  end.

Definition scrape_all_pages (fuel : nat) (start_page : Z) (delay : Q)
  : IO (option (list dict)) :=
  scrape_all_pages_loop fuel start_page [] delay.


(** The page is served, whenever it is asked for, with a status that
    is not an error. *)
Definition served (page : Z) (html : str) : Prop :=
  forall n, exists resp,
    requests_get n (page_url page) 30 = Ok resp /\
    raise_for_status resp = Ok tt /\ text resp = html.

(** A page of the catalogue: not taken for the end of the catalogue,
    and carrying the records [books], of which there is at least one. *)
Definition catalog_page (html : str) (books : list dict) : Prop :=
  html <> [] /\
  is_page_not_found (Some html) = Ok false /\
  parse_books_from_html BeautifulSoup (Some html) = Ok books /\
  books <> [].



End Crawl.

(** ** The file system and pandas

    A file system maps the paths that exist to their text; some paths
    cannot be opened for writing.  Opening such a path raises [OSError]
    and changes nothing.  A file is written in UTF-8, which has no
    encoding for the surrogate code points: a text that holds one is
    refused with a [UnicodeEncodeError], which is a [ValueError], after
    the file has been opened (and emptied, in write mode). *)

Record filesystem : Type := {
  files : gmap str str;
  unwritable : gset str
}.

Inductive open_mode : Type := ModeW | ModeA.

(** The text of the file at [path], if there is one. *)
Definition read_file (fs : filesystem) (path : str) : option str :=
  files fs !! path.

(** [os.path.exists(path)] *)
Definition path_exists (fs : filesystem) (path : str) : bool :=
  match read_file fs path with
  | Some _ => true
  | None => false
  end.

(** The text can be encoded in UTF-8: it holds no surrogate. *)
Definition encodable (text : str) : bool :=
  forallb (fun c => negb ((55296 <=? c) && (c <=? 57343))%N) text.

Section Disk.

(** What of a text had reached the file when the encoder refused it.
    This depends on how the writes are buffered, and nothing is assumed
    of it. *)
Variable flushed : str -> str.

(** Open [path] in the given mode, write [data], close. *)
Definition write_file (path : str) (mode : open_mode) (data : str)
    (fs : filesystem) : result unit * filesystem :=
  if bool_decide (path ∈ unwritable fs) then (Raise OSError, fs)
  else
    let before :=
      match mode with
      | ModeW => []
      | ModeA => default [] (read_file fs path)
      end in
    if encodable data
    then (Ok tt, {| files := <[path := before ++ data]> (files fs);
                    unwritable := unwritable fs |})
    else (Raise ValueError,
          {| files := <[path := before ++ flushed data]> (files fs);
             unwritable := unwritable fs |}).

End Disk.





Module Pandas.

(** A frame of text cells; a cell that a record does not fill is
    missing. *)
Record DataFrame : Type := {
  columns : list str;
  rows : list (list (option str))
}.

(** The keys of the records in order of first appearance. *)
Definition union_keys (data : list dict) : list str :=
  fold_left
    (fun cols d =>
       fold_left
         (fun cols k => if existsb (Str.eqb k) cols then cols else cols ++ [k])
         (Dict.keys d) cols)
    data [].

(** [pd.DataFrame(data)] for a list of records. *)
Definition from_records (data : list dict) : DataFrame :=
  let cols := union_keys data in
  {| columns := cols;
     rows := map (fun d => map (fun k => Dict.lookup k d) cols) data |}.

Section ToCsv.

Variable flushed : str -> str.

(** One row of cells as a line of the file, terminator included. *)
Variable render_row : list (option str) -> str.

Definition header_line (df : DataFrame) : str :=
  render_row (map Some (columns df)).

Definition data_lines (df : DataFrame) : str :=
  concat (map render_row (rows df)).

(** [df.to_csv(path, mode=mode, header=header, index=False,
    encoding='utf-8')] *)
Definition to_csv (df : DataFrame) (path : str) (mode : open_mode)
    (header : bool) (fs : filesystem) : result unit * filesystem :=
  write_file flushed path mode
    ((if header then header_line df else []) ++ data_lines df) fs.

End ToCsv.

End Pandas.

(** ** saver.py *)

Section Saver.

Variable flushed : str -> str.
Variable render_row : list (option str) -> str.

Definition save_to_csv (data : list dict) (filename : str) (append : bool)
    (fs : filesystem) : bool * filesystem :=
  match data with
  | [] => (false, fs)
  | _ :: _ =>
      let df := Pandas.from_records data in
      let mode := if append then ModeA else ModeW in
      let header := negb (append && path_exists fs filename) in
      match Pandas.to_csv flushed render_row df filename mode header fs with
      | (Ok _, fs') => (true, fs')
      | (Raise _, fs') => (false, fs')
      end
  end.

Definition append_books_to_csv (books : list dict) (filename : str)
    (fs : filesystem) : bool * filesystem :=
  save_to_csv books filename true fs.

End Saver.

(** ** Reading a record container

    The notions the statements about the extractor are phrased in. *)

Module Container.

(** The record containers of a document, in document order. *)
Definition containers (soup : node) : list node :=
  Soup.find_all soup (py "article") (Some (py "product_pod")).

(** The nested link: the first [a] inside the first [h3]. *)
Definition link_of (book : node) : option node :=
  match Soup.find book (py "h3") None with
  | Some h3 => Soup.find h3 (py "a") None
  | None => None
  end.

Definition price_of (book : node) : option node :=
  Soup.find book (py "p") (Some (py "price_color")).

Definition has_h3 (book : node) : bool :=
  match Soup.find book (py "h3") None with
  | Some _ => true
  | None => false
  end.

Definition has_attr (key : str) (n : node) : bool :=
  match n with
  | Tag _ attrs _ =>
      match Soup.lookup_attr key attrs with
      | Some _ => true
      | None => false
      end
  | _ => false
  end.

(** Both fields are there: the link carries a [title] attribute and
    the price element exists. *)
Definition well_formed (book : node) : bool :=
  match link_of book, price_of book with
  | Some a, Some _ => has_attr (py "title") a
  | _, _ => false
  end.

(** The record of a container whose link and price element exist. *)
Definition record_of (a p : node) : dict :=
  [ (py "Title", strip (Soup.get a (py "title") []));
    (py "Price", strip (Soup.text p)) ].

Definition extract (book : node) : option dict :=
  match link_of book, price_of book with
  | Some a, Some p => Some (record_of a p)
  | _, _ => None
  end.

End Container.

(** ** Sample documents *)

Module Samples.

Definition pound : char := 163%N.

(** One container whose link has no [title] attribute. *)
Definition untitled_page : str :=
  py "<article class='product_pod'><h3><a href='x.html'>Untitled</a></h3><p class='price_color'>"
  ++ pound :: py "1.00</p></article>".

(** One container without an [h3]. *)
Definition headless_page : str :=
  py "<article class='product_pod'><p class='price_color'>"
  ++ pound :: py "51.77</p></article>".

(** Four containers: complete, without price element, without link,
    complete. *)
Definition mixed_page : str :=
  py "<html><body><section>"
  ++ py "<article class='product_pod'><h3><a href='a.html' title='A Light in the Attic'>A Light in ...</a></h3><p class='price_color'>"
  ++ pound :: py "51.77</p></article>"
  ++ py "<article class='product_pod'><h3><a href='b.html' title='No Price'>No Price</a></h3></article>"
  ++ py "<article class='product_pod'><h3>No link</h3><p class='price_color'>"
  ++ pound :: py "9.99</p></article>"
  ++ py "<article class='featured product_pod'><h3><a href='d.html' title='Soumission'>Soumission</a></h3><p class='price_color'> "
  ++ pound :: py "50.10 </p></article>"
  ++ py "</section></body></html>".

Definition untitled_book : node :=
  Eval vm_compute in
    hd (Comment []) (Container.containers (Markup.tree_of untitled_page)).

Definition untitled_link : node :=
  Eval vm_compute in default (Comment []) (Container.link_of untitled_book).

Definition untitled_price : node :=
  Eval vm_compute in default (Comment []) (Container.price_of untitled_book).

(** A product card as the catalogue lays it out. *)
Definition card (href title price : string) : str :=
  py "<li class='col-xs-6 col-sm-4'><article class='product_pod'>"
  ++ py "<div class='image_container'><a href='" ++ py href
  ++ py "'><img src='media/cover.jpg' class='thumbnail'></a></div>"
  ++ py "<h3><a href='" ++ py href ++ py "' title='" ++ py title ++ py "'>"
  ++ py title ++ py "</a></h3><div class='product_price'><p class='price_color'>"
  ++ pound :: py price ++ py "</p><p class='instock availability'>In stock</p>"
  ++ py "</div></article></li>".

Definition page_with (title_element : str) (cards : list str) : str :=
  py "<html lang='en'><head>" ++ title_element
  ++ py "</head><body><div class='page_inner'><section><ol class='row'>"
  ++ concat cards
  ++ py "</ol></section></div></body></html>".

Definition page_of (cards : list str) : str :=
  page_with (py "<title>All products | Books to Scrape</title>")
    cards.

(** Two catalogue pages and the page served past the end. *)
Definition catalog_page_1 : str :=
  page_of [ card "a-light-in-the-attic_1000/index.html" "A Light in the Attic" "51.77";
            card "tipping-the-velvet_999/index.html" "Tipping the Velvet" "53.74" ].

Definition catalog_page_2 : str :=
  page_of [ card "soumission_998/index.html" "Soumission" "50.10" ].

Definition not_found_page : str :=
  py "<html><head><title>404 Not Found</title></head><body><h1>Not Found</h1><p>The requested URL was not found on this server.</p></body></html>".

(** Rows written with commas between the cells and a line feed at the
    end, a missing cell left empty. *)
Definition plain_row (cells : list (option str)) : str :=
  match cells with
  | [] => [10%N]
  | c :: rest =>
      default [] c
      ++ flat_map (fun c => 44%N :: default [] c) rest ++ [10%N]
  end.

Definition two_books : list dict :=
  [ [ (py "Title", py "A Light in the Attic"); (py "Price", pound :: py "51.77") ];
    [ (py "Title", py "Tipping the Velvet"); (py "Price", pound :: py "53.74") ] ].

Definition one_book : list dict :=
  [ [ (py "Title", py "Soumission"); (py "Price", pound :: py "50.10") ] ].

Definition books_csv : str := py "books.csv".

Definition empty_disk : filesystem := {| files := ∅; unwritable := ∅ |}.

Definition stocked_disk : filesystem :=
  {| files := {[ books_csv := plain_row [Some (py "Title"); Some (py "Price")]
                              ++ plain_row [Some (py "Soumission");
                                            Some (pound :: py "50.10")] ]};
     unwritable := ∅ |}.

Definition locked_disk : filesystem :=
  {| files := {[ books_csv := py "kept" ]}; unwritable := {[ books_csv ]} |}.

(** A page of records whose title holds [404], and the same page with
    an attribute in the title tag. *)
Definition oops_page : str :=
  page_with (py "<title>Oops 404</title>")
    [ card "a-light-in-the-attic_1000/index.html" "A Light in the Attic" "51.77";
      card "tipping-the-velvet_999/index.html" "Tipping the Velvet" "53.74" ].

Definition oops_page_lang : str :=
  page_with (py "<title lang='en'>Oops 404</title>")
    [ card "a-light-in-the-attic_1000/index.html" "A Light in the Attic" "51.77";
      card "tipping-the-velvet_999/index.html" "Tipping the Velvet" "53.74" ].



Definition sample_server (n : nat) (url : str) (timeout : Z)
  : result response :=
  if Str.eqb url (page_url 1) then Ok (Response 200 catalog_page_1)
  else if Str.eqb url (page_url 2) then Ok (Response 200 catalog_page_2)
  else if Str.eqb url (page_url 3) then Ok (Response 200 not_found_page)
  else Ok (Response 404 not_found_page).

(** A server whose second page is short: it carries a record, and the
    heuristic takes it for the end of the catalogue. *)
Definition short_page : str :=
  py "<article class='product_pod'><h3><a href='s.html' title='Short'>Short</a></h3><p class='price_color'>"
  ++ pound :: py "5.00</p></article>".

Definition short_server (n : nat) (url : str) (timeout : Z)
  : result response :=
  if Str.eqb url (page_url 1) then Ok (Response 200 catalog_page_1)
  else if Str.eqb url (page_url 2) then Ok (Response 200 short_page)
  else if Str.eqb url (page_url 3) then Ok (Response 200 catalog_page_2)
  else Ok (Response 404 not_found_page).

(** A catalogue page of ordinary size, one of whose records has a
    title that holds one of the phrases. *)
Definition phrase_page : str :=
  page_of [ card "no-results-found_12/index.html" "No Results Found" "12.00";
            card "tipping-the-velvet_999/index.html" "Tipping the Velvet" "53.74" ].


(** A record whose title holds a lone surrogate, as the tree builder
    gives it for the character reference [&#xD800;]. *)
Definition surrogate_book : list dict :=
  [ [ (py "Title", [55296%N]); (py "Price", pound :: py "1.00") ] ].

(** Buffering under which nothing of a refused text reaches the file. *)
Definition nothing_flushed (text : str) : str := [].

End Samples.

(** * The rest of the pipeline *)

(** ** The trace of a bounded crawl *)


(** The number of pauses in a trace. *)
Definition pauses (tr : trace) : nat :=
  length (List.filter (fun e => negb (is_request e)) tr).

(** The number of requests in a trace. *)
Definition requests (tr : trace) : nat :=
  length (List.filter is_request tr).

(** ** fetcher.py: detail pages *)

(** [s.lstrip(chars)]: [s] without its leading characters that are in
    [chars]. *)
Fixpoint lstrip_chars (chars : list char) (s : str) : str :=
  match s with
  | c :: s' => if existsb (N.eqb c) chars then lstrip_chars chars s' else s
  | [] => []
  end.

Definition base_url : str := py "https://books.toscrape.com/".

(** The URL that [fetch_book_detail] fetches (lines 66 to 70): an URL
    that starts with [http] as it is, any other one after the base URL,
    without its leading dots and slashes. *)
Definition detail_url (book_url : str) : str :=
  if negb (startswith (py "http") book_url)
  then base_url ++ lstrip_chars (py "../") book_url
  else book_url.

Section FetchDetail.

Variable requests_get : nat -> str -> Z -> result response.

Definition fetch_book_detail (book_url : str) : IO (option str) :=
  fetch_html requests_get (detail_url book_url) 30 3.

End FetchDetail.

(** ** Reading a link and a field *)

(** The address a container contributes to the link harvest: the
    [href] of its nested link, when there is one and it is not empty. *)
Definition href_of (book : node) : option str :=
  match Container.link_of book with
  | Some a =>
      match Soup.get a (py "href") [] with
      | [] => None
      | href => Some href
      end
  | None => None
  end.

(** A text with no whitespace at either end. *)
Definition trimmed (v : str) : Prop :=
  match v with c :: _ => isspace c = false | [] => True end /\
  match last v with Some c => isspace c = false | None => True end.

(** ** The trace of an exhaustive crawl *)


Section CrawlNotions.

Variable BeautifulSoup : str -> node.
Variable requests_get : nat -> str -> Z -> result response.



End CrawlNotions.

(** ** More of BeautifulSoup

    Searches by a class given as a string with a space in it, by a
    pattern on the class, and by another attribute; and the siblings
    that follow an element. *)

Module Bs4.

(** [' '.join(values)] *)
Fixpoint join_space (values : list str) : str :=
  match values with
  | [] => []
  | [v] => v
  | v :: rest => v ++ 32%N :: join_space rest
  end.

(** [tag.get('class')]: the values of the [class] attribute, which the
    tree builder splits at white space. *)
Definition classes (n : node) : option (list str) :=
  match n with
  | Tag _ attrs _ =>
      option_map Soup.words (Soup.lookup_attr (py "class") attrs)
  | _ => None
  end.

(** [class_=cls] for a string: one of the values is [cls], or the
    values joined by single spaces are. *)
Definition class_is (cls : str) (n : node) : bool :=
  match classes n with
  | Some values =>
      existsb (fun v => Str.eqb v cls) values
      || Str.eqb (join_space values) cls
  | None => false
  end.

(** [class_=re.compile(pattern)] for a pattern that is a plain word:
    the word occurs in one of the values, or in the values joined. *)
Definition class_search (word : str) (n : node) : bool :=
  match classes n with
  | Some values =>
      existsb (contains word) values || contains word (join_space values)
  | None => false
  end.

(** [key=value] for an attribute that holds one value, such as [id]. *)
Definition attr_is (key value : str) (n : node) : bool :=
  match n with
  | Tag _ attrs _ =>
      match Soup.lookup_attr key attrs with
      | Some v => Str.eqb v value
      | None => false
      end
  | _ => false
  end.

Definition named (name : str) (n : node) : bool :=
  match n with
  | Tag nm _ _ => Str.eqb nm name
  | _ => false
  end.

(** [soup.find(...)] for a test on the element. *)
Definition find_by (test : node -> bool) (n : node) : option node :=
  head (List.filter test (Soup.descendants n)).

(** The first element below [n], in document order, that passes the
    test, with the siblings that follow it. *)
Fixpoint locate (test : node -> bool) (n : node)
  : option (node * list node) :=
  match n with
  | Tag _ _ cs =>
      (fix among (l : list node) : option (node * list node) :=
         match l with
         | [] => None
         | c :: rest =>
             if test c then Some (c, rest)
             else match locate test c with
                  | Some found => Some found
                  | None => among rest
                  end
         end) cs
  | NavigableString _ | Comment _ => None
  end.

(** [tag.find_next_sibling(name)], given the siblings after [tag]. *)
Definition find_next_sibling (next_siblings : list node) (name : str)
  : option node :=
  head (List.filter (named name) next_siblings).

End Bs4.

(** ** parser.py: the detail page *)

Definition rating_words : list str :=
  [py "One"; py "Two"; py "Three"; py "Four"; py "Five"].

Section Details.

Variable BeautifulSoup : str -> node.

(** The body of the loop over the rows of the product table (lines 81
    to 86). *)
Definition table_row_body (book_details : dict) (row : node) : dict :=
  match Soup.find row (py "th") None, Soup.find row (py "td") None with
  | Some header, Some data =>
      let key := strip (Soup.text header) in
      let value := strip (Soup.text data) in
      Dict.set key value book_details
  | _, _ => book_details
  end.

Definition parse_book_details (html_content : option str) : dict :=
  match html_content with
  | None | Some [] => []
  | Some html =>
      let soup := BeautifulSoup html in
      let book_details : dict := [] in
      let book_details :=
        match Soup.find soup (py "h1") None with
        | Some title_element =>
            Dict.set (py "Title") (strip (Soup.text title_element))
              book_details
        | None => book_details
        end in
      let book_details :=
        match Soup.find soup (py "p") (Some (py "price_color")) with
        | Some price_element =>
            Dict.set (py "Price") (strip (Soup.text price_element))
              book_details
        | None => book_details
        end in
      let book_details :=
        match Bs4.find_by
                (fun n => Bs4.named (py "p") n
                          && Bs4.class_is (py "instock availability") n)
                soup with
        | Some availability_element =>
            Dict.set (py "Availability")
              (strip (Soup.text availability_element)) book_details
        | None => book_details
        end in
      let book_details :=
        match Bs4.find_by
                (fun n => Bs4.named (py "table") n
                          && Bs4.class_is (py "table table-striped") n)
                soup with
        | Some product_table =>
            let rows := Soup.find_all product_table (py "tr") None in
            fold_left table_row_body rows book_details
        | None => book_details
        end in
      let book_details :=
        match Bs4.locate
                (fun n => Bs4.named (py "div") n
                          && Bs4.attr_is (py "id") (py "product_description") n)
                soup with
        | Some (description_div, next_siblings) =>
            match Bs4.find_next_sibling next_siblings (py "p") with
            | Some description_p =>
                Dict.set (py "Description")
                  (strip (Soup.text description_p)) book_details
            | None => book_details
            end
        | None => book_details
        end in
      let book_details :=
        match Bs4.find_by
                (fun n => Bs4.named (py "p") n
                          && Bs4.class_search (py "star-rating") n)
                soup with
        | Some rating_element =>
            let rating_classes := default [] (Bs4.classes rating_element) in
            match List.find
                    (fun class_name =>
                       existsb (Str.eqb class_name) rating_words)
                    rating_classes with
            | Some class_name => Dict.set (py "Rating") class_name book_details
            | None => book_details
            end
        | None => book_details
        end in
      book_details
  end.

End Details.

Definition detail_page : str :=
  py "<html><head><title>A Light in the Attic | Books to Scrape</title></head><body>"
  ++ py "<div class='col-sm-6 product_main'><h1> A Light in the Attic </h1>"
  ++ py "<p class='price_color'>" ++ 163%N :: py "51.77</p>"
  ++ py "<p class='instock availability'><i class='icon-ok'></i> In stock (22 available) </p>"
  ++ py "<p class='star-rating Three'><i class='icon-star'></i></p></div>"
  ++ py "<div id='product_description' class='sub-header'><h2>Product Description</h2></div>"
  ++ py "<p>Poems and drawings.</p>"
  ++ py "<table class='table table-striped'>"
  ++ py "<tr><th>UPC</th><td>a897fe39b1053632</td></tr>"
  ++ py "<tr><th>Product Type</th><td>Books</td></tr>"
  ++ py "<tr><th>Title</th><td>From the table</td></tr>"
  ++ py "<tr><th>Rating</th><td>unrated</td></tr>"
  ++ py "<tr><td>no header</td></tr>"
  ++ py "</table></body></html>".

(** *** What a detail page offers

    The places the detail parser reads, each as the value it would
    store. *)

Module Detail.

Definition headline (soup : node) : option str :=
  option_map (fun e => strip (Soup.text e)) (Soup.find soup (py "h1") None).

Definition price (soup : node) : option str :=
  option_map (fun e => strip (Soup.text e))
    (Soup.find soup (py "p") (Some (py "price_color"))).

Definition availability (soup : node) : option str :=
  option_map (fun e => strip (Soup.text e))
    (Bs4.find_by
       (fun n => Bs4.named (py "p") n
                 && Bs4.class_is (py "instock availability") n)
       soup).

(** The label and the value of a table row that has both cells. *)
Definition row_entry (row : node) : option (str * str) :=
  match Soup.find row (py "th") None, Soup.find row (py "td") None with
  | Some header, Some data =>
      Some (strip (Soup.text header), strip (Soup.text data))
  | _, _ => None
  end.

(** The rows of the product table, top to bottom. *)
Definition table_entries (soup : node) : list (str * str) :=
  match Bs4.find_by
          (fun n => Bs4.named (py "table") n
                    && Bs4.class_is (py "table table-striped") n)
          soup with
  | Some product_table =>
      omap row_entry (Soup.find_all product_table (py "tr") None)
  | None => []
  end.

(** The paragraph after the description heading. *)
Definition description (soup : node) : option str :=
  match Bs4.locate
          (fun n => Bs4.named (py "div") n
                    && Bs4.attr_is (py "id") (py "product_description") n)
          soup with
  | Some (_, next_siblings) =>
      option_map (fun e => strip (Soup.text e))
        (Bs4.find_next_sibling next_siblings (py "p"))
  | None => None
  end.

(** The first number word among the classes of the rating element. *)
Definition rating (soup : node) : option str :=
  match Bs4.find_by
          (fun n => Bs4.named (py "p") n
                    && Bs4.class_search (py "star-rating") n)
          soup with
  | Some rating_element =>
      List.find (fun class_name => existsb (Str.eqb class_name) rating_words)
        (default [] (Bs4.classes rating_element))
  | None => None
  end.

(** The value of the last row labelled [k]. *)
Definition last_entry (k : str) (entries : list (str * str)) : option str :=
  Dict.lookup k (rev entries).

(** What the page offers for a key outside the table. *)
Definition labelled (soup : node) (k : str) : option str :=
  if Str.eqb k (py "Rating") then rating soup
  else if Str.eqb k (py "Description") then description soup
  else None.

Definition headed (soup : node) (k : str) : option str :=
  if Str.eqb k (py "Title") then headline soup
  else if Str.eqb k (py "Price") then price soup
  else if Str.eqb k (py "Availability") then availability soup
  else None.

(** The value of a key: from the rating or the description if that
    is the key and the page has it, else from the last table row with
    that label, else from the top of the page. *)
Definition field_of (soup : node) (k : str) : option str :=
  match labelled soup k with
  | Some v => Some v
  | None =>
      match last_entry k (table_entries soup) with
      | Some v => Some v
      | None => headed soup k
      end
  end.

Definition set_opt (k : str) (o : option str) (d : dict) : dict :=
  match o with
  | Some v => Dict.set k v d
  | None => d
  end.

Definition set_entry (d : dict) (kv : str * str) : dict :=
  Dict.set (fst kv) (snd kv) d.

End Detail.

(** ** main.py: details for a few records *)

(** [l[:stop]]: the first [stop] elements, or all but the last
    [-stop] when [stop] is negative. *)
Definition slice_to {A} (stop : Z) (l : list A) : list A :=
  if (stop <? 0)%Z
  then firstn (Z.to_nat (Z.of_nat (length l) + stop)) l
  else firstn (Z.to_nat stop) l.

(** A [for] loop whose body acts on the world. *)
Fixpoint io_for_each {A S} (body : S -> A -> IO S) (l : list A) (s : S)
  : IO S :=
  match l with
  | [] => ret s
  | x :: l' => s' <- body s x ;; io_for_each body l' s'
  end.

Section ScrapeDetails.

Variable BeautifulSoup : str -> node.
Variable requests_get : nat -> str -> Z -> result response.

(** The body of the loop of [scrape_book_details] (lines 193 to
    202). *)
Definition scrape_book_details_body (detailed_books : list dict)
    (url : str) : IO (list dict) :=
  detail_html <- fetch_book_detail requests_get url ;;
  let detailed_books :=
    if truthy detail_html
    then match parse_book_details BeautifulSoup detail_html with
         | [] => detailed_books
         | (_ :: _) as book_details => detailed_books ++ [book_details]
         end
    else detailed_books in
  sleep (1 # 2) ;;;
  ret detailed_books.

(** The argument [books] is not read. *)
Definition scrape_book_details (books : list dict) (max_details : Z)
  : IO (list dict) :=
  html_content <- fetch_books_page requests_get 1 ;;
  if truthy html_content
  then
    book_urls <- lift (get_book_urls BeautifulSoup html_content) ;;
    io_for_each scrape_book_details_body (slice_to max_details book_urls) []
  else ret [].

(** The address answers with [html] whenever it is asked for. *)
Definition answers (url html : str) : Prop :=
  forall n, exists resp,
    requests_get n url 30 = Ok resp /\
    raise_for_status resp = Ok tt /\ text resp = html.

(** Every request to the address fails at the transport level. *)
Definition unreachable (url : str) : Prop :=
  forall n, transport_failure (requests_get n url 30) = true.

(** What the site holds behind the links: a page, or nothing. *)
Definition site_gives (site : str -> option str) (book_url : str) : Prop :=
  match site book_url with
  | Some html => answers (detail_url book_url) html
  | None => unreachable (detail_url book_url)
  end.

(** The events of one turn of the loop: one request for a page that
    is there or three for one that is not, then half a second of
    sleep. *)
Definition detail_events (site : str -> option str) (book_url : str)
  : trace :=
  match site book_url with
  | Some _ => [Request (detail_url book_url) 30]
  | None => retry_trace (detail_url book_url) 30 3
  end ++ [Sleep (1 # 2)].

(** The details kept for a link: those of its page, if there are
    any. *)
Definition detail_of (site : str -> option str) (book_url : str)
  : option dict :=
  match parse_book_details BeautifulSoup (site book_url) with
  | [] => None
  | (_ :: _) as book_details => Some book_details
  end.

End ScrapeDetails.

(** ** saver.py: the book table

    [save_books_to_csv] adds a numeric column to the frame, so its
    cells are of more than one kind. *)

Module Frame.

(** A cell: text, a float, or the [NaN] that stands for a missing
    value. *)
Inductive cell : Type :=
  | Text (s : str)
  | Float (f : PyFloat.float)
  | NaN.

Record DataFrame : Type := {
  columns : list str;
  rows : list (list cell)
}.

Definition cell_of (o : option str) : cell :=
  match o with
  | Some s => Text s
  | None => NaN
  end.

(** [pd.DataFrame(data)] for a list of records. *)
Definition of_records (data : list dict) : DataFrame :=
  let df := Pandas.from_records data in
  {| columns := Pandas.columns df;
     rows := map (map cell_of) (Pandas.rows df) |}.

Fixpoint index_of (name : str) (cols : list str) : option nat :=
  match cols with
  | [] => None
  | c :: rest =>
      if Str.eqb name c then Some 0 else option_map S (index_of name rest)
  end.

(** [df[name]], for a name that is one of the columns. *)
Definition column (name : str) (df : DataFrame) : option (list cell) :=
  option_map (fun i => map (fun row => nth i row NaN) (rows df))
    (index_of name (columns df)).

(** [df[name] = values]: the column is replaced where it stands, or
    added at the end. *)
Definition set_column (name : str) (values : list cell) (df : DataFrame)
  : DataFrame :=
  match index_of name (columns df) with
  | Some i =>
      {| columns := columns df;
         rows := zip_with (fun row v => <[i := v]> row) (rows df) values |}
  | None =>
      {| columns := columns df ++ [name];
         rows := zip_with (fun row v => row ++ [v]) (rows df) values |}
  end.

End Frame.

Section SaveBooks.

Variable flushed : str -> str.
Variable unicode_decimal : char -> option N.

(** One row of cells as a line of the file, terminator included. *)
Variable render_cells : list Frame.cell -> str.

(** [datetime.now().strftime("%Y-%m-%d %H:%M:%S")] *)
Variable now : str.

(** [clean_price] on a cell.  [None] stands for the [TypeError] that
    [re.sub] raises on a value that is not a string, which is what
    happens on [NaN] and on a float other than zero; a zero float is
    falsy and gives [0.0]. *)
Definition clean_price_cell (c : Frame.cell) : option PyFloat.float :=
  match c with
  | Frame.Text s =>
      match clean_price unicode_decimal s with
      | Ok f => Some f
      | Raise _ => None
      end
  | Frame.Float (S754_zero _) => Some PyFloat.zero
  | Frame.Float _ => None
  | Frame.NaN => None
  end.

(** The text of a frame: the header line and the lines of the rows. *)
Definition frame_text (df : Frame.DataFrame) : str :=
  render_cells (map Frame.Text (Frame.columns df))
  ++ concat (map render_cells (Frame.rows df)).

(** [df.to_csv(filename, index=False, encoding='utf-8')] *)
Definition frame_to_csv (df : Frame.DataFrame) (path : str)
    (fs : filesystem) : result unit * filesystem :=
  write_file flushed path ModeW (frame_text df) fs.

(** An exception in the [try] block, of whatever class, makes the
    answer [False]. *)
Definition save_books_to_csv (books : list dict) (filename : str)
    (fs : filesystem) : bool * filesystem :=
  match books with
  | [] => (false, fs)
  | _ :: _ =>
      let df := Frame.of_records books in
      let priced : option Frame.DataFrame :=
        match Frame.column (py "Price") df with
        | Some prices =>
            option_map
              (fun numbers =>
                 Frame.set_column (py "Price_Numeric")
                   (map Frame.Float numbers) df)
              (mapM clean_price_cell prices)
        | None => Some df
        end in
      match priced with
      | None => (false, fs)
      | Some df =>
          let df :=
            Frame.set_column (py "Scraped_At")
              (map (fun _ => Frame.Text now) (Frame.rows df)) df in
          match frame_to_csv df filename fs with
          | (Ok _, fs') => (true, fs')
          | (Raise _, fs') => (false, fs')
          end
      end
  end.

(** The table that [save_books_to_csv] hands to [to_csv], when the
    conversion of the prices has gone through. *)
Definition book_table (books : list dict) : option Frame.DataFrame :=
  let df := Frame.of_records books in
  let priced : option Frame.DataFrame :=
    match Frame.column (py "Price") df with
    | Some prices =>
        option_map
          (fun numbers =>
             Frame.set_column (py "Price_Numeric")
               (map Frame.Float numbers) df)
          (mapM clean_price_cell prices)
    | None => Some df
    end in
  option_map
    (fun df => Frame.set_column (py "Scraped_At")
                 (map (fun _ => Frame.Text now) (Frame.rows df)) df)
    priced.

(** The float of a price text. *)
Definition price_number (price : str) : PyFloat.float :=
  match clean_price unicode_decimal price with
  | Ok f => f
  | Raise _ => PyFloat.zero
  end.

(** The line of a record with a title and a price. *)
Definition book_row (book : dict) : list Frame.cell :=
  map Frame.Text (map snd book)
  ++ [Frame.Float
        (price_number (default [] (Dict.lookup (py "Price") book)));
      Frame.Text now].

End SaveBooks.

(** ** More sample documents and servers *)

Module Cases.

Import Samples.

(** A server that holds the given pages and answers 404 for anything
    else. *)
Definition server_of (held : list (str * str)) (n : nat) (url : str)
    (timeout : Z) : result response :=
  match Dict.lookup url held with
  | Some html => Ok (Response 200 html)
  | None => Ok (Response 404 not_found_page)
  end.

(** Two requests are lost before the server answers. *)
Definition flaky_server (n : nat) (url : str) (timeout : Z)
  : result response :=
  if n <? 2 then Raise RequestException
  else Ok (Response 200 (py "<html></html>")).

(** The transport raises something that is not a request exception. *)
Definition broken_server (n : nat) (url : str) (timeout : Z)
  : result response :=
  Raise ValueError.







Definition headless_first_server : nat -> str -> Z -> result response :=
  server_of [ (page_url 1, headless_page) ].

Definition dead_server : nat -> str -> Z -> result response := server_of [].

Definition attic_link : str := py "a-light-in-the-attic_1000/index.html".

Definition velvet_link : str := py "tipping-the-velvet_999/index.html".

(** The first page and the detail page of its first record; the page
    of the second record is not there. *)
Definition detail_server : nat -> str -> Z -> result response :=
  server_of [ (page_url 1, catalog_page_1);
              (base_url ++ attic_link, detail_page) ].

Definition detail_site (book_url : str) : option str :=
  if Str.eqb book_url attic_link then Some detail_page else None.

(** Cells written with commas between them and a line feed at the
    end: text as it is, a float as its mantissa and binary exponent, a
    missing value as nothing. *)
Definition cell_text (c : Frame.cell) : str :=
  match c with
  | Frame.Text s => s
  | Frame.Float (S754_finite neg m e) =>
      (if neg then py "-" else []) ++ str_of_int (Z.pos m)
      ++ py "p" ++ str_of_int e
  | Frame.Float (S754_zero neg) => if neg then py "-0" else py "0"
  | Frame.Float (S754_infinity neg) => if neg then py "-inf" else py "inf"
  | Frame.Float S754_nan => py "nan"
  | Frame.NaN => []
  end.

Definition plain_cells (cells : list Frame.cell) : str :=
  plain_row (map (fun c => Some (cell_text c)) cells).

Definition noon : str := py "2024-05-01 12:00:00".

End Cases.

(** * Properties *)

(** ** Strings *)

Lemma eqb_refl (s : str) : Str.eqb s s = true.
Proof.
  induction s as [|c s IH]; simpl; [reflexivity|].
  rewrite N.eqb_refl. exact IH.
Qed.

Lemma eqb_eq (a b : str) : Str.eqb a b = true <-> a = b.
Proof.
  revert b. induction a as [|x a IH]; intros [|y b]; simpl; split;
    try discriminate; try reflexivity.
  - intros H. apply andb_true_iff in H as [Hx Hab].
    apply N.eqb_eq in Hx. apply IH in Hab. congruence.
  - intros H. injection H as -> ->. rewrite N.eqb_refl. simpl. apply eqb_refl.
Qed.

Lemma startswith_app (p s : str) :
  startswith p s = true <-> exists post, s = p ++ post.
Proof.
  revert s. induction p as [|a p IH]; intros s; simpl.
  - split; [intros _; now exists s | reflexivity].
  - destruct s as [|b s]; [split; [discriminate | intros [? ?]; discriminate]|].
    rewrite andb_true_iff, N.eqb_eq, IH. split.
    + intros [-> [post ->]]. now exists post.
    + intros [post E]. injection E as -> ->. eauto.
Qed.

(** [p in s] holds exactly when [s] is [pre ++ p ++ post]. *)
Lemma contains_app (p s : str) :
  contains p s = true <-> exists pre post, s = pre ++ p ++ post.
Proof.
  induction s as [|c s IH]; simpl.
  - rewrite orb_false_r, startswith_app. split.
    + intros [post E]. now exists [], post.
    + intros (pre & post & E). destruct pre; simpl in E; [eauto|discriminate].
  - rewrite orb_true_iff, startswith_app, IH. split.
    + intros [[post E] | (pre & post & E)].
      * now exists [], post.
      * exists (c :: pre), post. now rewrite E.
    + intros (pre & post & E). destruct pre as [|c' pre]; simpl in E.
      * left. eauto.
      * right. injection E as -> ->. eauto.
Qed.

Lemma contains_lower (phrase html : str) :
  contains phrase (lower html) = true <-> occurs_ignoring_case phrase html.
Proof. apply contains_app. Qed.

Lemma lower_app (a b : str) : lower (a ++ b) = lower a ++ lower b.
Proof. apply flat_map_app. Qed.

(** A run of the markup that lowers to the phrase is an occurrence. *)
Lemma occurs_ignoring_case_run (phrase pre w post : str) :
  lower w = phrase -> occurs_ignoring_case phrase (pre ++ w ++ post).
Proof.
  intros <-. exists (lower pre), (lower post). now rewrite !lower_app.
Qed.

Lemma split_go_not_nil (sep : str) (skip : nat) (cur s : str) :
  split_go sep skip cur s <> [].
Proof.
  revert skip cur. induction s as [|c s IH]; intros skip cur; simpl.
  - discriminate.
  - destruct skip; [|apply IH].
    destruct (startswith sep (c :: s)); [discriminate | apply IH].
Qed.

Lemma split_go_two (sep cur s : str) :
  sep <> [] -> contains sep s = true ->
  2 <= length (split_go sep 0 cur s).
Proof.
  intros Hsep. revert cur. induction s as [|c s IH]; intros cur H.
  - destruct sep; [congruence | discriminate].
  - cbn [split_go]. cbn [contains] in H.
    destruct (startswith sep (c :: s)).
    + pose proof (split_go_not_nil sep (length sep - 1) [] s) as Hn.
      destruct (split_go sep (length sep - 1) [] s); [congruence|].
      simpl. lia.
    + apply IH, H.
Qed.

Lemma startswith_shorter (p a b : str) :
  startswith p (a ++ b) = true -> length p <= length a ->
  startswith p a = true.
Proof.
  revert a. induction p as [|x p IH]; intros a H Hlen; [reflexivity|].
  destruct a as [|y a]; [simpl in Hlen; lia|].
  cbn in H |- *. apply andb_true_iff in H as [Hx Hp].
  rewrite Hx. cbn. apply IH; [assumption | simpl in Hlen; lia].
Qed.

Lemma contains_cons_false (p s : str) (c : char) :
  contains p (c :: s) = false ->
  startswith p (c :: s) = false /\ contains p s = false.
Proof. cbn [contains]. apply orb_false_iff. Qed.

(** Scanning up to the first separator: when the separator does not
    begin inside [pre], the scan reaches it with [pre] collected. *)
Lemma split_go_before (sep pre rest cur : str) :
  sep <> [] ->
  contains sep (pre ++ removelast sep) = false ->
  split_go sep 0 cur (pre ++ sep ++ rest)
  = split_go sep 0 (rev pre ++ cur) (sep ++ rest).
Proof.
  intros Hsep. revert cur. induction pre as [|c pre IH]; intros cur H.
  - reflexivity.
  - cbn [app] in H. apply contains_cons_false in H as [Hstart Hrest].
    cbn [app split_go].
    assert (Hno : startswith sep (c :: pre ++ sep ++ rest) = false).
    { destruct (startswith sep (c :: pre ++ sep ++ rest)) eqn:E;
        [|reflexivity].
      rewrite <- Hstart. symmetry.
      apply (startswith_shorter sep (c :: pre ++ removelast sep)
               (match last sep with Some x => [x] | None => [] end ++ rest)).
      - rewrite <- E. f_equal. cbn [app]. f_equal.
        rewrite <- !app_assoc. f_equal.
        rewrite app_assoc. f_equal.
        destruct (exists_last Hsep) as (l & x & ->).
        rewrite removelast_last, last_snoc. reflexivity.
      - destruct (exists_last Hsep) as (l & x & ->).
        rewrite removelast_last. cbn [length].
        rewrite !length_app. cbn. lia. }
    rewrite Hno, IH by assumption.
    cbn [rev]. now rewrite <- app_assoc.
Qed.

Lemma split_go_skip (sep x rest cur : str) :
  split_go sep (length x) cur (x ++ rest) = split_go sep 0 cur rest.
Proof.
  induction x as [|c x IH]; [reflexivity|]. cbn [length app split_go].
  destruct (x ++ rest) eqn:E; exact IH.
Qed.

Lemma startswith_self (p s : str) : startswith p (p ++ s) = true.
Proof. apply startswith_app. now exists s. Qed.

(** [split] at the first separator. *)
Lemma split_first (sep pre rest : str) :
  sep <> [] ->
  contains sep (pre ++ removelast sep) = false ->
  split sep (pre ++ sep ++ rest) = pre :: split sep rest.
Proof.
  intros Hsep H. unfold split.
  rewrite split_go_before by assumption. rewrite app_nil_r.
  destruct sep as [|c sep']; [congruence|].
  change ((c :: sep') ++ rest) with (c :: sep' ++ rest).
  cbn [split_go].
  change (c :: sep' ++ rest) with ((c :: sep') ++ rest).
  rewrite startswith_self, rev_involutive. f_equal.
  cbn [length]. rewrite Nat.sub_1_r. cbn [Nat.pred].
  apply split_go_skip.
Qed.

Lemma split_go_none (sep s cur : str) :
  contains sep s = false -> split_go sep 0 cur s = [rev cur ++ s].
Proof.
  revert cur. induction s as [|c s IH]; intros cur H.
  - cbn. now rewrite app_nil_r.
  - apply contains_cons_false in H as [Hstart Hrest].
    cbn [split_go]. rewrite Hstart, IH by assumption.
    cbn [rev]. now rewrite <- app_assoc.
Qed.

(** Without a separator [split] returns the string whole. *)
Lemma split_none (sep s : str) :
  contains sep s = false -> split sep s = [s].
Proof. intros H. unfold split. now rewrite split_go_none. Qed.

(** The title text of a document with one title element: what stands
    between [<title>] and [</title>]. *)
Lemma title_segment_element (pre t post : str) :
  contains (py "<title>") (pre ++ py "<title") = false ->
  contains (py "<title>") (t ++ py "</title>" ++ post) = false ->
  contains (py "</title>") (t ++ py "</title") = false ->
  title_segment (pre ++ py "<title>" ++ t ++ py "</title>" ++ post) = Ok t.
Proof.
  intros Hpre Hafter Ht. unfold title_segment.
  rewrite (split_first (py "<title>") pre) by (discriminate || exact Hpre).
  rewrite split_none by assumption. cbn [index nth_error rbind].
  rewrite (split_first (py "</title>") t) by (discriminate || exact Ht).
  reflexivity.
Qed.

(** The indexing in the title test cannot fail once [<title>] is known
    to occur. *)
Lemma title_segment_ok (s : str) :
  contains (py "<title>") s = true -> exists t, title_segment s = Ok t.
Proof.
  intros H. unfold title_segment, index, split.
  pose proof (split_go_two (py "<title>") [] s) as H2.
  destruct (split_go (py "<title>") 0 [] s) as [|x [|after rest]];
    try (simpl in H2; specialize (H2 ltac:(discriminate) H); lia).
  cbn [nth_error rbind].
  pose proof (split_go_not_nil (py "</title>") 0 [] after) as Hn.
  destruct (split_go (py "</title>") 0 [] after) as [|t ?]; [congruence|].
  now exists t.
Qed.

Lemma lstrip_spec (s : str) :
  exists pre, s = pre ++ lstrip s /\ forallb isspace pre = true /\
    match lstrip s with c :: _ => isspace c = false | [] => True end.
Proof.
  induction s as [|c s (pre & E & Hpre & Hhd)]; [now exists []|].
  cbn [lstrip]. destruct (isspace c) eqn:Hc.
  - exists (c :: pre). cbn. rewrite Hc, Hpre. split; [now f_equal|]. auto.
  - exists []. auto.
Qed.

Lemma forallb_rev (f : char -> bool) (l : str) :
  forallb f (rev l) = forallb f l.
Proof.
  induction l as [|c l IH]; [reflexivity|]. cbn [rev forallb].
  rewrite forallb_app, IH. cbn. now rewrite andb_true_r, andb_comm.
Qed.

Lemma rstrip_spec (s : str) :
  exists post, s = rstrip s ++ post /\ forallb isspace post = true /\
    match last (rstrip s) with Some c => isspace c = false | None => True end.
Proof.
  unfold rstrip. destruct (lstrip_spec (rev s)) as (pre & E & Hpre & Hhd).
  exists (rev pre). split; [|split].
  - rewrite <- rev_app_distr, <- E. now rewrite rev_involutive.
  - now rewrite forallb_rev.
  - destruct (lstrip (rev s)) as [|c l]; [exact I|].
    cbn [rev]. now rewrite last_snoc.
Qed.

(** [strip] removes the whitespace around a string and nothing else. *)
Lemma strip_spec (s : str) : stripped_of s (strip s).
Proof.
  unfold strip.
  destruct (lstrip_spec s) as (pre & E1 & Hpre & Hhd).
  destruct (rstrip_spec (lstrip s)) as (post & E2 & Hpost & Hlast).
  exists pre, post. repeat split; try assumption.
  - now rewrite <- E2.
  - destruct (rstrip (lstrip s)) as [|c t] eqn:Er; [exact I|].
    rewrite E2 in Hhd. exact Hhd.
Qed.

Lemma strip_trimmed (s : str) : trimmed (strip s).
Proof.
  destruct (strip_spec s) as (pre & post & _ & _ & _ & Hh & Hl).
  now split.
Qed.

Lemma trimmed_strip (t : str) : trimmed t -> strip t = t.
Proof.
  intros [Hh Hl]. unfold strip, rstrip.
  assert (E : lstrip t = t).
  { destruct t as [|c t]; [reflexivity|]. cbn. now rewrite Hh. }
  rewrite E.
  destruct t as [|c0 t0] using rev_ind; [reflexivity|].
  rewrite last_snoc in Hl. rewrite rev_app_distr. cbn [rev app lstrip].
  rewrite Hl. cbn [rev]. now rewrite rev_involutive.
Qed.

Lemma strip_idem (s : str) : strip (strip s) = strip s.
Proof. apply trimmed_strip, strip_trimmed. Qed.

Lemma lstrip_all_space (s : str) :
  forallb isspace s = true -> lstrip s = [].
Proof.
  induction s as [|c s IH]; [reflexivity|]. cbn.
  intros H. apply andb_true_iff in H as [Hc Hs]. rewrite Hc. now apply IH.
Qed.

Lemma lstrip_app_space (pre s : str) :
  forallb isspace pre = true -> lstrip (pre ++ s) = lstrip s.
Proof.
  induction pre as [|c pre IH]; [reflexivity|]. cbn.
  intros H. apply andb_true_iff in H as [Hc Hs]. rewrite Hc. now apply IH.
Qed.

Lemma lstrip_nil_all_space (s : str) :
  lstrip s = [] -> forallb isspace s = true.
Proof.
  induction s as [|c s IH]; [reflexivity|]. cbn.
  destruct (isspace c); [exact IH | discriminate].
Qed.

Lemma lstrip_app_text (s post : str) :
  lstrip s <> [] -> lstrip (s ++ post) = lstrip s ++ post.
Proof.
  induction s as [|c s IH]; [intros H; now contradiction H|]. cbn.
  destruct (isspace c); [exact IH | reflexivity].
Qed.

Lemma rstrip_app_space (s post : str) :
  forallb isspace post = true -> rstrip (s ++ post) = rstrip s.
Proof.
  intros H. unfold rstrip. rewrite rev_app_distr.
  now rewrite lstrip_app_space by now rewrite forallb_rev.
Qed.

(** Whitespace around a text does not change what [strip] returns. *)
Lemma strip_app_space (pre s post : str) :
  forallb isspace pre = true -> forallb isspace post = true ->
  strip (pre ++ s ++ post) = strip s.
Proof.
  intros Hpre Hpost. unfold strip.
  rewrite lstrip_app_space by assumption.
  destruct (lstrip s) as [|c t] eqn:E.
  - rewrite lstrip_all_space; [reflexivity|].
    rewrite forallb_app, Hpost, andb_true_r. now apply lstrip_nil_all_space.
  - rewrite lstrip_app_text by (rewrite E; discriminate).
    rewrite E. now apply rstrip_app_space.
Qed.

(** What [strip] returns is the one text that [stripped_of] describes. *)
Lemma stripped_of_strip (s t : str) : stripped_of s t -> strip s = t.
Proof.
  intros (pre & post & -> & Hpre & Hpost & Hh & Hl).
  rewrite strip_app_space by assumption. apply trimmed_strip. now split.
Qed.

(** ** Capitals and small letters *)

Lemma lower_char_plain (c p : char) :
  plain_char p = true -> same_letter c p -> lower_char c = [p].
Proof.
  unfold plain_char, same_letter, lower_char. intros Hp [-> | (H1 & H2 & ->)].
  - apply andb_true_iff in Hp as [Hp Hk]. apply andb_true_iff in Hp as [H128 Hcap].
    apply N.ltb_lt in H128. rewrite (negb_true_iff) in Hcap. rewrite Hcap.
    replace ((192 <=? p)%N) with false by (symmetry; apply N.leb_gt; lia).
    cbn [andb]. replace ((p =? 304)%N) with false by (symmetry; apply N.eqb_neq; lia).
    replace ((p =? 8490)%N) with false by (symmetry; apply N.eqb_neq; lia).
    reflexivity.
  - replace ((65 <=? p - 32)%N) with true by (symmetry; apply N.leb_le; lia).
    replace ((p - 32 <=? 90)%N) with true by (symmetry; apply N.leb_le; lia).
    cbn [andb]. f_equal. lia.
Qed.

Lemma lower_reads (w phrase : str) :
  forallb plain_char phrase = true -> Forall2 same_letter w phrase ->
  lower w = phrase.
Proof.
  intros Hp H. induction H as [|c p w phrase Hcp _ IH]; [reflexivity|].
  cbn [forallb] in Hp. apply andb_true_iff in Hp as [Hp1 Hp2].
  unfold lower. cbn [flat_map]. rewrite (lower_char_plain c p Hp1 Hcp).
  cbn [app]. f_equal. now apply IH.
Qed.

(** What lowers to a plain character. *)
Lemma lower_char_inv (c p : char) (tl : str) :
  plain_char p = true -> lower_char c = p :: tl ->
  (tl = [] /\ same_letter c p) \/ (p = 105%N /\ tl = [775%N]).
Proof.
  unfold plain_char, lower_char, same_letter. intros Hp.
  apply andb_true_iff in Hp as [Hp Hk]. apply andb_true_iff in Hp as [H128 Hcap].
  apply N.ltb_lt in H128. apply negb_true_iff in Hcap, Hk.
  apply N.eqb_neq in Hk.
  destruct ((65 <=? c) && (c <=? 90))%N eqn:E1.
  { intros [= <- <-]. left. split; [reflexivity|]. right.
    apply andb_true_iff in E1 as [Ha Hb]. apply N.leb_le in Ha, Hb. lia. }
  destruct ((192 <=? c) && (c <=? 222) && negb (c =? 215))%N eqn:E2.
  { intros [= <- <-]. apply andb_true_iff in E2 as [E2 _].
    apply andb_true_iff in E2 as [Ha Hb]. apply N.leb_le in Ha. lia. }
  destruct (c =? 304)%N eqn:E3.
  { intros [= <- <-]. now right. }
  destruct (c =? 8490)%N eqn:E4.
  { intros [= <- <-]. congruence. }
  intros [= <- <-]. left. split; [reflexivity | now left].
Qed.

Lemma lower_char_cases (c : char) :
  (exists x, lower_char c = [x]) \/ lower_char c = [105; 775]%N.
Proof.
  unfold lower_char.
  destruct ((65 <=? c) && (c <=? 90))%N; [eauto|].
  destruct ((192 <=? c) && (c <=? 222) && negb (c =? 215))%N; [eauto|].
  destruct (c =? 304)%N; [now right|].
  destruct (c =? 8490)%N; eauto.
Qed.

(** A plain phrase at the head of a lowered string is a run of the
    string itself. *)
Lemma unlower_prefix (phrase : str) :
  forallb plain_char phrase = true -> last phrase <> Some 105%N ->
  forall (h post' : str),
    lower h = phrase ++ post' ->
    exists w post, h = w ++ post /\ Forall2 same_letter w phrase /\
                   lower post = post'.
Proof.
  induction phrase as [|p ps IH]; intros Hplain Hlast h post' E.
  - exists [], h. split; [reflexivity|]. split; [constructor | exact E].
  - cbn [forallb] in Hplain. apply andb_true_iff in Hplain as [Hp Hps].
    destruct h as [|c h]; [discriminate|].
    unfold lower in E. cbn [flat_map app] in E. fold (lower h) in E.
    destruct (lower_char c) as [|x tl] eqn:Ec.
    { destruct (lower_char_cases c) as [[x Hx]|Hx]; congruence. }
    cbn [app] in E. injection E as -> E.
    destruct (lower_char_inv c p tl Hp Ec) as [[-> Hsame] | [-> ->]].
    + cbn [app] in E.
      assert (Hlast' : last ps <> Some 105%N).
      { destruct ps as [|q qs]; [discriminate|]. exact Hlast. }
      destruct (IH Hps Hlast' h post' E) as (w & post & -> & Hw & Hpost).
      exists (c :: w), post. split; [reflexivity|].
      split; [now constructor | exact Hpost].
    + cbn [app] in E. destruct ps as [|q qs].
      * now destruct Hlast.
      * cbn [app] in E. injection E as <- _.
        cbn [forallb] in Hps. discriminate.
Qed.

Lemma unlower (phrase : str) :
  plain phrase ->
  forall (h pre' post' : str),
    lower h = pre' ++ phrase ++ post' ->
    exists pre w post,
      h = pre ++ w ++ post /\ lower pre = pre' /\
      Forall2 same_letter w phrase /\ lower post = post'.
Proof.
  intros (Hne & Hplain & Hlast).
  induction h as [|c h IH]; intros pre' post' E.
  - destruct pre', phrase; try discriminate. congruence.
  - destruct pre' as [|x pre''].
    + destruct (unlower_prefix phrase Hplain Hlast (c :: h) post' E)
        as (w & post & Eh & Hw & Hpost).
      exists [], w, post. auto.
    + unfold lower in E. cbn [flat_map] in E. fold (lower h) in E.
      destruct (lower_char_cases c) as [[y Hy]|Hy]; rewrite Hy in E;
        cbn [app] in E.
      * injection E as -> E.
        destruct (IH pre'' post' E) as (pre & w & post & -> & Hpre & Hw & Hpost).
        exists (c :: pre), w, post. split; [reflexivity|].
        split; [|auto]. unfold lower. cbn [flat_map]. rewrite Hy.
        cbn [app]. f_equal. exact Hpre.
      * injection E as <- E.
        destruct pre'' as [|z pre'''].
        -- destruct phrase as [|p ps]; [congruence|].
           cbn [app] in E. injection E as <- _.
           cbn [forallb] in Hplain. discriminate.
        -- cbn [app] in E. injection E as <- E.
           destruct (IH pre''' post' E)
             as (pre & w & post & -> & Hpre & Hw & Hpost).
           exists (c :: pre), w, post. split; [reflexivity|].
           split; [|auto]. unfold lower. cbn [flat_map]. rewrite Hy.
           cbn [app]. do 2 f_equal. exact Hpre.
Qed.


(** A plain phrase occurs in the lowered markup exactly when it occurs
    in the markup in some mixture of small and capital letters. *)
Lemma contains_lower_any_case (phrase html : str) :
  plain phrase ->
  contains phrase (lower html) = true <-> occurs_any_case phrase html.
Proof.
  intros Hplain. split.
  - intros H. apply contains_app in H as (pre' & post' & E).
    destruct (unlower phrase Hplain html pre' post' E)
      as (pre & w & post & -> & _ & Hw & _).
    now exists pre, w, post.
  - intros (pre & w & post & -> & Hw).
    rewrite !lower_app.
    rewrite (lower_reads w phrase) by (assumption || apply Hplain).
    apply contains_app. eauto.
Qed.

Lemma contains_length (p s : str) :
  contains p s = true -> length p <= length s.
Proof.
  intros H. apply contains_app in H as (pre & post & ->).
  rewrite !length_app. lia.
Qed.

Lemma contains_prefix (p a b : str) :
  contains p a = true -> contains p (a ++ b) = true.
Proof.
  intros H. apply contains_app in H as (pre & post & ->).
  apply contains_app. exists pre, (post ++ b). now rewrite <- !app_assoc.
Qed.

Lemma contains_suffix (p a b : str) :
  contains p b = true -> contains p (a ++ b) = true.
Proof.
  intros H. apply contains_app in H as (pre & post & ->).
  apply contains_app. exists (a ++ pre), post. now rewrite <- !app_assoc.
Qed.

Lemma contains_false_prefix (p a b : str) :
  contains p (a ++ b) = false -> contains p a = false.
Proof.
  intros H. destruct (contains p a) eqn:E; [|reflexivity].
  now rewrite (contains_prefix p a b E) in H.
Qed.

(** The first occurrence of a separator. *)
Lemma first_occurrence (sep x : str) :
  sep <> [] -> contains sep x = true ->
  exists pre rest, x = pre ++ sep ++ rest /\
                   contains sep (pre ++ removelast sep) = false.
Proof.
  intros Hsep. induction x as [|c x IH]; intros H.
  - apply contains_length in H. destruct sep; [congruence | simpl in H; lia].
  - cbn [contains] in H. destruct (startswith sep (c :: x)) eqn:Es.
    + apply startswith_app in Es as [rest ->]. exists [], rest.
      split; [reflexivity|]. cbn [app].
      destruct (contains sep (removelast sep)) eqn:E; [|reflexivity].
      apply contains_length in E.
      destruct (exists_last Hsep) as (l & y & ->).
      rewrite removelast_last, length_app in E. simpl in E. lia.
    + cbn [orb] in H. destruct (IH H) as (pre & rest & -> & Hno).
      exists (c :: pre), rest. split; [reflexivity|].
      cbn [app contains]. rewrite Hno, orb_false_r.
      destruct (startswith sep (c :: pre ++ removelast sep)) eqn:E;
        [|reflexivity].
      apply startswith_app in E as [post E].
      assert (startswith sep (c :: pre ++ sep ++ rest) = true); [|congruence].
      apply startswith_app.
      destruct (exists_last Hsep) as (l & y & Hl).
      exists (post ++ y :: rest).
      rewrite Hl in E at 1. rewrite removelast_last in E.
      rewrite (app_assoc sep post), <- E. cbn [app]. f_equal.
      rewrite Hl, <- !app_assoc. reflexivity.
Qed.

Lemma hd_split_none (sep x : str) :
  contains sep x = false -> hd_split sep x = x.
Proof. intros H. unfold hd_split. now rewrite split_none. Qed.

Lemma hd_split_first (sep pre rest : str) :
  sep <> [] -> contains sep (pre ++ removelast sep) = false ->
  hd_split sep (pre ++ sep ++ rest) = pre.
Proof. intros Hs H. unfold hd_split. now rewrite split_first. Qed.

(** A word that shares no character with the separator stands in the
    first piece exactly when no separator stands before it. *)
Lemma hd_split_holds (sep w x s : str) :
  sep <> [] -> w <> [] -> apart w sep ->
  (exists post', hd_split sep x = s ++ w ++ post') <->
  (exists post, x = s ++ w ++ post) /\ contains sep s = false.
Proof.
  intros Hsep Hw Hapart.
  destruct (contains sep x) eqn:Ex.
  - destruct (first_occurrence sep x Hsep Ex) as (pre & rest & -> & Hfirst).
    rewrite hd_split_first by assumption. split.
    + intros [post' ->]. split.
      * exists (post' ++ sep ++ rest). now rewrite <- !app_assoc.
      * rewrite <- !app_assoc in Hfirst.
        now apply contains_false_prefix in Hfirst.
    + intros [[post E] Hs].
      apply app_eq_app in E as [l [[-> E] | [-> E]]].
      * apply app_eq_app in E as [m [[-> E] | [-> E]]].
        -- destruct m as [|c m].
           ++ exists []. now rewrite !app_nil_r.
           ++ exfalso. destruct sep as [|q sep']; [congruence|].
              cbn [app] in E. injection E as <- _.
              apply (Hapart q); [|now left].
              apply in_or_app. right. now left.
        -- exists m. now rewrite <- ?app_assoc.
      * exfalso. apply app_eq_app in E as [m [[-> E] | [-> E]]].
        -- destruct m as [|c m].
           ++ rewrite app_nil_r in Hs.
              assert (contains l (pre ++ l) = true); [|congruence].
              apply contains_app. exists pre, []. now rewrite app_nil_r.
           ++ destruct w as [|q w']; [congruence|].
              cbn [app] in E. injection E as -> _.
              apply (Hapart c); [now left|].
              apply in_or_app. right. now left.
        -- assert (contains sep (pre ++ sep ++ m) = true); [|congruence].
           apply contains_app. now exists pre, m.
  - rewrite hd_split_none by assumption. split.
    + intros [post' ->]. split; [eauto|].
      now apply contains_false_prefix in Ex.
    + intros [[post ->] _]. eauto.
Qed.

Lemma apart_404_title : apart (py "404") (py "<title>").
Proof.
  intros c Hw Hs. cbn in Hw, Hs.
  repeat (destruct Hw as [<-|Hw]; [repeat (destruct Hs as [Hs|Hs]; [discriminate|]); exact Hs|]).
  exact Hw.
Qed.

Lemma apart_404_end_title : apart (py "404") (py "</title>").
Proof.
  intros c Hw Hs. cbn in Hw, Hs.
  repeat (destruct Hw as [<-|Hw]; [repeat (destruct Hs as [Hs|Hs]; [discriminate|]); exact Hs|]).
  exact Hw.
Qed.

(** The title test on a lowered string. *)
Lemma title_test (L : str) :
  (contains (py "<title>") L = true /\
   exists seg, title_segment L = Ok seg /\ contains (py "404") seg = true)
  <->
  exists a s post,
    L = a ++ py "<title>" ++ s ++ py "404" ++ post /\
    contains (py "<title>") (a ++ py "<title") = false /\
    contains (py "<title>") s = false /\
    contains (py "</title>") s = false.
Proof.
  assert (Hseg : forall a rest,
            contains (py "<title>") (a ++ py "<title") = false ->
            title_segment (a ++ py "<title>" ++ rest)
            = Ok (hd_split (py "</title>") (hd_split (py "<title>") rest))).
  { intros a rest Ha. unfold title_segment.
    rewrite (split_first (py "<title>") a) by (discriminate || exact Ha).
    unfold hd_split, index, split.
    pose proof (split_go_not_nil (py "<title>") 0 [] rest) as Hn.
    destruct (split_go (py "<title>") 0 [] rest) as [|after more];
      [congruence|].
    cbn [nth_error rbind hd].
    pose proof (split_go_not_nil (py "</title>") 0 [] after) as Hn2.
    destruct (split_go (py "</title>") 0 [] after); [congruence|].
    reflexivity. }
  assert (Hchain : forall rest,
            contains (py "404")
              (hd_split (py "</title>") (hd_split (py "<title>") rest)) = true
            <-> exists s post, rest = s ++ py "404" ++ post /\
                  contains (py "<title>") s = false /\
                  contains (py "</title>") s = false).
  { intros rest. rewrite contains_app. split.
    - intros (s & post' & E).
      assert (H1 : exists post', hd_split (py "</title>")
                     (hd_split (py "<title>") rest) = s ++ py "404" ++ post')
        by eauto.
      apply hd_split_holds in H1 as [H1 Hb];
        [|discriminate|discriminate|exact apart_404_end_title].
      apply hd_split_holds in H1 as [[post ->] Ha];
        [|discriminate|discriminate|exact apart_404_title].
      eauto.
    - intros (s & post & -> & Ha & Hb).
      assert (H1 : exists post', hd_split (py "<title>") (s ++ py "404" ++ post)
                                 = s ++ py "404" ++ post').
      { apply hd_split_holds;
          [discriminate|discriminate|exact apart_404_title|]. eauto. }
      assert (H2 : exists post', hd_split (py "</title>")
                     (hd_split (py "<title>") (s ++ py "404" ++ post))
                   = s ++ py "404" ++ post').
      { apply hd_split_holds;
          [discriminate|discriminate|exact apart_404_end_title|]. auto. }
      destruct H2 as [post' E]. eauto. }
  split.
  - intros (Hc & seg & Hseg' & H404).
    destruct (first_occurrence (py "<title>") L ltac:(discriminate) Hc)
      as (a & rest & -> & Ha).
    rewrite (Hseg a rest Ha) in Hseg'. injection Hseg' as <-.
    apply Hchain in H404 as (s & post & -> & H1 & H2).
    exists a, s, post. auto.
  - intros (a & s & post & -> & Ha & H1 & H2). split.
    + apply contains_app. eauto.
    + rewrite (Hseg a _ Ha). eexists. split; [reflexivity|].
      apply Hchain. eauto.
Qed.

(** ** The end-of-catalogue heuristic *)

Lemma existsb_indicators (s : str) :
  existsb (fun indicator => contains indicator s) not_found_indicators = true
  <-> exists phrase, In phrase not_found_indicators /\ contains phrase s = true.
Proof. apply existsb_exists. Qed.

Lemma same_letter_refl (s : str) : Forall2 same_letter s s.
Proof. induction s; constructor; [now left | assumption]. Qed.

Lemma Forall2_removelast {A B} (R : A -> B -> Prop) (a : list A)
    (b : list B) :
  Forall2 R a b -> Forall2 R (removelast a) (removelast b).
Proof.
  induction 1 as [|x y a b Hxy Hab IH]; [constructor|].
  destruct Hab as [|x' y' a' b' Hxy' Hab']; [constructor|].
  cbn [removelast] in *. now constructor.
Qed.

Lemma reads_404 (w : str) : Forall2 same_letter w (py "404") -> w = py "404".
Proof.
  intros H.
  assert (G : forall a b : str,
            Forall2 same_letter a b -> forallb (fun p => (p <? 97)%N) b = true ->
            a = b).
  { clear. induction 1 as [|c p a b [->|(Hp & _)] _ IH]; intros Hb;
      [reflexivity| |]; cbn [forallb] in Hb;
      apply andb_true_iff in Hb as [Hp' Hb].
    - f_equal. now apply IH.
    - apply N.ltb_lt in Hp'. lia. }
  now apply G.
Qed.

Ltac plain_literal :=
  split; [discriminate | split; [reflexivity | vm_compute; discriminate]].

Lemma plain_title : plain (py "<title>").
Proof. plain_literal. Qed.

Lemma plain_end_title : plain (py "</title>").
Proof. plain_literal. Qed.

Lemma plain_404 : plain (py "404").
Proof. plain_literal. Qed.

Lemma plain_indicators (phrase : str) :
  In phrase not_found_indicators -> plain phrase.
Proof.
  intros [<-|[<-|[<-|[<-|[<-|[]]]]]]; plain_literal.
Qed.

Lemma contains_lower_false (phrase html : str) :
  plain phrase ->
  contains phrase (lower html) = false <-> ~ occurs_any_case phrase html.
Proof.
  intros Hp. rewrite <- (contains_lower_any_case phrase html Hp).
  destruct (contains phrase (lower html)); split; congruence.
Qed.

(** The title test read on the markup itself. *)
Lemma title_holds_404_lower (html : str) :
  title_holds_404 html <->
  exists a s post,
    lower html = a ++ py "<title>" ++ s ++ py "404" ++ post /\
    contains (py "<title>") (a ++ py "<title") = false /\
    contains (py "<title>") s = false /\
    contains (py "</title>") s = false.
Proof.
  assert (Hcut : forall pre t : str,
            Forall2 same_letter t (py "<title>") ->
            lower (pre ++ removelast t) = lower pre ++ py "<title").
  { intros pre t Ht. rewrite lower_app. f_equal.
    apply (lower_reads _ (py "<title")); [reflexivity|].
    now apply Forall2_removelast in Ht. }
  split.
  - intros (pre & t & s & post & -> & Ht & Hfirst & Hs1 & Hs2).
    exists (lower pre), (lower s), (lower post).
    rewrite !lower_app.
    rewrite (lower_reads t (py "<title>")) by (reflexivity || assumption).
    rewrite (lower_reads (py "404") (py "404"))
      by (reflexivity || apply same_letter_refl).
    split; [reflexivity|].
    rewrite <- (Hcut pre t Ht).
    split; [|split]; apply contains_lower_false;
      auto using plain_title, plain_end_title.
  - intros (a & s & post & E & Hfirst & Hs1 & Hs2).
    destruct (unlower (py "<title>") plain_title html a _ E)
      as (pre & t & rest & -> & <- & Ht & Erest).
    destruct (unlower (py "404") plain_404 rest s post Erest)
      as (sh & w & posth & -> & <- & Hw & _).
    apply reads_404 in Hw. subst w.
    exists pre, t, sh, posth. split; [reflexivity|]. split; [assumption|].
    rewrite <- (Hcut pre t Ht) in Hfirst.
    split; [|split]; apply contains_lower_false;
      auto using plain_title, plain_end_title.
Qed.

(** C2 (amended).  [is_page_not_found] never raises, and answers
    [True] exactly when the markup is absent or empty; or one of the
    five phrases occurs in it, in any mixture of small and capital
    letters; or the markup without the white space around it is shorter
    than 500 characters; or [404] stands in the title text, after the
    first [<title>] and before any further [<title>] or [</title>].  It
    answers [False] on every other page and on no page that shows one
    of these signs, whatever records the page carries. *)
Theorem is_page_not_found_cascade (html_content : option str) :
  exists b, is_page_not_found html_content = Ok b /\
  (b = true <->
   html_content = None \/ html_content = Some [] \/
   exists html, html_content = Some html /\
     ((exists phrase,
         In phrase [ py "page not found"; py "404 not found";
                     py "error 404"; py "sorry, no results found";
                     py "no results found" ] /\
         occurs_any_case phrase html) \/
      (exists t, stripped_of html t /\ length t < 500) \/
      title_holds_404 html)).
Proof.
  destruct html_content as [[|c html]|].
  1,3: exists true; split; [reflexivity|]; split; [auto | reflexivity].
  set (h := c :: html). unfold is_page_not_found. fold h. cbv zeta.
  assert (Hphrase :
            existsb (fun i => contains i (lower h)) not_found_indicators = true
            <-> exists phrase, In phrase not_found_indicators /\
                               occurs_any_case phrase h).
  { rewrite existsb_indicators. split; intros (phrase & Hin & H);
      exists phrase; (split; [assumption|]);
      now apply (contains_lower_any_case phrase h (plain_indicators _ Hin)). }
  assert (Hshort : length (strip h) < 500
                   <-> exists t, stripped_of h t /\ length t < 500).
  { split.
    - intros H. exists (strip h). split; [apply strip_spec | assumption].
    - intros (t & Ht & Hlen). now rewrite (stripped_of_strip h t Ht). }
  assert (Htitle :
            (contains (py "<title>") (lower h) = true /\
             exists seg, title_segment (lower h) = Ok seg /\
                         contains (py "404") seg = true)
            <-> title_holds_404 h).
  { rewrite title_test. symmetry. apply title_holds_404_lower. }
  destruct (existsb _ not_found_indicators) eqn:Eind.
  { exists true. split; [reflexivity|]. split; [|reflexivity]. intros _.
    right. right. exists h. split; [reflexivity|]. left.
    now apply Hphrase. }
  destruct (length (strip h) <? 500) eqn:Elen.
  { exists true. split; [reflexivity|]. split; [|reflexivity]. intros _.
    right. right. exists h. split; [reflexivity|]. right. left.
    apply Hshort. now apply Nat.ltb_lt in Elen. }
  apply Nat.ltb_ge in Elen.
  assert (Hrest : forall b : bool,
            (b = true <-> title_holds_404 h) ->
            b = true <->
            Some h = None \/ Some h = Some [] \/
            exists html0, Some h = Some html0 /\
              ((exists phrase,
                  In phrase not_found_indicators /\
                  occurs_any_case phrase html0) \/
               (exists t, stripped_of html0 t /\ length t < 500) \/
               title_holds_404 html0)).
  { intros b Hb. split.
    - intros H. right. right. exists h. split; [reflexivity|].
      right. right. now apply Hb.
    - intros [H | [H | (h' & Eh & [Hi | [Hl | Ht]])]]; try discriminate;
        injection Eh as <-.
      + apply Hphrase in Hi. congruence.
      + apply Hshort in Hl. lia.
      + now apply Hb. }
  destruct (contains (py "<title>") (lower h)) eqn:Etitle.
  - destruct (title_segment_ok _ Etitle) as [seg Hseg]. rewrite Hseg.
    cbn [rbind].
    exists (contains (py "404") seg). split; [now destruct (contains _ seg)|].
    apply Hrest. rewrite <- Htitle. split.
    + intros H. split; [reflexivity|]. eauto.
    + intros (_ & seg' & Hseg' & H). congruence.
  - exists false. split; [reflexivity|].
    apply Hrest. rewrite <- Htitle. split; [discriminate|].
    intros (H & _). discriminate.
Qed.

(** A page that is long enough, holds none of the phrases and has no
    [404] in its title is not taken for the end of the catalogue. *)
Lemma unremarkable_page_is_not_end (html : str) :
  500 <= length (strip html) ->
  (forall phrase, In phrase not_found_indicators ->
     ~ occurs_ignoring_case phrase html) ->
  (forall t, title_segment (lower html) = Ok t ->
     contains (py "404") t = false) ->
  is_page_not_found (Some html) = Ok false.
Proof.
  intros Hlen Hphrase Htitle.
  destruct html as [|c html]; [simpl in Hlen; lia|].
  set (h := c :: html) in *. unfold is_page_not_found. fold h. cbv zeta.
  destruct (existsb _ not_found_indicators) eqn:Eind.
  { apply existsb_indicators in Eind as (phrase & Hin & Hc).
    apply contains_lower in Hc. now destruct (Hphrase phrase Hin). }
  apply Nat.ltb_ge in Hlen. rewrite Hlen.
  destruct (contains (py "<title>") (lower h)) eqn:Etitle; [|reflexivity].
  destruct (title_segment_ok _ Etitle) as [t Ht].
  rewrite Ht. cbn [rbind]. now rewrite (Htitle t Ht).
Qed.

(** ** The extractor *)

Section ParserFacts.

Variable BeautifulSoup : str -> node.

Import Container.

(** One turn of the loop: without an [h3] the chained [find] raises;
    with one, the container adds its record or nothing. *)
Lemma parse_books_body_eq (books : list dict) (book : node) :
  parse_books_body books book =
    if has_h3 book
    then Ok (books ++ match extract book with Some r => [r] | None => [] end)
    else Raise AttributeError.
Proof.
  unfold parse_books_body, has_h3, extract, link_of, price_of.
  destruct (Soup.find book (py "h3") None) as [h3|]; [|reflexivity].
  cbn [rbind Soup.on_tag].
  destruct (Soup.find h3 (py "a") None) as [a|];
    destruct (Soup.find book (py "p") (Some (py "price_color"))) as [p|];
    rewrite ?app_nil_r; reflexivity.
Qed.

Lemma for_each_parse_books_ok (cs : list node) (acc : list dict) :
  forallb has_h3 cs = true ->
  for_each parse_books_body cs acc = Ok (acc ++ omap extract cs).
Proof.
  revert acc. induction cs as [|c cs IH]; intros acc H; simpl.
  - now rewrite app_nil_r.
  - apply andb_true_iff in H as [Hc Hcs].
    rewrite parse_books_body_eq, Hc. simpl. rewrite IH by assumption.
    rewrite <- app_assoc. destruct (extract c); reflexivity.
Qed.

Lemma for_each_parse_books_inv (cs : list node) (acc books : list dict) :
  for_each parse_books_body cs acc = Ok books ->
  forallb has_h3 cs = true /\ books = acc ++ omap extract cs.
Proof.
  revert acc. induction cs as [|c cs IH]; intros acc H; simpl in *.
  - injection H as <-. now rewrite app_nil_r.
  - rewrite parse_books_body_eq in H. destruct (has_h3 c); [|discriminate].
    simpl in H. apply IH in H as [Hcs ->]. split; [assumption|].
    rewrite <- app_assoc. destruct (extract c); reflexivity.
Qed.

Lemma for_each_parse_books_raises (cs : list node) (acc : list dict) :
  forallb has_h3 cs = false ->
  for_each parse_books_body cs acc = Raise AttributeError.
Proof.
  revert acc. induction cs as [|c cs IH]; intros acc H; simpl in *.
  - discriminate.
  - rewrite parse_books_body_eq. destruct (has_h3 c); simpl in *.
    + apply IH, H.
    + reflexivity.
Qed.

Lemma parse_books_from_html_eq (html : str) :
  html <> [] ->
  parse_books_from_html BeautifulSoup (Some html) =
    for_each parse_books_body (containers (BeautifulSoup html)) [].
Proof. destruct html; [congruence | reflexivity]. Qed.

Lemma omap_extract_filter (cs : list node) (keep : node -> bool) :
  (forall c, In c cs -> keep c = false -> extract c = None) ->
  omap extract cs = omap extract (List.filter keep cs).
Proof.
  induction cs as [|c cs IH]; intros H; [reflexivity|].
  cbn [List.filter]. destruct (keep c) eqn:K.
  - cbn [omap list_omap]. rewrite <- IH; [reflexivity|].
    intros d Hd. apply H. now right.
  - change (omap extract (c :: cs)) with
      (match extract c with
       | Some r => r :: omap extract cs
       | None => omap extract cs
       end).
    rewrite (H c) by (auto; now left). apply IH.
    intros d Hd. apply H. now right.
Qed.

Lemma extract_well_formed (c : node) :
  well_formed c = true -> exists r, extract c = Some r.
Proof.
  unfold well_formed, extract.
  destruct (link_of c), (price_of c); try discriminate. eauto.
Qed.

Lemma length_omap_extract_well_formed (cs : list node) :
  length (omap extract (List.filter well_formed cs)) =
  length (List.filter well_formed cs).
Proof.
  induction cs as [|c cs IH]; [reflexivity|].
  cbn [List.filter]. destruct (well_formed c) eqn:W; [|exact IH].
  destruct (extract_well_formed c W) as [r Hr].
  change (omap extract (c :: List.filter well_formed cs)) with
    (match extract c with
     | Some r => r :: omap extract (List.filter well_formed cs)
     | None => omap extract (List.filter well_formed cs) end).
  rewrite Hr. simpl. now rewrite IH.
Qed.

(** C1 (amended).  On markup whose record containers all have an
    [h3], [parse_books_from_html] returns, in document order, the record
    of every container that has the nested link and the price element,
    and nothing for the others; the title of a link without a [title]
    attribute is the empty string.  When moreover no link lacks its
    [title], these are exactly the records of the N well-formed
    containers. *)
Theorem parse_books_lists_linked_priced_containers (html : str) :
  html <> [] ->
  forallb has_h3 (containers (BeautifulSoup html)) = true ->
  let cs := containers (BeautifulSoup html) in
  parse_books_from_html BeautifulSoup (Some html) = Ok (omap extract cs) /\
  ((forall c a, In c cs -> link_of c = Some a ->
      has_attr (py "title") a = true) ->
   omap extract cs = omap extract (List.filter well_formed cs) /\
   length (omap extract cs) = length (List.filter well_formed cs)).
Proof.
  intros Hne Hh3 cs. split.
  - rewrite parse_books_from_html_eq by assumption.
    now rewrite for_each_parse_books_ok.
  - intros Htitled.
    assert (E : omap extract cs = omap extract (List.filter well_formed cs)).
    { apply omap_extract_filter. intros c Hc W.
      unfold well_formed in W. unfold extract.
      destruct (link_of c) as [a|] eqn:L; [|reflexivity].
      destruct (price_of c); [|reflexivity].
      rewrite (Htitled c a Hc L) in W. discriminate. }
    split; [exact E|]. rewrite E. apply length_omap_extract_well_formed.
Qed.

(** C10.  Whatever [parse_books_from_html] is given, every record it
    returns has the keys [Title] and [Price] and no other.  And on
    markup, a container whose link exists but has no [title] attribute,
    and whose price element exists, is among the records with the empty
    string as its title. *)
Theorem parse_books_records_have_title_and_price
    (html_content : option str) (books : list dict) :
  parse_books_from_html BeautifulSoup html_content = Ok books ->
  Forall (fun r => Dict.keys r = [py "Title"; py "Price"]) books /\
  (forall (html : str) (book a p : node),
     html_content = Some html -> html <> [] ->
     In book (containers (BeautifulSoup html)) ->
     link_of book = Some a ->
     has_attr (py "title") a = false ->
     price_of book = Some p ->
     In [(py "Title", []); (py "Price", strip (Soup.text p))] books).
Proof.
  intros Hparse.
  assert (Hbooks : books = [] \/
            exists html, html_content = Some html /\ html <> [] /\
              books = omap extract (containers (BeautifulSoup html))).
  { destruct html_content as [[|c0 html0]|].
    - left. cbn in Hparse. congruence.
    - right. exists (c0 :: html0). split; [reflexivity|].
      split; [discriminate|].
      rewrite parse_books_from_html_eq in Hparse by discriminate.
      now apply for_each_parse_books_inv in Hparse as [_ ->].
    - left. cbn in Hparse. congruence. }
  split.
  - destruct Hbooks as [-> | (html & _ & _ & ->)]; [constructor|].
    apply Forall_forall. intros r Hr.
    apply list_elem_of_omap in Hr as (c & _ & Hc).
    unfold extract in Hc.
    destruct (link_of c), (price_of c); try discriminate.
    injection Hc as <-. reflexivity.
  - intros html book a p -> Hne Hin Hlink Hattr Hprice.
    destruct Hbooks as [-> | (html' & [= <-] & _ & ->)].
    + rewrite parse_books_from_html_eq in Hparse by assumption.
      apply for_each_parse_books_inv in Hparse as [_ Hnil]. cbn [app] in Hnil.
      assert (Hmem : [(py "Title", []); (py "Price", strip (Soup.text p))]
                     ∈ omap extract (containers (BeautifulSoup html))).
      { apply list_elem_of_omap.
        exists book. split; [now rewrite list_elem_of_In|].
        unfold extract. rewrite Hlink, Hprice. unfold record_of.
        destruct a as [nm attrs cs| |]; cbn [Soup.get has_attr] in *;
          try reflexivity.
        destruct (Soup.lookup_attr (py "title") attrs);
          [discriminate|reflexivity]. }
      rewrite <- Hnil in Hmem. inversion Hmem.
    + rewrite <- list_elem_of_In. apply list_elem_of_omap.
      exists book. split; [now rewrite list_elem_of_In|].
      unfold extract. rewrite Hlink, Hprice. unfold record_of.
      destruct a as [nm attrs cs| |]; cbn [Soup.get has_attr] in *;
        try reflexivity.
      destruct (Soup.lookup_attr (py "title") attrs);
        [discriminate|reflexivity].
Qed.

(** Without an [h3] in some container the whole extraction raises. *)
Lemma parse_books_raises_iff (html : str) :
  html <> [] ->
  (parse_books_from_html BeautifulSoup (Some html) = Raise AttributeError <->
   forallb has_h3 (containers (BeautifulSoup html)) = false).
Proof.
  intros Hne. rewrite parse_books_from_html_eq by assumption.
  destruct (forallb has_h3 (containers (BeautifulSoup html))) eqn:E.
  - rewrite for_each_parse_books_ok by assumption. split; discriminate.
  - rewrite for_each_parse_books_raises by assumption. split; reflexivity.
Qed.

(** The link harvest has the same shape: it raises on a container
    without [h3] and otherwise collects the non-empty [href]s. *)
Lemma get_book_urls_body_eq (urls : list str) (book : node) :
  get_book_urls_body urls book =
    if has_h3 book
    then Ok (urls ++ match link_of book with
                     | Some a =>
                         match Soup.get a (py "href") [] with
                         | [] => []
                         | href => [href]
                         end
                     | None => []
                     end)
    else Raise AttributeError.
Proof.
  unfold get_book_urls_body, has_h3, link_of.
  destruct (Soup.find book (py "h3") None) as [h3|]; [|reflexivity].
  cbn [rbind Soup.on_tag].
  destruct (Soup.find h3 (py "a") None) as [a|];
    [|now rewrite app_nil_r].
  destruct (Soup.get a (py "href") []); [now rewrite app_nil_r | reflexivity].
Qed.

Lemma get_book_urls_raises (html : str) :
  html <> [] ->
  forallb has_h3 (containers (BeautifulSoup html)) = false ->
  get_book_urls BeautifulSoup (Some html) = Raise AttributeError.
Proof.
  intros Hne. destruct html as [|c0 html0]; [congruence|].
  unfold get_book_urls. fold (containers (BeautifulSoup (c0 :: html0))).
  generalize (@nil str).
  induction (containers (BeautifulSoup (c0 :: html0))) as [|c cs IH];
    intros acc H; cbn [forallb for_each] in *; [discriminate|].
  rewrite get_book_urls_body_eq. destruct (has_h3 c); cbn [rbind andb] in *.
  - apply IH, H.
  - reflexivity.
Qed.

End ParserFacts.

Import Container Samples.

Lemma parse_books_lists_linked_priced_containers_witness :
  let cs := containers (Markup.tree_of mixed_page) in
  parse_books_from_html Markup.tree_of (Some mixed_page)
    = Ok (omap extract cs) /\
  ((forall c a, In c cs -> link_of c = Some a ->
      has_attr (py "title") a = true) ->
   omap extract cs = omap extract (List.filter well_formed cs) /\
   length (omap extract cs) = length (List.filter well_formed cs)).
Proof.
  apply (parse_books_lists_linked_priced_containers Markup.tree_of mixed_page).
  - discriminate.
  - vm_compute. reflexivity.
Defined.

Example parse_mixed_page :
  parse_books_from_html Markup.tree_of (Some mixed_page) =
    Ok [ [ (py "Title", py "A Light in the Attic");
           (py "Price", pound :: py "51.77") ];
         [ (py "Title", py "Soumission");
           (py "Price", pound :: py "50.10") ] ].
Proof. vm_compute. reflexivity. Qed.

(** C1 (as stated) fails: the one container of [untitled_page] has no
    [title] attribute on its link, so the page has no well-formed
    container, and yet a record is returned for it. *)
Lemma untitled_link_is_listed :
  List.filter well_formed (containers (Markup.tree_of untitled_page)) = [] /\
  parse_books_from_html Markup.tree_of (Some untitled_page) =
    Ok [ [ (py "Title", []); (py "Price", pound :: py "1.00") ] ].
Proof. split; vm_compute; reflexivity. Qed.

(** C9.  On [headless_page], whose container has a price element but
    no [h3], both extraction functions raise [AttributeError]: the
    result of [book.find('h3')] is used without a test. *)
Theorem extraction_raises_without_h3 :
  parse_books_from_html Markup.tree_of (Some headless_page)
    = Raise AttributeError /\
  get_book_urls Markup.tree_of (Some headless_page) = Raise AttributeError.
Proof. split; vm_compute; reflexivity. Qed.


(** ** The fetcher *)

Lemma range_cons (a b : Z) :
  (a < b)%Z -> range a b = a :: range (a + 1) b.
Proof.
  intros H. unfold range.
  replace (Z.to_nat (b - a)) with (S (Z.to_nat (b - (a + 1)))) by lia.
  cbn [seq map]. rewrite <- seq_shift, map_map. f_equal; [lia|].
  apply map_ext. intros i. lia.
Qed.

Lemma range_nil (a b : Z) : (b <= a)%Z -> range a b = [].
Proof.
  intros H. unfold range. now replace (Z.to_nat (b - a)) with 0 by lia.
Qed.


Lemma py_inj (a b : string) : py a = py b -> a = b.
Proof.
  revert b. induction a as [|x a IH]; intros [|y b] H;
    try discriminate; [reflexivity|].
  cbn [py] in H. injection H as Hx Hab. f_equal; [|now apply IH].
  rewrite <- (Ascii.ascii_N_embedding x), <- (Ascii.ascii_N_embedding y).
  now rewrite Hx.
Qed.

Lemma str_of_int_inj (n m : Z) : str_of_int n = str_of_int m -> n = m.
Proof.
  intros H. apply py_inj in H.
  assert (Hnil : forall z, Z.to_int z <> Decimal.Pos Decimal.Nil /\
                           Z.to_int z <> Decimal.Neg Decimal.Nil).
  { intros [|p|p]; split; cbn; try discriminate; intros [= E];
      now apply (Unsigned.to_uint_nonnil p). }
  apply DecimalZ.to_int_inj.
  assert (E : NilZero.int_of_string (NilZero.string_of_int (Z.to_int n))
              = NilZero.int_of_string (NilZero.string_of_int (Z.to_int m)))
    by now rewrite H.
  rewrite !NilZero.isi in E by apply Hnil. now injection E.
Qed.

(** Distinct page numbers have distinct URLs. *)
Lemma page_url_inj (p q : Z) : page_url p = page_url q -> p = q.
Proof.
  unfold page_url.
  destruct (Z.eqb_spec p 1) as [->|Hp], (Z.eqb_spec q 1) as [->|Hq];
    intros H.
  - reflexivity.
  - apply (f_equal (@length char)) in H.
    rewrite !length_app in H. vm_compute in H. lia.
  - apply (f_equal (@length char)) in H.
    rewrite !length_app in H. vm_compute in H. lia.
  - apply app_inv_head, app_inv_tail in H. now apply str_of_int_inj.
Qed.


Lemma sleep_refused (seconds : Q) (tr : trace) :
  Qle_bool 0 seconds = false ->
  sleep seconds tr = (Raise ValueError, tr).
Proof. intros H. unfold sleep. now rewrite H. Qed.

Lemma sleep_2 (tr : trace) : sleep 2 tr = (Ok tt, tr ++ [Sleep 2]).
Proof. reflexivity. Qed.

Section FetcherFacts.

Variable requests_get : nat -> str -> Z -> result response.

Lemma attempt_fails (url : str) (timeout : Z) (h : IO (option str))
    (tr : trace) :
  transport_failure
    (requests_get (length (List.filter is_request tr)) url timeout) = true ->
  try_except_request
    (response <- send requests_get url timeout ;;
     lift (raise_for_status response) ;;;
     ret (Some (text response))) h tr
  = h (tr ++ [Request url timeout]).
Proof.
  intros H. unfold try_except_request, bind, send, lift, ret, raise_for_status.
  unfold transport_failure in H.
  destruct (requests_get _ url timeout) as [resp|[]]; try discriminate.
  - now rewrite H.
  - reflexivity.
Qed.

Lemma attempt_succeeds (url : str) (timeout : Z) (h : IO (option str))
    (tr : trace) (resp : response) :
  requests_get (length (List.filter is_request tr)) url timeout = Ok resp ->
  raise_for_status resp = Ok tt ->
  try_except_request
    (response <- send requests_get url timeout ;;
     lift (raise_for_status response) ;;;
     ret (Some (text response))) h tr
  = (Ok (Some (text resp)), tr ++ [Request url timeout]).
Proof.
  intros H Hs. unfold try_except_request, bind, send, lift, ret.
  now rewrite H, Hs.
Qed.

Lemma fetch_html_loop_exhausted (url : str) (timeout retry_attempts : Z) :
  (forall n, transport_failure (requests_get n url timeout) = true) ->
  forall (k : nat) (a : Z) (tr : trace),
    (a + Z.of_nat k = retry_attempts)%Z ->
    fetch_html_loop requests_get (range a retry_attempts) url timeout
      retry_attempts tr
    = (Ok None, tr ++ retry_trace url timeout k).
Proof.
  intros Hfail. induction k as [|k IH]; intros a tr Hk.
  - rewrite range_nil by lia. cbn. now rewrite app_nil_r.
  - rewrite range_cons by lia. cbn [fetch_html_loop].
    rewrite attempt_fails by apply Hfail.
    destruct k as [|k'].
    + replace (a <? retry_attempts - 1)%Z with false
        by (symmetry; apply Z.ltb_ge; lia).
      reflexivity.
    + replace (a <? retry_attempts - 1)%Z with true
        by (symmetry; apply Z.ltb_lt; lia).
      unfold bind at 1. rewrite sleep_2.
      rewrite (IH (a + 1)%Z) by lia.
      rewrite <- !app_assoc. reflexivity.
Qed.

(** C7.  When every request to [url] fails at the transport level,
    [fetch_html] sends [retry_attempts] requests (none when that number
    is not positive), sleeps two seconds between one and the next, and
    then returns [None]; it does not raise. *)
Theorem fetch_html_gives_up (url : str) (timeout retry_attempts : Z)
    (tr : trace) :
  (forall n, transport_failure (requests_get n url timeout) = true) ->
  fetch_html requests_get url timeout retry_attempts tr
  = (Ok None, tr ++ retry_trace url timeout (Z.to_nat retry_attempts)).
Proof.
  intros Hfail. unfold fetch_html.
  destruct (Z.le_gt_cases retry_attempts 0) as [Hle|Hgt].
  - rewrite range_nil by assumption.
    replace (Z.to_nat retry_attempts) with 0 by lia.
    cbn. now rewrite app_nil_r.
  - apply fetch_html_loop_exhausted; [assumption | lia].
Qed.

Lemma retry_trace_requests (url : str) (timeout : Z) (n : nat) :
  length (List.filter is_request (retry_trace url timeout n)) = n.
Proof.
  induction n as [|[|n] IH]; [reflexivity | reflexivity |].
  change (retry_trace url timeout (S (S n)))
    with (Request url timeout :: Sleep 2 :: retry_trace url timeout (S n)).
  cbn [List.filter is_request length]. now rewrite IH.
Qed.




(** A page that is served at once is fetched with one request. *)
Lemma fetch_books_page_served (page : Z) (tr : trace) (resp : response) :
  requests_get (length (List.filter is_request tr)) (page_url page) 30
    = Ok resp ->
  raise_for_status resp = Ok tt ->
  fetch_books_page requests_get page tr
  = (Ok (Some (text resp)), tr ++ [Request (page_url page) 30]).
Proof.
  intros H Hs. unfold fetch_books_page, fetch_html.
  change (range 0 3) with [0; 1; 2]%Z. cbn [fetch_html_loop].
  now apply attempt_succeeds.
Qed.

End FetcherFacts.

Lemma fetch_html_gives_up_witness :
  fetch_html (fun _ _ _ => Raise RequestException)
    (py "https://books.toscrape.com/") 30 3 []
  = (Ok None,
     [] ++ retry_trace (py "https://books.toscrape.com/") 30 (Z.to_nat 3)).
Proof.
  apply (fetch_html_gives_up (fun _ _ _ => Raise RequestException)).
  intros n. reflexivity.
Defined.

(** ** The crawl controller *)

Section CrawlFacts.

Variable BeautifulSoup : str -> node.
Variable requests_get : nat -> str -> Z -> result response.

Lemma truthy_some (html : str) : html <> [] -> truthy (Some html) = true.
Proof. destruct html; [congruence | reflexivity]. Qed.

Lemma fetch_served (page : Z) (html : str) (tr : trace) :
  served requests_get page html ->
  fetch_books_page requests_get page tr
  = (Ok (Some html), tr ++ [Request (page_url page) 30]).
Proof.
  intros H.
  destruct (H (length (List.filter is_request tr))) as (resp & E & Es & <-).
  now apply fetch_books_page_served.
Qed.

(** The loop unfolded by one turn. *)
Lemma scrape_all_pages_loop_S (fuel : nat) (page : Z) (all_books : list dict)
    (delay : Q) :
  scrape_all_pages_loop BeautifulSoup requests_get (S fuel) page all_books
    delay
  = (html_content <- fetch_books_page requests_get page ;;
     if negb (truthy html_content) then ret (Some all_books)
     else
       not_found <- lift (is_page_not_found html_content) ;;
       if (not_found : bool) then ret (Some all_books)
       else
         books <- lift (parse_books_from_html BeautifulSoup html_content) ;;
         match books with
         | [] => ret (Some all_books)
         | _ :: _ =>
             sleep delay ;;;
             scrape_all_pages_loop BeautifulSoup requests_get fuel
               (page + 1)%Z (all_books ++ books) delay
         end).
Proof. reflexivity. Qed.

(** Fuel only bounds the loop: a crawl that has ended ends the same way
    with more of it. *)
Lemma scrape_all_pages_loop_more_fuel (delay : Q) (fuel : nat) :
  forall (page : Z) (all_books result : list dict) (tr tr' : trace),
    scrape_all_pages_loop BeautifulSoup requests_get fuel page all_books
      delay tr = (Ok (Some result), tr') ->
    scrape_all_pages_loop BeautifulSoup requests_get (S fuel) page all_books
      delay tr = (Ok (Some result), tr').
Proof.
  induction fuel as [|fuel IH]; intros page all_books result tr tr' H.
  - discriminate.
  - rewrite scrape_all_pages_loop_S in H.
    rewrite (scrape_all_pages_loop_S (S fuel)).
    unfold bind at 1 in H. unfold bind at 1.
    destruct (fetch_books_page requests_get page tr) as [[html|e] tr1];
      [|exact H].
    destruct (negb (truthy html)); [exact H|].
    unfold bind at 1, lift at 1 in H. unfold bind at 1, lift at 1.
    destruct (is_page_not_found html) as [[|]|e]; try exact H.
    unfold bind at 1, lift at 1 in H. unfold bind at 1, lift at 1.
    destruct (parse_books_from_html BeautifulSoup html) as [[|b bs]|e];
      try exact H.
    unfold bind at 1, sleep in H. unfold bind at 1, sleep.
    destruct (Qle_bool 0 delay); [apply IH, H | exact H].
Qed.


(** The turn after which the pause is refused: a catalogue page, and a
    delay that is negative. *)
Lemma scrape_all_pages_refused (fuel : nat) (page : Z) (html : str)
    (books all_books : list dict) (delay : Q) (tr : trace) :
  (delay < 0)%Q ->
  served requests_get page html -> catalog_page BeautifulSoup html books ->
  scrape_all_pages_loop BeautifulSoup requests_get (S fuel) page all_books
    delay tr
  = (Raise ValueError, tr ++ [Request (page_url page) 30]).
Proof.
  intros Hd Hs (Hne & Hnf & Hparse & Hbooks).
  cbn [scrape_all_pages_loop]. unfold bind at 1.
  rewrite (fetch_served page html) by assumption.
  rewrite truthy_some by assumption. cbn [negb].
  unfold bind at 1, lift at 1. rewrite Hnf.
  unfold bind at 1, lift at 1. rewrite Hparse.
  destruct books as [|b books]; [congruence|].
  unfold bind at 1. rewrite sleep_refused; [reflexivity|].
  destruct (Qle_bool 0 delay) eqn:E; [|reflexivity].
  apply Qle_bool_iff in E. exfalso. now apply (Qlt_not_le delay 0).
Qed.




(** The bounded crawl *)








End CrawlFacts.

(** ** The price normaliser *)

Section PriceFacts.

Variable unicode_decimal : char -> option N.

Lemma remove_currency_clean (s : str) :
  Forall (fun c => ~ In c currency_glyphs) (remove_currency s).
Proof.
  unfold remove_currency. apply Forall_forall. intros c Hc.
  apply list_elem_of_In, filter_In in Hc as [_ Hc].
  intros Hin. apply negb_true_iff in Hc.
  assert (existsb (N.eqb c) currency_glyphs = true); [|congruence].
  apply existsb_exists. exists c. split; [assumption | apply N.eqb_refl].
Qed.

Lemma remove_currency_app (a b : str) :
  remove_currency (a ++ b) = remove_currency a ++ remove_currency b.
Proof. apply List.filter_app. Qed.

(** A string without currency glyphs is left as it is. *)
Lemma remove_currency_id (s : str) :
  Forall (fun c => ~ In c currency_glyphs) s -> remove_currency s = s.
Proof.
  induction 1 as [|c s Hc _ IH]; [reflexivity|].
  unfold remove_currency in *. cbn [List.filter].
  destruct (existsb (N.eqb c) currency_glyphs) eqn:E.
  - apply existsb_exists in E as (g & Hg & Hcg).
    apply N.eqb_eq in Hcg. subst g. contradiction.
  - cbn [negb]. now rewrite IH.
Qed.

Lemma of_str_raises_only_ValueError (s : str) (e : exn) :
  PyFloat.of_str unicode_decimal s = Raise e -> e = ValueError.
Proof.
  unfold PyFloat.of_str.
  destruct (if existsb _ _ then _ else _); [|congruence].
  destruct (PyFloat.strtod _); congruence.
Qed.

Lemma space_is_no_glyph (c : char) :
  isspace c = true -> ~ In c currency_glyphs.
Proof.
  intros H Hin. cbn in Hin.
  destruct Hin as [<- | [<- | [<- | [<- | [<- | []]]]]]; discriminate.
Qed.

Lemma remove_currency_space (ws : str) :
  forallb isspace ws = true -> remove_currency ws = ws.
Proof.
  intros H. apply remove_currency_id. apply Forall_forall. intros c Hc.
  apply space_is_no_glyph. rewrite forallb_forall in H.
  apply H. now apply list_elem_of_In.
Qed.

Lemma remove_currency_glyph (g : char) :
  In g currency_glyphs -> remove_currency [g] = [].
Proof.
  intros H. unfold remove_currency. cbn [List.filter].
  replace (existsb (N.eqb g) currency_glyphs) with true; [reflexivity|].
  symmetry. apply existsb_exists. exists g. split; [assumption|].
  apply N.eqb_refl.
Qed.

Lemma clean_price_eq (s : str) :
  s <> [] ->
  clean_price unicode_decimal s =
    match PyFloat.of_str unicode_decimal (strip (remove_currency s)) with
    | Raise ValueError => Ok PyFloat.zero
    | other => other
    end.
Proof. destruct s; [congruence | reflexivity]. Qed.

Lemma clean_price_blank (s : str) :
  strip (remove_currency s) = [] ->
  clean_price unicode_decimal s = Ok PyFloat.zero.
Proof.
  intros H. destruct s as [|c s]; [reflexivity|].
  rewrite clean_price_eq by discriminate. now rewrite H.
Qed.

(** The result depends on the price string through its cleaned text
    only. *)
Lemma clean_price_cleaned (x y : str) :
  strip (remove_currency x) = strip (remove_currency y) ->
  clean_price unicode_decimal x = clean_price unicode_decimal y.
Proof.
  intros E. destruct x as [|c x], y as [|d y]; [reflexivity| | |].
  - symmetry. apply clean_price_blank. now rewrite <- E.
  - apply clean_price_blank. now rewrite E.
  - rewrite !clean_price_eq by discriminate. now rewrite E.
Qed.

(** C4.  The four sample prices come out as the floats [51.77], [0.0],
    [0.0] and [12.0].  On every string [clean_price] returns a float
    without raising.  A currency glyph counts for nothing wherever it
    stands, and so does white space around the string; and on a string
    without glyphs and without white space around it, the result is the
    float that the string denotes, or [0.0] when it denotes none. *)
Theorem clean_price_normalises :
  clean_price unicode_decimal (163%N :: py "51.77")
    = Ok (S754_finite false 7285979772155331 (-47)) /\
  clean_price unicode_decimal [] = Ok (S754_zero false) /\
  clean_price unicode_decimal (py "not a price") = Ok (S754_zero false) /\
  clean_price unicode_decimal (194%N :: 163%N :: py "12.00")
    = Ok (S754_finite false 6755399441055744 (-49)) /\
  (forall price_str, exists f,
     clean_price unicode_decimal price_str = Ok f) /\
  (forall (a b : str) (g : char),
     In g [163; 36; 8364; 165; 194]%N ->
     clean_price unicode_decimal (a ++ g :: b)
     = clean_price unicode_decimal (a ++ b)) /\
  (forall pre s post : str,
     forallb isspace pre = true -> forallb isspace post = true ->
     clean_price unicode_decimal (pre ++ s ++ post)
     = clean_price unicode_decimal s) /\
  (forall s : str,
     Forall (fun c => ~ In c [163; 36; 8364; 165; 194]%N) s ->
     stripped_of s s ->
     clean_price unicode_decimal s
     = match PyFloat.of_str unicode_decimal s with
       | Ok x => Ok x
       | Raise _ => Ok (S754_zero false)
       end).
Proof.
  split; [vm_compute; reflexivity|].
  split; [reflexivity|].
  split; [vm_compute; reflexivity|].
  split; [vm_compute; reflexivity|].
  split; [|split; [|split]].
  - intros [|c s]; [now exists PyFloat.zero|].
    rewrite clean_price_eq by discriminate.
    destruct (PyFloat.of_str unicode_decimal _) as [f|e] eqn:E; [eauto|].
    apply of_str_raises_only_ValueError in E. subst e. eauto.
  - intros a b g Hg. apply clean_price_cleaned.
    change (g :: b) with ([g] ++ b).
    rewrite !remove_currency_app, remove_currency_glyph by exact Hg.
    reflexivity.
  - intros pre s post Hpre Hpost. apply clean_price_cleaned.
    rewrite !remove_currency_app.
    rewrite (remove_currency_space pre), (remove_currency_space post)
      by assumption.
    now apply strip_app_space.
  - intros s Hclean Htrim. destruct s as [|c s]; [reflexivity|].
    rewrite clean_price_eq by discriminate.
    rewrite (remove_currency_id _ Hclean), (stripped_of_strip _ _ Htrim).
    destruct (PyFloat.of_str unicode_decimal (c :: s)) as [f|e] eqn:E;
      [reflexivity|].
    apply of_str_raises_only_ValueError in E. now subst e.
Qed.

End PriceFacts.

(** ** Persistence *)

Section SaverFacts.

Variable flushed : str -> str.
Variable render_row : list (option str) -> str.


Lemma write_file_ok (path : str) (mode : open_mode) (text : str)
    (fs : filesystem) :
  path ∉ unwritable fs ->
  encodable text = true ->
  write_file flushed path mode text fs
  = (Ok tt,
     {| files := <[path := match mode with
                            | ModeW => []
                            | ModeA => default [] (read_file fs path)
                            end ++ text]> (files fs);
        unwritable := unwritable fs |}).
Proof.
  intros H He. unfold write_file.
  now rewrite bool_decide_eq_false_2, He.
Qed.

Lemma write_file_fails (path : str) (mode : open_mode) (text : str)
    (fs : filesystem) :
  path ∈ unwritable fs ->
  write_file flushed path mode text fs = (Raise OSError, fs).
Proof.
  intros H. unfold write_file. now rewrite bool_decide_eq_true_2.
Qed.

(** A text that cannot be encoded is refused after the file was
    opened. *)
Lemma write_file_refused (path : str) (mode : open_mode) (text : str)
    (fs : filesystem) :
  path ∉ unwritable fs ->
  encodable text = false ->
  write_file flushed path mode text fs
  = (Raise ValueError,
     {| files := <[path := match mode with
                            | ModeW => []
                            | ModeA => default [] (read_file fs path)
                            end ++ flushed text]> (files fs);
        unwritable := unwritable fs |}).
Proof.
  intros H He. unfold write_file.
  now rewrite bool_decide_eq_false_2, He.
Qed.


Lemma read_file_insert (fs : filesystem) (p q text : str) :
  read_file {| files := <[p := text]> (files fs);
               unwritable := unwritable fs |} q
  = if decide (p = q) then Some text else read_file fs q.
Proof. unfold read_file. cbn [files]. apply lookup_insert. Qed.

Lemma encodable_app (a b : str) :
  encodable (a ++ b) = encodable a && encodable b.
Proof. apply forallb_app. Qed.

(** What a successful call writes. *)
Lemma save_to_csv_ok (data : list dict) (filename : str) (append : bool)
    (fs : filesystem) :
  data <> [] ->
  filename ∉ unwritable fs ->
  let df := Pandas.from_records data in
  encodable ((if negb (append && path_exists fs filename)
              then Pandas.header_line render_row df else [])
             ++ Pandas.data_lines render_row df) = true ->
  save_to_csv flushed render_row data filename append fs
  = (true,
     {| files :=
          <[filename :=
              (if append then default [] (read_file fs filename) else [])
              ++ (if negb (append && path_exists fs filename)
                  then Pandas.header_line render_row df else [])
              ++ Pandas.data_lines render_row df]> (files fs);
        unwritable := unwritable fs |}).
Proof.
  intros Hdata Hw df He. destruct data as [|d data]; [congruence|].
  unfold save_to_csv, Pandas.to_csv.
  rewrite write_file_ok by assumption. now destruct append.
Qed.





(** C8.  [save_to_csv] answers with a boolean.  The answer is [True]
    exactly when there are records, the destination can be opened for
    writing and the text can be encoded; the file then holds the whole
    text.  When the answer is [False] the file system is as it was,
    unless the write failed after the file was opened: then the file
    holds what had reached it.  On empty input nothing is touched, and
    no other file changes in any case. *)
Theorem save_to_csv_reports (data : list dict) (filename : str)
    (append : bool) (fs : filesystem) :
  exists ok fs',
    save_to_csv flushed render_row data filename append fs = (ok, fs') /\
    let df := Pandas.from_records data in
    let before := if append then default [] (read_file fs filename) else [] in
    let text :=
      (if negb (append && path_exists fs filename)
       then render_row (map Some (Pandas.columns df)) else [])
      ++ concat (map render_row (Pandas.rows df)) in
    (ok = true <->
     data <> [] /\ (filename ∉ unwritable fs) /\ encodable text = true) /\
    (ok = true -> read_file fs' filename = Some (before ++ text)) /\
    (ok = false ->
     fs' = fs \/
     (data <> [] /\ (filename ∉ unwritable fs) /\ encodable text = false /\
      read_file fs' filename = Some (before ++ flushed text))) /\
    (data = [] -> fs' = fs) /\
    (forall p, p <> filename -> read_file fs' p = read_file fs p) /\
    unwritable fs' = unwritable fs.
Proof.
  destruct data as [|d data].
  { exists false, fs. split; [reflexivity|]. cbv zeta.
    split; [split; [discriminate | intros (H & _); congruence]|].
    split; [discriminate|]. split; [auto|]. auto. }
  unfold save_to_csv, Pandas.to_csv.
  set (df := Pandas.from_records (d :: data)).
  set (text := (if negb (append && path_exists fs filename)
                then Pandas.header_line render_row df else [])
               ++ Pandas.data_lines render_row df).
  destruct (decide (filename ∈ unwritable fs)) as [Hin|Hout].
  - rewrite write_file_fails by assumption.
    exists false, fs. split; [reflexivity|]. cbv zeta.
    split; [split; [discriminate | intros (_ & H & _); contradiction]|].
    split; [discriminate|]. split; [auto|]. auto.
  - destruct (encodable text) eqn:Eenc.
    + rewrite write_file_ok by assumption.
      eexists true, _. split; [reflexivity|]. cbv zeta.
      split; [split; [intros _; repeat split; [discriminate|assumption..]
                     | reflexivity]|].
      split.
      { intros _. rewrite read_file_insert, decide_True by reflexivity.
        now destruct append. }
      split; [discriminate|]. split; [discriminate|].
      split; [|reflexivity].
      intros p Hp. rewrite read_file_insert. now rewrite decide_False.
    + rewrite write_file_refused by assumption.
      eexists false, _. split; [reflexivity|]. cbv zeta.
      split; [split; [discriminate|]|].
      { intros (_ & _ & H). fold df in H.
        change (encodable text = true) in H. congruence. }
      split; [discriminate|].
      split.
      { intros _. right. split; [discriminate|]. split; [assumption|].
        split; [exact Eenc|].
        rewrite read_file_insert, decide_True by reflexivity.
        now destruct append. }
      split; [discriminate|]. split; [|reflexivity].
      intros p Hp. rewrite read_file_insert. now rewrite decide_False.
Qed.

End SaverFacts.

(** ** The statements at work on the sample catalogue *)

Example not_found_page_is_end :
  is_page_not_found (Some not_found_page) = Ok true.
Proof. vm_compute. reflexivity. Qed.

(** A catalogue page is not taken for the end of the catalogue, and a
    absent or empty one is. *)
Example catalog_page_is_not_end :
  is_page_not_found (Some catalog_page_1) = Ok false /\
  parse_books_from_html Markup.tree_of (Some catalog_page_1) = Ok two_books /\
  is_page_not_found None = Ok true /\
  is_page_not_found (Some []) = Ok true.
Proof. repeat split; vm_compute; reflexivity. Qed.

(** A title holding [404] marks the end; the test looks for the bare
    tag [<title>], so a title tag with an attribute goes unnoticed. *)
Example title_404_is_end :
  is_page_not_found (Some oops_page) = Ok true /\
  title_segment (lower oops_page) = Ok (py "oops 404") /\
  is_page_not_found (Some oops_page_lang) = Ok false.
Proof. repeat split; vm_compute; reflexivity. Qed.

(** A page of fewer than 500 characters is taken for the end even
    though it carries a record. *)
Example short_page_is_end :
  is_page_not_found (Some short_page) = Ok true /\
  exists r, parse_books_from_html Markup.tree_of (Some short_page) = Ok [r].
Proof. split; [|eexists]; vm_compute; reflexivity. Qed.

Lemma parse_books_records_have_title_and_price_witness :
  Forall (fun r => Dict.keys r = [py "Title"; py "Price"]) two_books /\
  In [ (py "Title", []); (py "Price", strip (Soup.text untitled_price)) ]
    [ [ (py "Title", []); (py "Price", pound :: py "1.00") ] ].
Proof.
  split.
  - apply (parse_books_records_have_title_and_price Markup.tree_of
             (Some catalog_page_1) two_books).
    vm_compute. reflexivity.
  - apply (proj2 (parse_books_records_have_title_and_price Markup.tree_of
                    (Some untitled_page)
                    [ [ (py "Title", []); (py "Price", pound :: py "1.00") ] ]
                    ltac:(vm_compute; reflexivity))
             untitled_page untitled_book untitled_link untitled_price).
    + reflexivity.
    + discriminate.
    + vm_compute. left. reflexivity.
    + vm_compute. reflexivity.
    + vm_compute. reflexivity.
    + vm_compute. reflexivity.
Defined.



(** The exhaustive crawl of the sample catalogue: three records, three
    requests. *)
Example scrape_sample_catalogue :
  scrape_all_pages Markup.tree_of sample_server 3 1 1 []
  = (Ok (Some (two_books ++ one_book)),
     [ Request (page_url 1) 30; Sleep 1;
       Request (page_url 2) 30; Sleep 1;
       Request (page_url 3) 30 ]).
Proof. vm_compute. reflexivity. Qed.

(** Past the end the sample server answers with status 404: the fetch
    is given up after three requests and the crawl ends there. *)
Example crawl_ends_at_failed_fetch :
  scrape_all_pages Markup.tree_of sample_server 5 4 1 []
  = (Ok (Some []),
     [ Request (page_url 4) 30; Sleep 2;
       Request (page_url 4) 30; Sleep 2;
       Request (page_url 4) 30 ]).
Proof. vm_compute. reflexivity. Qed.

(** Bounded to two pages, the crawl of the same catalogue does not ask
    for the third, and does not pause after the second. *)
Example scrape_two_sample_pages :
  scrape_multiple_pages Markup.tree_of sample_server 1 2 1 []
  = (Ok (two_books ++ one_book),
     [ Request (page_url 1) 30; Sleep 1; Request (page_url 2) 30 ]).
Proof. vm_compute. reflexivity. Qed.

(** The bounded crawl goes past a page that the heuristic takes for the
    end; the exhaustive crawl stops there. *)
Example bounded_crawl_ignores_heuristic :
  (exists short,
     fst (scrape_multiple_pages Markup.tree_of short_server 1 3 1 [])
     = Ok (two_books ++ [short] ++ one_book)) /\
  scrape_all_pages Markup.tree_of short_server 5 1 1 []
  = (Ok (Some two_books),
     [ Request (page_url 1) 30; Sleep 1; Request (page_url 2) 30 ]).
Proof. split; [eexists|]; vm_compute; reflexivity. Qed.

(** A page answered with status 404 is given up after three requests;
    the bounded crawl ends there without raising. *)
Example bounded_crawl_stops_at_failure :
  scrape_multiple_pages Markup.tree_of sample_server 3 4 1 []
  = (Ok [],
     [ Request (page_url 3) 30 ]) /\
  scrape_multiple_pages Markup.tree_of sample_server 4 2 1 []
  = (Ok [],
     [ Request (page_url 4) 30; Sleep 2;
       Request (page_url 4) 30; Sleep 2;
       Request (page_url 4) 30 ]).
Proof. split; vm_compute; reflexivity. Qed.

(** A negative delay is refused by [time.sleep]: either crawl raises
    [ValueError] when it comes to pause after the first page.  A bounded
    crawl of one page does not pause. *)
Example negative_delay_is_refused :
  scrape_all_pages Markup.tree_of sample_server 3 1 (-1 # 1) []
  = (Raise ValueError, [ Request (page_url 1) 30 ]) /\
  scrape_multiple_pages Markup.tree_of sample_server 1 2 (-1 # 1) []
  = (Raise ValueError, [ Request (page_url 1) 30 ]) /\
  scrape_multiple_pages Markup.tree_of sample_server 1 1 (-1 # 1) []
  = (Ok two_books, [ Request (page_url 1) 30 ]).
Proof. repeat split; vm_compute; reflexivity. Qed.


(** Appending two records to a file of one: the header is not
    repeated. *)
Example append_two_books :
  read_file
    (snd (save_to_csv nothing_flushed plain_row two_books books_csv true
            stocked_disk))
    books_csv
  = Some (plain_row [Some (py "Title"); Some (py "Price")]
          ++ plain_row [Some (py "Soumission"); Some (pound :: py "50.10")]
          ++ plain_row [Some (py "A Light in the Attic");
                        Some (pound :: py "51.77")]
          ++ plain_row [Some (py "Tipping the Velvet");
                        Some (pound :: py "53.74")]).
Proof. vm_compute. reflexivity. Qed.

(** Nothing to write, or nowhere to write it: [False], and the disk as
    it was. *)
Example save_nothing_or_nowhere :
  save_to_csv nothing_flushed plain_row [] books_csv false stocked_disk
    = (false, stocked_disk) /\
  save_to_csv nothing_flushed plain_row two_books books_csv false locked_disk
    = (false, locked_disk).
Proof. split; reflexivity. Qed.

(** A text that cannot be encoded: [False], and in write mode the file
    that was there is lost. *)
Example save_surrogate_empties_file :
  exists fs',
    save_to_csv nothing_flushed plain_row surrogate_book books_csv false
      stocked_disk = (false, fs') /\
    read_file fs' books_csv = Some [] /\
    read_file stocked_disk books_csv <> Some [].
Proof.
  eexists. split; [reflexivity|]. split; [vm_compute; reflexivity|].
  vm_compute. discriminate.
Qed.

(** C2 (as stated) fails: [phrase_page] is a catalogue page of ordinary
    size with two record containers, and it is taken for the end of the
    catalogue, because the title of a record holds a phrase.  So is
    [short_page], by its length, and [oops_page], by its title. *)
Lemma record_page_taken_for_end :
  is_page_not_found (Some phrase_page) = Ok true /\
  parse_books_from_html Markup.tree_of (Some phrase_page)
  = Ok [ [ (py "Title", py "No Results Found");
           (py "Price", pound :: py "12.00") ];
         [ (py "Title", py "Tipping the Velvet");
           (py "Price", pound :: py "53.74") ] ] /\
  500 <= length (strip phrase_page) /\
  is_page_not_found (Some short_page) = Ok true /\
  parse_books_from_html Markup.tree_of (Some short_page)
  = Ok [ [ (py "Title", py "Short"); (py "Price", pound :: py "5.00") ] ] /\
  is_page_not_found (Some oops_page) = Ok true /\
  parse_books_from_html Markup.tree_of (Some oops_page) = Ok two_books.
Proof.
  repeat split; try (vm_compute; reflexivity).
  apply Nat.leb_le. vm_compute. reflexivity.
Qed.



(** * Further properties *)

(** ** The fetcher *)

Section FetcherMore.

Variable requests_get : nat -> str -> Z -> result response.

Lemma requests_app (a b : trace) : requests (a ++ b) = requests a + requests b.
Proof. unfold requests. now rewrite List.filter_app, length_app. Qed.

Lemma pauses_app (a b : trace) : pauses (a ++ b) = pauses a + pauses b.
Proof. unfold pauses. now rewrite List.filter_app, length_app. Qed.

Lemma fetch_html_loop_first_success (url : str) (timeout retry_attempts : Z)
    (resp : response) :
  raise_for_status resp = Ok tt ->
  forall (k : nat) (a : Z) (tr : trace),
    (a + Z.of_nat k < retry_attempts)%Z ->
    (forall i, i < k ->
       transport_failure (requests_get (requests tr + i) url timeout) = true) ->
    requests_get (requests tr + k) url timeout = Ok resp ->
    fetch_html_loop requests_get (range a retry_attempts) url timeout
      retry_attempts tr
    = (Ok (Some (text resp)), tr ++ retry_trace url timeout (S k)).
Proof.
  intros Hs. induction k as [|k IH]; intros a tr Ha Hfail Hok.
  - rewrite range_cons by lia. cbn [fetch_html_loop].
    rewrite Nat.add_0_r in Hok.
    now rewrite (attempt_succeeds requests_get url timeout _ tr resp).
  - rewrite range_cons by lia. cbn [fetch_html_loop].
    rewrite attempt_fails
      by (specialize (Hfail 0 ltac:(lia)); now rewrite Nat.add_0_r in Hfail).
    replace (a <? retry_attempts - 1)%Z with true
      by (symmetry; apply Z.ltb_lt; lia).
    unfold bind at 1. rewrite sleep_2.
    assert (Hreq : requests ((tr ++ [Request url timeout]) ++ [Sleep 2])
                   = S (requests tr)).
    { rewrite !requests_app. cbn. lia. }
    rewrite (IH (a + 1)%Z).
    + rewrite <- !app_assoc. reflexivity.
    + lia.
    + intros i Hi. rewrite Hreq.
      replace (S (requests tr) + i) with (requests tr + S i) by lia.
      apply Hfail. lia.
    + rewrite Hreq.
      now replace (S (requests tr) + k) with (requests tr + S k) by lia.
Qed.

(** X1.  When the first [k] requests fail at the transport level and
    the next one is answered with a good status, [fetch_html] with more
    than [k] attempts allowed returns the text of that answer, after
    [k + 1] requests with two seconds of sleep between them; no request
    is sent after the one that succeeded. *)
Theorem fetch_html_returns_first_success (url : str)
    (timeout retry_attempts : Z) (k : nat) (resp : response) (tr : trace) :
  (Z.of_nat k < retry_attempts)%Z ->
  (forall i, i < k ->
     transport_failure (requests_get (requests tr + i) url timeout) = true) ->
  requests_get (requests tr + k) url timeout = Ok resp ->
  raise_for_status resp = Ok tt ->
  fetch_html requests_get url timeout retry_attempts tr
  = (Ok (Some (text resp)), tr ++ retry_trace url timeout (S k)).
Proof.
  intros Hk Hfail Hok Hs. unfold fetch_html.
  apply fetch_html_loop_first_success; auto.
Qed.



Lemma fetch_html_loop_raises (url : str) (timeout retry_attempts : Z)
    (e : exn) (attempts : list Z) :
  forall tr,
    fst (fetch_html_loop requests_get attempts url timeout retry_attempts tr)
      = Raise e ->
    e <> RequestException /\ exists n, requests_get n url timeout = Raise e.
Proof.
  induction attempts as [|a rest IH]; intros tr; [discriminate|].
  cbn [fetch_html_loop].
  unfold try_except_request, bind at 1 2, send, lift, ret.
  assert (Hretry : fst ((if (a <? retry_attempts - 1)%Z
                         then sleep 2 ;;;
                              fetch_html_loop requests_get rest url timeout
                                retry_attempts
                         else ret None) (tr ++ [Request url timeout]))
                   = Raise e ->
                   e <> RequestException /\
                   exists n, requests_get n url timeout = Raise e).
  { destruct (a <? retry_attempts - 1)%Z; [|discriminate].
    unfold bind. rewrite sleep_2. apply IH. }
  destruct (requests_get _ url timeout) as [resp|e0] eqn:Eget.
  - destruct (raise_for_status resp) as [[]|e1] eqn:Es; [discriminate|].
    assert (e1 = RequestException) as ->.
    { unfold raise_for_status in Es. destruct (_ && _)%bool; congruence. }
    exact Hretry.
  - destruct e0; try exact Hretry;
      cbn [fst]; intros [= <-]; (split; [discriminate | eauto]).
Qed.

(** X3.  [fetch_html] raises only what [requests.get] raised, and never
    a [RequestException]: every transport failure is turned into a retry
    or into [None]. *)
Theorem fetch_html_raises_only_foreign (url : str)
    (timeout retry_attempts : Z) (tr : trace) (e : exn) :
  fst (fetch_html requests_get url timeout retry_attempts tr) = Raise e ->
  e <> RequestException /\ exists n, requests_get n url timeout = Raise e.
Proof. apply fetch_html_loop_raises. Qed.

End FetcherMore.

(** X4.  The page URLs are the catalogue root for page 1 and a
    different URL for every other page number: two pages have the same
    URL only when they are the same page. *)
Theorem page_url_distinct (p q : Z) :
  page_url 1 = py "https://books.toscrape.com/" /\
  (page_url p = page_url q <-> p = q).
Proof.
  split; [reflexivity|]. split; [apply page_url_inj | now intros ->].
Qed.

Lemma lstrip_chars_spec (chars : list char) (s : str) :
  exists skipped,
    s = skipped ++ lstrip_chars chars s /\
    Forall (fun c => In c chars) skipped /\
    match lstrip_chars chars s with
    | c :: _ => ~ In c chars
    | [] => True
    end.
Proof.
  induction s as [|c s (sk & E & Hsk & Hhd)]; [now exists []|].
  cbn [lstrip_chars]. destruct (existsb (N.eqb c) chars) eqn:Hc.
  - exists (c :: sk). split; [cbn; now f_equal|]. split; [|assumption].
    constructor; [|assumption].
    apply existsb_exists in Hc as (x & Hx & Hcx).
    apply N.eqb_eq in Hcx. now subst.
  - exists []. split; [reflexivity|]. split; [constructor|].
    intros Hin.
    assert (existsb (N.eqb c) chars = true); [|congruence].
    apply existsb_exists. exists c. split; [assumption | apply N.eqb_refl].
Qed.

Lemma startswith_http_base (s : str) :
  startswith (py "http") (base_url ++ s) = true.
Proof. reflexivity. Qed.

(** X5.  The URL fetched for a detail page always starts with [http]:
    an absolute URL is fetched as it is, and a relative one is put
    after the catalogue base without its leading dots and slashes, so
    that what follows the base begins with neither.  Resolving an URL
    twice changes nothing. *)
Theorem detail_url_resolved (book_url : str) :
  startswith (py "http") (detail_url book_url) = true /\
  detail_url (detail_url book_url) = detail_url book_url /\
  (startswith (py "http") book_url = true -> detail_url book_url = book_url) /\
  (startswith (py "http") book_url = false ->
   exists skipped rest,
     book_url = skipped ++ rest /\
     Forall (fun c => c = 46%N \/ c = 47%N) skipped /\
     match rest with c :: _ => c <> 46%N /\ c <> 47%N | [] => True end /\
     detail_url book_url = base_url ++ rest).
Proof.
  assert (H1 : startswith (py "http") (detail_url book_url) = true).
  { unfold detail_url. destruct (startswith (py "http") book_url) eqn:E;
      [exact E | apply startswith_http_base]. }
  split; [exact H1|]. split; [|split].
  - unfold detail_url at 1. now rewrite H1.
  - intros E. unfold detail_url. now rewrite E.
  - intros E. unfold detail_url. rewrite E. cbn [negb].
    destruct (lstrip_chars_spec (py "../") book_url) as (sk & Es & Hsk & Hhd).
    exists sk, (lstrip_chars (py "../") book_url).
    split; [exact Es|]. split; [|split; [|reflexivity]].
    + eapply List.Forall_impl; [|exact Hsk]. cbn. intros c Hc.
      destruct Hc as [<- | [<- | [<- | []]]]; auto.
    + destruct (lstrip_chars (py "../") book_url) as [|c r]; [exact I|].
      split; intros ->; apply Hhd; vm_compute; auto.
Qed.

(** ** The extractor *)

Section ParserMore.

Variable BeautifulSoup : str -> node.

Import Container.

Lemma for_each_get_book_urls_ok (cs : list node) (acc : list str) :
  forallb has_h3 cs = true ->
  for_each get_book_urls_body cs acc = Ok (acc ++ omap href_of cs).
Proof.
  revert acc. induction cs as [|c cs IH]; intros acc H.
  - cbn. now rewrite app_nil_r.
  - cbn [forallb] in H. apply andb_true_iff in H as [Hc Hcs].
    cbn [for_each]. rewrite get_book_urls_body_eq, Hc. cbn [rbind].
    rewrite IH by assumption. rewrite <- app_assoc. f_equal. f_equal.
    change (omap href_of (c :: cs))
      with (match href_of c with
            | Some u => u :: omap href_of cs
            | None => omap href_of cs
            end).
    unfold href_of. destruct (link_of c) as [a|]; [|reflexivity].
    destruct (Soup.get a (py "href") []); reflexivity.
Qed.

Lemma href_of_nonempty (c : node) (u : str) : href_of c = Some u -> u <> [].
Proof.
  unfold href_of. destruct (link_of c) as [a|]; [|discriminate].
  destruct (Soup.get a (py "href") []); [discriminate|].
  intros [= <-]. discriminate.
Qed.

Lemma length_omap_le {A B} (f : A -> option B) (l : list A) :
  length (omap f l) <= length l.
Proof.
  induction l as [|x l IH]; [reflexivity|].
  change (omap f (x :: l))
    with (match f x with Some y => y :: omap f l | None => omap f l end).
  destruct (f x); cbn; lia.
Qed.

(** X6.  On markup whose record containers all have an [h3],
    [get_book_urls] returns, in document order, the [href] of the
    nested link of every container that has one; a container without
    link, or whose link has no [href] or an empty one, contributes
    nothing.  No returned address is empty, and there are no more
    addresses than containers. *)
Theorem get_book_urls_lists_links (html : str) :
  html <> [] ->
  forallb has_h3 (containers (BeautifulSoup html)) = true ->
  let cs := containers (BeautifulSoup html) in
  get_book_urls BeautifulSoup (Some html) = Ok (omap href_of cs) /\
  Forall (fun u => u <> []) (omap href_of cs) /\
  length (omap href_of cs) <= length cs.
Proof.
  intros Hne Hh3 cs. split; [|split].
  - destruct html as [|c0 h0]; [congruence|].
    unfold get_book_urls. fold (containers (BeautifulSoup (c0 :: h0))).
    now rewrite for_each_get_book_urls_ok.
  - apply Forall_forall. intros u Hu.
    apply list_elem_of_omap in Hu as (c & _ & Hc).
    now apply (href_of_nonempty c).
  - apply length_omap_le.
Qed.

Lemma get_book_urls_ok (html : str) :
  html <> [] ->
  forallb has_h3 (containers (BeautifulSoup html)) = true ->
  get_book_urls BeautifulSoup (Some html)
  = Ok (omap href_of (containers (BeautifulSoup html))).
Proof.
  intros Hne H. destruct html as [|c0 h0]; [congruence|].
  unfold get_book_urls. fold (containers (BeautifulSoup (c0 :: h0))).
  now rewrite for_each_get_book_urls_ok.
Qed.

Lemma raise_together_nonempty (html : str) :
  html <> [] ->
  (forall e, get_book_urls BeautifulSoup (Some html) = Raise e ->
             e = AttributeError) /\
  (forall e, parse_books_from_html BeautifulSoup (Some html) = Raise e ->
             e = AttributeError) /\
  (get_book_urls BeautifulSoup (Some html) = Raise AttributeError <->
   parse_books_from_html BeautifulSoup (Some html) = Raise AttributeError).
Proof.
  intros Hne.
  destruct (forallb has_h3 (containers (BeautifulSoup html))) eqn:E.
  - rewrite (get_book_urls_ok html Hne E).
    rewrite (parse_books_from_html_eq BeautifulSoup html Hne).
    rewrite for_each_parse_books_ok by assumption.
    repeat split; intros; discriminate.
  - rewrite (get_book_urls_raises BeautifulSoup html Hne E).
    rewrite (proj2 (parse_books_raises_iff BeautifulSoup html Hne) E).
    repeat split; intros; congruence.
Qed.

(** X7.  The two extraction functions fail together: on any input
    [get_book_urls] raises exactly when [parse_books_from_html] does,
    and what both raise is [AttributeError]. *)
Theorem extraction_functions_raise_together (html_content : option str) :
  (forall e, get_book_urls BeautifulSoup html_content = Raise e ->
             e = AttributeError) /\
  (forall e, parse_books_from_html BeautifulSoup html_content = Raise e ->
             e = AttributeError) /\
  (get_book_urls BeautifulSoup html_content = Raise AttributeError <->
   parse_books_from_html BeautifulSoup html_content = Raise AttributeError).
Proof.
  destruct html_content as [html|];
    [|repeat split; intros; discriminate].
  destruct html as [|c0 h0] eqn:Eh;
    [repeat split; intros; discriminate|].
  apply raise_together_nonempty. discriminate.
Qed.

(** X8.  The values of every record that [parse_books_from_html]
    returns are stripped: neither a title nor a price begins or ends
    with whitespace, so stripping them again changes nothing. *)
Theorem parse_books_values_stripped (html_content : option str)
    (books : list dict) :
  parse_books_from_html BeautifulSoup html_content = Ok books ->
  Forall (fun r => Forall (fun kv => trimmed (snd kv) /\
                                     strip (snd kv) = snd kv) r) books.
Proof.
  intros H. destruct html_content as [[|c0 h0]|];
    try (injection H as <-; constructor).
  rewrite parse_books_from_html_eq in H by discriminate.
  apply for_each_parse_books_inv in H as [_ ->]. cbn [app].
  apply Forall_forall. intros r Hr.
  apply list_elem_of_omap in Hr as (c & _ & Hc).
  unfold extract in Hc. destruct (link_of c), (price_of c); try discriminate.
  injection Hc as <-. unfold record_of.
  repeat constructor; cbn [snd];
    first [apply strip_trimmed | apply strip_idem].
Qed.

End ParserMore.

(** ** The price normaliser *)

Section PriceMore.

Variable unicode_decimal : char -> option N.

(** X9.  Currency glyphs count for nothing wherever they stand: a
    price string with a glyph inserted anywhere is normalised to the
    same float as without it. *)
Theorem clean_price_ignores_glyphs (a b : str) (g : char) :
  In g currency_glyphs ->
  clean_price unicode_decimal (a ++ g :: b)
  = clean_price unicode_decimal (a ++ b).
Proof.
  intros Hg.
  assert (E : remove_currency (a ++ g :: b) = remove_currency (a ++ b)).
  { change (g :: b) with ([g] ++ b).
    rewrite !remove_currency_app, remove_currency_glyph by assumption.
    reflexivity. }
  destruct (a ++ b) as [|c s] eqn:Eab.
  - apply app_eq_nil in Eab as [-> ->]. cbn [app].
    apply clean_price_blank. now rewrite remove_currency_glyph.
  - rewrite !clean_price_eq by (try discriminate; now destruct a).
    now rewrite E.
Qed.

(** X10.  Whitespace around a price string counts for nothing: the
    string is normalised to the same float with it as without it. *)
Theorem clean_price_ignores_outer_space (pre s post : str) :
  forallb isspace pre = true -> forallb isspace post = true ->
  clean_price unicode_decimal (pre ++ s ++ post)
  = clean_price unicode_decimal s.
Proof.
  intros Hpre Hpost.
  assert (E : strip (remove_currency (pre ++ s ++ post))
              = strip (remove_currency s)).
  { rewrite !remove_currency_app.
    rewrite (remove_currency_space pre), (remove_currency_space post)
      by assumption.
    now apply strip_app_space. }
  destruct s as [|c s'].
  - apply clean_price_blank. rewrite E. reflexivity.
  - rewrite !clean_price_eq
      by (try discriminate; destruct pre; discriminate).
    now rewrite E.
Qed.

End PriceMore.

(** ** The crawl controller *)

Section CrawlMore.

Variable BeautifulSoup : str -> node.
Variable requests_get : nat -> str -> Z -> result response.











End CrawlMore.

(** ** The writer *)

Lemma add_key_in (cols : list str) (k k' : str) :
  In k' (if existsb (Str.eqb k) cols then cols else cols ++ [k])
  <-> In k' cols \/ k' = k.
Proof.
  destruct (existsb (Str.eqb k) cols) eqn:E.
  - split; [tauto|]. intros [H| ->]; [assumption|].
    apply existsb_exists in E as (x & Hx & Hk).
    apply eqb_eq in Hk. now subst.
  - rewrite in_app_iff. cbn. intuition.
Qed.

Lemma add_keys_in (ks cols : list str) (k' : str) :
  In k' (fold_left
           (fun cols k =>
              if existsb (Str.eqb k) cols then cols else cols ++ [k])
           ks cols)
  <-> In k' cols \/ In k' ks.
Proof.
  revert cols. induction ks as [|k ks IH]; intros cols; cbn [fold_left].
  - cbn. tauto.
  - rewrite IH, add_key_in. cbn. intuition.
Qed.

Lemma add_keys_known (ks cols : list str) :
  (forall k, In k ks -> In k cols) ->
  fold_left
    (fun cols k => if existsb (Str.eqb k) cols then cols else cols ++ [k])
    ks cols = cols.
Proof.
  revert cols. induction ks as [|k ks IH]; intros cols H; [reflexivity|].
  cbn [fold_left].
  assert (E : existsb (Str.eqb k) cols = true).
  { apply existsb_exists. exists k. split; [apply H; now left|].
    apply eqb_refl. }
  rewrite E. apply IH. intros k' Hk'. apply H. now right.
Qed.

(** The columns gathered from [data] on top of [cols]. *)
Lemma union_keys_from_in (data : list dict) (cols : list str) (k : str) :
  In k (fold_left
          (fun cols d =>
             fold_left
               (fun cols k =>
                  if existsb (Str.eqb k) cols then cols else cols ++ [k])
               (Dict.keys d) cols)
          data cols)
  <-> In k cols \/ exists d, In d data /\ In k (Dict.keys d).
Proof.
  revert cols. induction data as [|d data IH]; intros cols; cbn [fold_left].
  - split; [tauto|]. intros [H|(d & [] & _)]. assumption.
  - rewrite IH, add_keys_in. split.
    + intros [[H|H]|(d' & Hd' & Hk)]; [now left | right | right].
      * exists d. split; [now left | assumption].
      * exists d'. split; [now right | assumption].
    + intros [H|(d' & [<-|Hd'] & Hk)]; [now left; left | now left; right |].
      right. eauto.
Qed.

Lemma union_keys_from_known (data : list dict) (cols : list str) :
  (forall d k, In d data -> In k (Dict.keys d) -> In k cols) ->
  fold_left
    (fun cols d =>
       fold_left
         (fun cols k =>
            if existsb (Str.eqb k) cols then cols else cols ++ [k])
         (Dict.keys d) cols)
    data cols = cols.
Proof.
  revert cols. induction data as [|d data IH]; intros cols H; [reflexivity|].
  cbn [fold_left]. rewrite add_keys_known.
  - apply IH. intros d' k Hd' Hk. apply (H d' k); [now right | assumption].
  - intros k Hk. apply (H d k); [now left | assumption].
Qed.

Lemma union_keys_app_same (a b : list dict) :
  Pandas.union_keys b = Pandas.union_keys a ->
  Pandas.union_keys (a ++ b) = Pandas.union_keys a.
Proof.
  intros E. unfold Pandas.union_keys at 1. rewrite fold_left_app.
  fold (Pandas.union_keys a). apply union_keys_from_known.
  intros d k Hd Hk. rewrite <- E. unfold Pandas.union_keys.
  apply union_keys_from_in. right. eauto.
Qed.

Section SaverMore.

Variable flushed : str -> str.
Variable render_row : list (option str) -> str.

(** X16.  Appending to a file that does not exist is saving afresh:
    [append_books_to_csv] then does just what [save_to_csv] does in
    overwrite mode, header line included, whatever the records and
    whether or not the path can be written. *)
Theorem append_to_missing_file_is_save (books : list dict) (filename : str)
    (fs : filesystem) :
  read_file fs filename = None ->
  append_books_to_csv flushed render_row books filename fs
  = save_to_csv flushed render_row books filename false fs.
Proof.
  intros Hmiss. unfold append_books_to_csv, save_to_csv.
  destruct books as [|d books]; [reflexivity|].
  unfold path_exists. rewrite Hmiss. cbn [andb negb].
  unfold Pandas.to_csv, write_file. rewrite Hmiss. reflexivity.
Qed.

Lemma data_lines_app (a b : list dict) :
  Pandas.union_keys b = Pandas.union_keys a ->
  Pandas.data_lines render_row (Pandas.from_records (a ++ b))
  = Pandas.data_lines render_row (Pandas.from_records a)
    ++ Pandas.data_lines render_row (Pandas.from_records b).
Proof.
  intros E. unfold Pandas.data_lines, Pandas.from_records.
  cbn [Pandas.rows].
  assert (G : forall cols1 cols2 cols3 : list str,
            cols1 = cols2 -> cols3 = cols2 ->
            concat (map render_row
                      (map (fun d : dict =>
                              map (fun k => Dict.lookup k d) cols1) (a ++ b)))
            = concat (map render_row
                        (map (fun d : dict =>
                                map (fun k => Dict.lookup k d) cols2) a))
              ++ concat (map render_row
                           (map (fun d : dict =>
                                   map (fun k => Dict.lookup k d) cols3) b))).
  { intros ? ? ? -> ->. now rewrite !map_app, concat_app. }
  apply G; [now apply union_keys_app_same | assumption].
Qed.

Lemma header_line_app (a b : list dict) :
  Pandas.union_keys b = Pandas.union_keys a ->
  Pandas.header_line render_row (Pandas.from_records (a ++ b))
  = Pandas.header_line render_row (Pandas.from_records a).
Proof.
  intros E. unfold Pandas.header_line, Pandas.from_records.
  cbn [Pandas.columns]. do 2 f_equal. now apply union_keys_app_same.
Qed.

(** X17.  Saving in batches.  When two batches of records have the
    same columns and their header and lines can be encoded, appending
    the first and then the second to a file that does not exist yet, at
    a path that can be written, leaves the file system that saving the
    two batches at once leaves: one header line, then the lines of the
    first batch, then those of the second. *)
Theorem append_in_batches_is_one_save (a b : list dict) (filename : str)
    (fs : filesystem) :
  a <> [] -> b <> [] ->
  filename ∉ unwritable fs ->
  read_file fs filename = None ->
  Pandas.union_keys b = Pandas.union_keys a ->
  encodable (Pandas.header_line render_row (Pandas.from_records a)
             ++ Pandas.data_lines render_row (Pandas.from_records a)
             ++ Pandas.data_lines render_row (Pandas.from_records b))
    = true ->
  exists fs1 fs2,
    append_books_to_csv flushed render_row a filename fs = (true, fs1) /\
    append_books_to_csv flushed render_row b filename fs1 = (true, fs2) /\
    save_to_csv flushed render_row (a ++ b) filename false fs = (true, fs2) /\
    read_file fs2 filename
    = Some (Pandas.header_line render_row (Pandas.from_records a)
            ++ Pandas.data_lines render_row (Pandas.from_records a)
            ++ Pandas.data_lines render_row (Pandas.from_records b)).
Proof.
  intros Ha Hb Hw Hmiss E Henc. unfold append_books_to_csv.
  pose proof Henc as Hall.
  rewrite !encodable_app in Henc.
  apply andb_prop in Henc as [Hh Henc]. apply andb_prop in Henc as [Hea Heb].
  assert (Hex : path_exists fs filename = false)
    by (unfold path_exists; now rewrite Hmiss).
  rewrite (save_to_csv_ok flushed render_row a filename true fs Ha Hw)
    by (rewrite Hex; cbn [andb negb]; now rewrite encodable_app, Hh, Hea).
  eexists. eexists. split; [reflexivity|].
  assert (Hex1 : forall text,
            path_exists {| files := <[filename := text]> (files fs);
                           unwritable := unwritable fs |} filename = true).
  { intros text. unfold path_exists.
    now rewrite read_file_insert, decide_True by reflexivity. }
  match goal with
  | |- save_to_csv _ _ b _ true ?f = _ /\ _ =>
      rewrite (save_to_csv_ok flushed render_row b filename true f Hb Hw)
        by (rewrite Hex1; cbn [andb negb app]; exact Heb)
  end.
  assert (Hab : a ++ b <> []) by (destruct a; [congruence | discriminate]).
  rewrite (save_to_csv_ok flushed render_row (a ++ b) filename false fs Hab Hw)
    by (cbn [andb negb];
        now rewrite (header_line_app a b E), (data_lines_app a b E)).
  rewrite read_file_insert, decide_True by reflexivity.
  rewrite Hex1, Hex.
  rewrite Hmiss. cbn [andb negb default files unwritable app].
  rewrite insert_insert_eq.
  rewrite (header_line_app a b E), (data_lines_app a b E).
  unfold id. rewrite <- app_assoc.
  split; [reflexivity|]. split; [reflexivity|].
  now rewrite read_file_insert, decide_True by reflexivity.
Qed.

End SaverMore.

(** The columns of what the extractor returns. *)
Lemma extract_keys (book : node) (r : dict) :
  Container.extract book = Some r -> Dict.keys r = [py "Title"; py "Price"].
Proof.
  unfold Container.extract.
  destruct (Container.link_of book), (Container.price_of book);
    try discriminate.
  now intros [= <-].
Qed.

Lemma union_keys_uniform (cols : list str) (data : list dict) :
  NoDup cols -> data <> [] ->
  Forall (fun d => Dict.keys d = cols) data ->
  Pandas.union_keys data = cols.
Proof.
  intros Hnd Hne Hall. destruct data as [|d data]; [congruence|].
  unfold Pandas.union_keys. cbn [fold_left].
  apply List.Forall_cons_iff in Hall as [Hd Hall].
  assert (G : forall cs pre : list str, NoDup (pre ++ cs) ->
            fold_left
              (fun cols k =>
                 if existsb (Str.eqb k) cols then cols else cols ++ [k])
              cs pre = pre ++ cs).
  { clear. induction cs as [|k cs IH]; intros pre Hpre; cbn [fold_left].
    - now rewrite app_nil_r.
    - assert (Hk : existsb (Str.eqb k) pre = false).
      { destruct (existsb (Str.eqb k) pre) eqn:Ex; [|reflexivity].
        apply existsb_exists in Ex as (x & Hx & Hkx).
        apply eqb_eq in Hkx. subst x.
        apply NoDup_app in Hpre as (_ & Hdisj & _).
        exfalso. apply (Hdisj k); apply list_elem_of_In;
          [assumption | now left]. }
      rewrite Hk. rewrite IH.
      + now rewrite <- app_assoc.
      + now rewrite <- app_assoc. }
  assert (E : fold_left
                (fun cols k =>
                   if existsb (Str.eqb k) cols then cols else cols ++ [k])
                (Dict.keys d) [] = cols).
  { rewrite Hd. now apply (G cols []). }
  rewrite E. apply union_keys_from_known.
  intros d' k Hd' Hk. rewrite List.Forall_forall in Hall.
  now rewrite (Hall d' Hd') in Hk.
Qed.

(** A record with a title and a price, in this order. *)
Lemma title_price_nodup : NoDup [py "Title"; py "Price"].
Proof.
  constructor; [|constructor; [|constructor]];
    rewrite list_elem_of_In; cbn [In]; [|tauto].
  intros [H|[]]. apply py_inj in H. discriminate.
Qed.

Lemma shaped_columns (books : list dict) :
  books <> [] ->
  Forall (fun r => exists t p, r = [(py "Title", t); (py "Price", p)]) books ->
  Pandas.union_keys books = [py "Title"; py "Price"].
Proof.
  intros Hne Hshape. apply union_keys_uniform.
  - exact title_price_nodup.
  - assumption.
  - eapply List.Forall_impl; [|exact Hshape].
    now intros r (t & p & ->).
Qed.

Lemma shaped_rows (books : list dict) :
  Forall (fun r => exists t p, r = [(py "Title", t); (py "Price", p)]) books ->
  map (fun d => map (fun k => Dict.lookup k d) [py "Title"; py "Price"]) books
  = map (fun r => map Some (map snd r)) books.
Proof.
  induction 1 as [|r rs (t & p & ->) _ IH]; [reflexivity|].
  cbn [map] in *. rewrite IH. reflexivity.
Qed.

Section Pipeline.

Variable BeautifulSoup : str -> node.
Variable render_row : list (option str) -> str.

Lemma parsed_books_shape (html_content : option str) (books : list dict) :
  parse_books_from_html BeautifulSoup html_content = Ok books ->
  Forall (fun r => exists t p, r = [(py "Title", t); (py "Price", p)]) books.
Proof.
  intros Hparse.
  destruct html_content as [[|c html]|]; cbn in Hparse;
    try (injection Hparse as <-; constructor).
  apply for_each_parse_books_inv in Hparse as [_ ->]. cbn [app].
  apply List.Forall_forall. intros r Hr.
  apply list_elem_of_In, list_elem_of_omap in Hr as (book & _ & Hex).
  unfold Container.extract in Hex.
  destruct (Container.link_of book), (Container.price_of book);
    try discriminate.
  injection Hex as <-. unfold Container.record_of. eauto.
Qed.

(** X18.  The table of what the extractor returns.  A non-empty list
    of records returned by [parse_books_from_html] makes a frame with
    the columns [Title] and [Price] in this order and no missing cell:
    each row holds the two values of its record.  So two lists of
    records returned by the extractor always have the same columns. *)
Theorem parsed_books_frame (html_content : option str) (books : list dict) :
  parse_books_from_html BeautifulSoup html_content = Ok books ->
  books <> [] ->
  Pandas.columns (Pandas.from_records books) = [py "Title"; py "Price"] /\
  Pandas.rows (Pandas.from_records books)
  = map (fun r => map Some (map snd r)) books.
Proof.
  intros Hparse Hne. apply parsed_books_shape in Hparse.
  pose proof (shaped_columns books Hne Hparse) as Hcols.
  split; [exact Hcols|].
  unfold Pandas.from_records. cbn [Pandas.rows]. rewrite Hcols.
  now apply shaped_rows.
Qed.

End Pipeline.

(** ** The detail page *)

Lemma eqb_sym (a b : str) : Str.eqb a b = Str.eqb b a.
Proof.
  destruct (Str.eqb a b) eqn:E1, (Str.eqb b a) eqn:E2; try reflexivity.
  - apply eqb_eq in E1. subst. now rewrite eqb_refl in E2.
  - apply eqb_eq in E2. subst. now rewrite eqb_refl in E1.
Qed.

Lemma lookup_set (k k' v : str) (d : dict) :
  Dict.lookup k' (Dict.set k v d)
  = if Str.eqb k' k then Some v else Dict.lookup k' d.
Proof.
  unfold Dict.lookup.
  induction d as [|[k0 v0] d IH]; cbn [Dict.set Soup.lookup_attr].
  - reflexivity.
  - destruct (Str.eqb k k0) eqn:E; cbn [Soup.lookup_attr].
    + apply eqb_eq in E. subst k0. now destruct (Str.eqb k' k).
    + rewrite IH. destruct (Str.eqb k' k0) eqn:E0; [|reflexivity].
      apply eqb_eq in E0. subst k0. now rewrite eqb_sym, E.
Qed.

Lemma lookup_set_opt (k k' : str) (o : option str) (d : dict) :
  Dict.lookup k' (Detail.set_opt k o d)
  = if Str.eqb k' k
    then match o with Some v => Some v | None => Dict.lookup k' d end
    else Dict.lookup k' d.
Proof.
  destruct o as [v|]; cbn [Detail.set_opt].
  - apply lookup_set.
  - now destruct (Str.eqb k' k).
Qed.

Lemma lookup_fold_entries (k : str) (entries : list (str * str)) (d : dict) :
  Dict.lookup k (fold_left Detail.set_entry entries d)
  = match Detail.last_entry k entries with
    | Some v => Some v
    | None => Dict.lookup k d
    end.
Proof.
  unfold Detail.last_entry.
  induction entries as [|[k0 v0] entries IH] using rev_ind; [reflexivity|].
  rewrite fold_left_app, rev_app_distr. cbn [fold_left rev app].
  unfold Detail.set_entry at 1. cbn [fst snd]. rewrite lookup_set.
  unfold Dict.lookup at 2. cbn [Soup.lookup_attr].
  destruct (Str.eqb k k0); [reflexivity | exact IH].
Qed.

Lemma fold_table_rows (rows : list node) (d : dict) :
  fold_left table_row_body rows d
  = fold_left Detail.set_entry (omap Detail.row_entry rows) d.
Proof.
  revert d. induction rows as [|row rows IH]; intros d; [reflexivity|].
  cbn [fold_left].
  change (omap Detail.row_entry (row :: rows))
    with (match Detail.row_entry row with
          | Some kv => kv :: omap Detail.row_entry rows
          | None => omap Detail.row_entry rows
          end).
  assert (E : table_row_body d row
              = match Detail.row_entry row with
                | Some kv => Detail.set_entry d kv
                | None => d
                end).
  { unfold table_row_body, Detail.row_entry.
    now destruct (Soup.find row (py "th") None),
                 (Soup.find row (py "td") None). }
  rewrite E. destruct (Detail.row_entry row); cbn [fold_left]; apply IH.
Qed.

Section DetailsMore.

Variable BeautifulSoup : str -> node.

(** The detail parser as a sequence of writes. *)
Lemma parse_book_details_eq (html : str) :
  html <> [] ->
  let soup := BeautifulSoup html in
  parse_book_details BeautifulSoup (Some html)
  = Detail.set_opt (py "Rating") (Detail.rating soup)
      (Detail.set_opt (py "Description") (Detail.description soup)
         (fold_left Detail.set_entry (Detail.table_entries soup)
            (Detail.set_opt (py "Availability") (Detail.availability soup)
               (Detail.set_opt (py "Price") (Detail.price soup)
                  (Detail.set_opt (py "Title") (Detail.headline soup) []))))).
Proof.
  intros Hne soup. destruct html as [|c html]; [congruence|].
  unfold parse_book_details. fold soup. cbv zeta.
  unfold Detail.rating, Detail.description, Detail.table_entries,
    Detail.availability, Detail.price, Detail.headline.
  destruct (Soup.find soup (py "h1") None) as [e1|];
  destruct (Soup.find soup (py "p") (Some (py "price_color"))) as [e2|];
  destruct (Bs4.find_by
              (fun n => Bs4.named (py "p") n
                        && Bs4.class_is (py "instock availability") n)
              soup) as [e3|];
  destruct (Bs4.find_by
              (fun n => Bs4.named (py "table") n
                        && Bs4.class_is (py "table table-striped") n)
              soup) as [e4|];
  destruct (Bs4.locate
              (fun n => Bs4.named (py "div") n
                        && Bs4.attr_is (py "id") (py "product_description") n)
              soup) as [[e5 sib]|];
  try destruct (Bs4.find_next_sibling sib (py "p")) as [e6|];
  destruct (Bs4.find_by
              (fun n => Bs4.named (py "p") n
                        && Bs4.class_search (py "star-rating") n)
              soup) as [e7|];
  try destruct (List.find _ (default [] (Bs4.classes e7))) as [w|];
  cbn [option_map Detail.set_opt fold_left];
  rewrite ?fold_table_rows; reflexivity.
Qed.

(** X19.  Later writes win on the detail page.  The value that
    [parse_book_details] returns for a key is the rating or the
    description when that is the key and the page has one; else the
    value of the last row of the product table with that label; else
    what the top of the page gives for [Title], [Price] and
    [Availability].  So a table row labelled [Title] replaces the title
    of the heading. *)
Theorem parse_book_details_precedence (html k : str) :
  html <> [] ->
  Dict.lookup k (parse_book_details BeautifulSoup (Some html))
  = Detail.field_of (BeautifulSoup html) k.
Proof.
  intros Hne. rewrite parse_book_details_eq by assumption. cbv zeta.
  set (soup := BeautifulSoup html).
  unfold Detail.field_of, Detail.labelled, Detail.headed.
  rewrite !lookup_set_opt, lookup_fold_entries, !lookup_set_opt.
  change (Dict.lookup k []) with (@None str).
  destruct (Str.eqb k (py "Rating")) eqn:ER.
  { apply eqb_eq in ER. subst k.
    change (Str.eqb (py "Rating") (py "Description")) with false.
    change (Str.eqb (py "Rating") (py "Availability")) with false.
    change (Str.eqb (py "Rating") (py "Price")) with false.
    change (Str.eqb (py "Rating") (py "Title")) with false.
    reflexivity. }
  destruct (Str.eqb k (py "Description")) eqn:ED.
  { apply eqb_eq in ED. subst k.
    change (Str.eqb (py "Description") (py "Availability")) with false.
    change (Str.eqb (py "Description") (py "Price")) with false.
    change (Str.eqb (py "Description") (py "Title")) with false.
    reflexivity. }
  destruct (Detail.last_entry k (Detail.table_entries soup)); [reflexivity|].
  destruct (Str.eqb k (py "Title")) eqn:ET.
  { apply eqb_eq in ET. subst k.
    change (Str.eqb (py "Title") (py "Availability")) with false.
    change (Str.eqb (py "Title") (py "Price")) with false.
    now destruct (Detail.headline soup). }
  destruct (Str.eqb k (py "Price")) eqn:EP.
  { apply eqb_eq in EP. subst k.
    change (Str.eqb (py "Price") (py "Availability")) with false.
    now destruct (Detail.price soup). }
  destruct (Str.eqb k (py "Availability")); [|reflexivity].
  now destruct (Detail.availability soup).
Qed.

Lemma rating_is_word (soup : node) (r : str) :
  Detail.rating soup = Some r -> In r rating_words.
Proof.
  unfold Detail.rating.
  destruct (Bs4.find_by _ soup) as [e|]; [|discriminate].
  intros H. apply find_some in H as [_ H].
  apply existsb_exists in H as (w & Hw & E).
  apply eqb_eq in E. now subst.
Qed.

(** X20.  Where a rating comes from.  The value of [Rating] in the
    details of a page is one of the words [One] to [Five], unless the
    page has no rating element with such a class and the value is that
    of the last table row labelled [Rating]. *)
Theorem parse_book_details_rating (html_content : option str) (v : str) :
  Dict.lookup (py "Rating") (parse_book_details BeautifulSoup html_content)
    = Some v ->
  In v rating_words \/
  exists html, html_content = Some html /\
    Detail.rating (BeautifulSoup html) = None /\
    Detail.last_entry (py "Rating")
      (Detail.table_entries (BeautifulSoup html)) = Some v.
Proof.
  destruct html_content as [[|c html]|]; try discriminate.
  set (h := c :: html).
  rewrite (parse_book_details_eq h) by discriminate. cbv zeta.
  rewrite lookup_set_opt, eqb_refl.
  destruct (Detail.rating (BeautifulSoup h)) as [r|] eqn:Er.
  - intros [= <-]. left. now apply (rating_is_word (BeautifulSoup h)).
  - rewrite lookup_set_opt.
    change (Str.eqb (py "Rating") (py "Description")) with false.
    rewrite lookup_fold_entries, !lookup_set_opt.
    change (Str.eqb (py "Rating") (py "Availability")) with false.
    change (Str.eqb (py "Rating") (py "Price")) with false.
    change (Str.eqb (py "Rating") (py "Title")) with false.
    change (Dict.lookup (py "Rating") []) with (@None str).
    destruct (Detail.last_entry _ _) as [v'|] eqn:El; [|discriminate].
    intros [= <-]. right. exists h. auto.
Qed.

Lemma Forall_set (P : str * str -> Prop) (k v : str) (d : dict) :
  P (k, v) -> Forall P d -> Forall P (Dict.set k v d).
Proof.
  intros Hkv. induction 1 as [|[k0 v0] d H0 Hd IH]; cbn [Dict.set].
  - now constructor.
  - destruct (Str.eqb k k0); constructor; assumption.
Qed.

Lemma Forall_set_opt (P : str * str -> Prop) (k : str) (o : option str)
    (d : dict) :
  (forall v, o = Some v -> P (k, v)) -> Forall P d ->
  Forall P (Detail.set_opt k o d).
Proof.
  intros H Hd. destruct o as [v|]; [|exact Hd].
  apply Forall_set; auto.
Qed.

Lemma option_map_strip (e : option node) (v : str) :
  option_map (fun e => strip (Soup.text e)) e = Some v -> strip v = v.
Proof.
  destruct e as [e|]; [|discriminate]. intros [= <-]. apply strip_idem.
Qed.

(** X21.  Keys and values of the details are stripped: no key and no
    value that [parse_book_details] returns begins or ends with white
    space. *)
Theorem parse_book_details_stripped (html_content : option str) :
  Forall (fun kv => strip (fst kv) = fst kv /\ strip (snd kv) = snd kv)
    (parse_book_details BeautifulSoup html_content).
Proof.
  destruct html_content as [[|c html]|]; try constructor.
  set (h := c :: html).
  rewrite (parse_book_details_eq h) by discriminate. cbv zeta.
  set (soup := BeautifulSoup h).
  apply Forall_set_opt.
  { intros v Hv. apply (rating_is_word soup) in Hv. cbn [fst snd].
    split; [reflexivity|].
    destruct Hv as [<-|[<-|[<-|[<-|[<-|[]]]]]]; reflexivity. }
  apply Forall_set_opt.
  { intros v Hv. cbn [fst snd]. split; [reflexivity|].
    unfold Detail.description in Hv.
    destruct (Bs4.locate _ soup) as [[e sib]|]; [|discriminate].
    now apply option_map_strip in Hv. }
  assert (Hentries : Forall
            (fun kv => strip (fst kv) = fst kv /\ strip (snd kv) = snd kv)
            (Detail.table_entries soup)).
  { unfold Detail.table_entries.
    destruct (Bs4.find_by _ soup) as [t|]; [|constructor].
    apply List.Forall_forall. intros [k v] Hin.
    apply list_elem_of_In, list_elem_of_omap in Hin as (row & _ & Hrow).
    unfold Detail.row_entry in Hrow.
    destruct (Soup.find row (py "th") None),
             (Soup.find row (py "td") None); try discriminate.
    injection Hrow as <- <-. cbn [fst snd]. split; apply strip_idem. }
  assert (Hfold : forall es d,
            Forall (fun kv => strip (fst kv) = fst kv
                              /\ strip (snd kv) = snd kv) es ->
            Forall (fun kv => strip (fst kv) = fst kv
                              /\ strip (snd kv) = snd kv) d ->
            Forall (fun kv => strip (fst kv) = fst kv
                              /\ strip (snd kv) = snd kv)
              (fold_left Detail.set_entry es d)).
  { induction es as [|[k v] es IH]; intros d Hes Hd; [exact Hd|].
    apply List.Forall_cons_iff in Hes as [Hkv Hes].
    cbn [fold_left]. apply IH; [assumption|].
    unfold Detail.set_entry. now apply Forall_set. }
  apply Hfold; [exact Hentries|].
  apply Forall_set_opt.
  { intros v Hv. cbn [fst snd]. split; [reflexivity|].
    now apply option_map_strip in Hv. }
  apply Forall_set_opt.
  { intros v Hv. cbn [fst snd]. split; [reflexivity|].
    now apply option_map_strip in Hv. }
  apply Forall_set_opt.
  { intros v Hv. cbn [fst snd]. split; [reflexivity|].
    now apply option_map_strip in Hv. }
  constructor.
Qed.

End DetailsMore.
(** The element that [locate] returns is the one that [find_by]
    returns. *)
Lemma locate_is_find (test : node -> bool) :
  forall n, option_map fst (Bs4.locate test n) = Bs4.find_by test n.
Proof.
  fix IH 1. intros [name attrs cs| |]; [|reflexivity..].
  unfold Bs4.find_by. cbn [Bs4.locate Soup.descendants].
  induction cs as [|c cs IHcs]; [reflexivity|].
  cbn [flat_map app List.filter].
  destruct (test c) eqn:Ec; [reflexivity|].
  rewrite List.filter_app.
  specialize (IH c). unfold Bs4.find_by in IH.
  destruct (Bs4.locate test c) as [found|].
  - cbn [option_map] in IH |- *.
    destruct (List.filter test (Soup.descendants c)); [discriminate|].
    exact IH.
  - cbn [option_map] in IH.
    destruct (List.filter test (Soup.descendants c)); [|discriminate].
    exact IHcs.
Qed.

(** ** Details for a few records *)


Section ScrapeDetailsMore.

Variable BeautifulSoup : str -> node.
Variable requests_get : nat -> str -> Z -> result response.

Lemma fetch_html_answers (url html : str) (tr : trace) :
  answers requests_get url html ->
  fetch_html requests_get url 30 3 tr = (Ok (Some html), tr ++ [Request url 30]).
Proof.
  intros H. destruct (H (requests tr)) as (resp & Hget & Hst & Htext).
  rewrite <- Htext. unfold fetch_html.
  apply (fetch_html_loop_first_success requests_get url 30 3 resp Hst
           0 0%Z tr).
  - lia.
  - intros i Hi. lia.
  - now rewrite Nat.add_0_r.
Qed.

Lemma fetch_html_unreachable (url : str) (tr : trace) :
  unreachable requests_get url ->
  fetch_html requests_get url 30 3 tr = (Ok None, tr ++ retry_trace url 30 3).
Proof.
  intros H. unfold fetch_html.
  now rewrite (fetch_html_loop_exhausted requests_get url 30 3 H 3 0%Z tr).
Qed.

(** One turn of the loop for a link whose page is known. *)
Lemma scrape_book_details_body_gives (site : str -> option str)
    (detailed_books : list dict) (url : str) (tr : trace) :
  site_gives requests_get site url ->
  scrape_book_details_body BeautifulSoup requests_get detailed_books url tr
  = (Ok (detailed_books
         ++ match detail_of BeautifulSoup site url with
            | Some d => [d]
            | None => []
            end),
     tr ++ detail_events site url).
Proof.
  unfold site_gives, detail_events, detail_of, scrape_book_details_body,
    fetch_book_detail.
  intros H. unfold bind at 1. destruct (site url) as [html|].
  - rewrite (fetch_html_answers _ html) by assumption.
    unfold bind, sleep, ret. rewrite <- app_assoc. f_equal. f_equal.
    destruct html as [|c html]; cbn [truthy].
    + change (parse_book_details BeautifulSoup (Some [])) with (@nil (str * str)).
      cbn iota. now rewrite app_nil_r.
    + destruct (parse_book_details _ _); now rewrite ?app_nil_r.
  - rewrite fetch_html_unreachable by assumption.
    unfold bind, sleep, ret. rewrite <- app_assoc. cbn [truthy].
    change (parse_book_details BeautifulSoup None) with (@nil (str * str)).
    cbn iota. now rewrite app_nil_r.
Qed.

Lemma io_for_each_details (site : str -> option str) (urls : list str) :
  Forall (site_gives requests_get site) urls ->
  forall (detailed_books : list dict) (tr : trace),
    io_for_each (scrape_book_details_body BeautifulSoup requests_get) urls
      detailed_books tr
    = (Ok (detailed_books ++ omap (detail_of BeautifulSoup site) urls),
       tr ++ flat_map (detail_events site) urls).
Proof.
  induction 1 as [|url urls Hurl _ IH]; intros detailed_books tr.
  - cbn. unfold ret. now rewrite !app_nil_r.
  - cbn [io_for_each]. unfold bind.
    rewrite (scrape_book_details_body_gives site) by assumption.
    rewrite IH. cbn [flat_map].
    change (omap (detail_of BeautifulSoup site) (url :: urls))
      with (match detail_of BeautifulSoup site url with
            | Some d => d :: omap (detail_of BeautifulSoup site) urls
            | None => omap (detail_of BeautifulSoup site) urls
            end).
    rewrite <- !app_assoc.
    now destruct (detail_of BeautifulSoup site url).
Qed.

(** X22.  The detail pass, link by link.  When the first catalogue
    page is served and yields the links [book_urls], and behind each of
    the first [max_details] links the site has a page or nothing, the
    pass returns the non-empty details of the pages that are there, in
    the order of the links.  It asks once for the first page, then for
    each link once if its page is there and three times if it is not,
    and sleeps half a second after every link, the last one included.
    Every address it asks for is that of one of these links as
    [fetch_book_detail] resolves it, and starts with [http]; this does
    not make it an absolute URL, since a link that itself starts with
    [http] is asked for as it stands. *)
Theorem scrape_book_details_visits (site : str -> option str)
    (books : list dict) (max_details : Z) (html : str)
    (book_urls : list str) (tr : trace) :
  served requests_get 1 html ->
  html <> [] ->
  get_book_urls BeautifulSoup (Some html) = Ok book_urls ->
  Forall (site_gives requests_get site) (slice_to max_details book_urls) ->
  scrape_book_details BeautifulSoup requests_get books max_details tr
  = (Ok (omap (detail_of BeautifulSoup site)
           (slice_to max_details book_urls)),
     tr ++ [Request (page_url 1) 30]
        ++ flat_map (detail_events site) (slice_to max_details book_urls)) /\
  pauses (flat_map (detail_events site) (slice_to max_details book_urls))
    >= length (slice_to max_details book_urls) /\
  Forall (fun e => match e with
                   | Request url timeout =>
                       timeout = 30%Z /\
                       startswith (py "http") url = true /\
                       exists u, In u (slice_to max_details book_urls) /\
                                 url = detail_url u
                   | Sleep _ => True
                   end)
    (flat_map (detail_events site) (slice_to max_details book_urls)).
Proof.
  intros Hs Hne Hurls Hsite. split; [|split].
  - unfold scrape_book_details. unfold bind at 1.
    rewrite (fetch_served requests_get 1 html) by assumption.
    rewrite truthy_some by assumption.
    unfold bind at 1, lift at 1. rewrite Hurls.
    rewrite (io_for_each_details site) by assumption.
    now rewrite <- app_assoc.
  - clear. induction (slice_to max_details book_urls) as [|u l IH];
      [cbn; lia|].
    cbn [flat_map length]. rewrite pauses_app. unfold detail_events at 1.
    rewrite pauses_app. cbn. lia.
  - clear. apply List.Forall_forall. intros e He.
    apply in_flat_map in He as (u & Hu & He).
    unfold detail_events in He. apply in_app_iff in He as [He|[<-|[]]];
      [|exact I].
    assert (Hhttp : startswith (py "http") (detail_url u) = true).
    { unfold detail_url.
      destruct (startswith (py "http") u) eqn:E; cbn [negb];
        [assumption | apply startswith_http_base]. }
    assert (Hreq : 30%Z = 30%Z /\
                   startswith (py "http") (detail_url u) = true /\
                   exists u', In u' (slice_to max_details book_urls) /\
                              detail_url u = detail_url u')
      by (split; [reflexivity|]; split; [exact Hhttp|]; eauto).
    destruct (site u).
    + destruct He as [<-|[]]. exact Hreq.
    + cbn in He. destruct He as [<-|[<-|[<-|[<-|[<-|[]]]]]];
        try exact I; exact Hreq.
Qed.

(** X23.  Without the first page there are no details.  When every
    request for the first catalogue page fails, the detail pass returns
    the empty list after three requests for that page; it asks for no
    detail page and does not sleep half a second. *)
Theorem scrape_book_details_without_first_page (books : list dict)
    (max_details : Z) (tr : trace) :
  unreachable requests_get (page_url 1) ->
  scrape_book_details BeautifulSoup requests_get books max_details tr
  = (Ok [], tr ++ retry_trace (page_url 1) 30 3).
Proof.
  intros H. unfold scrape_book_details, bind, fetch_books_page.
  now rewrite fetch_html_unreachable by assumption.
Qed.

(** X24.  An exception of the link extractor is not caught by the
    detail pass: when the first catalogue page is served and one of its
    record containers has no [h3], the pass raises [AttributeError]
    after the one request. *)
Theorem scrape_book_details_raises_with_extractor (books : list dict)
    (max_details : Z) (html : str) (tr : trace) :
  served requests_get 1 html ->
  html <> [] ->
  forallb Container.has_h3 (Container.containers (BeautifulSoup html))
    = false ->
  scrape_book_details BeautifulSoup requests_get books max_details tr
  = (Raise AttributeError, tr ++ [Request (page_url 1) 30]).
Proof.
  intros Hs Hne Hh3. unfold scrape_book_details. unfold bind at 1.
  rewrite (fetch_served requests_get 1 html) by assumption.
  rewrite truthy_some by assumption.
  unfold bind at 1, lift at 1.
  now rewrite (get_book_urls_raises BeautifulSoup html Hne Hh3).
Qed.




End ScrapeDetailsMore.

(** ** The book table *)

Lemma mem_keys (k : str) (d : dict) :
  Dict.mem k d = true <-> In k (Dict.keys d).
Proof.
  unfold Dict.mem, Dict.keys. rewrite existsb_exists, in_map_iff. split.
  - intros (kv & Hin & E). apply eqb_eq in E. subst. eauto.
  - intros (kv & <- & Hin). exists kv. split; [assumption | apply eqb_refl].
Qed.

Lemma mem_lookup (k : str) (d : dict) :
  Dict.mem k d = true <-> exists v, Dict.lookup k d = Some v.
Proof.
  unfold Dict.mem, Dict.lookup.
  induction d as [|[k0 v0] d IH]; cbn [existsb Soup.lookup_attr fst].
  - split; [discriminate | now intros (v & H)].
  - destruct (Str.eqb k k0); cbn [orb]; [|exact IH].
    split; [eauto | reflexivity].
Qed.

Lemma index_of_some (name : str) (cols : list str) (i : nat) :
  Frame.index_of name cols = Some i -> nth_error cols i = Some name.
Proof.
  revert i. induction cols as [|c cols IH]; intros i; cbn [Frame.index_of];
    [discriminate|].
  destruct (Str.eqb name c) eqn:E.
  - intros [= <-]. apply eqb_eq in E. now subst.
  - destruct (Frame.index_of name cols) as [j|]; [|discriminate].
    intros [= <-]. cbn. now apply IH.
Qed.

Lemma index_of_none (name : str) (cols : list str) :
  Frame.index_of name cols = None <-> ~ In name cols.
Proof.
  induction cols as [|c cols IH]; cbn [Frame.index_of In]; [tauto|].
  destruct (Str.eqb name c) eqn:E.
  - apply eqb_eq in E. subst. split; [discriminate | tauto].
  - assert (c <> name).
    { intros ->. now rewrite eqb_refl in E. }
    destruct (Frame.index_of name cols) as [j|] eqn:Ej; cbn [option_map].
    + split; [discriminate|]. intros Hn. exfalso. apply Hn. right.
      apply index_of_some in Ej. now apply nth_error_In in Ej.
    + tauto.
Qed.

Lemma zip_with_map {A B C D} (f : B -> C -> D) (g : A -> B) (h : A -> C)
    (l : list A) :
  zip_with f (map g l) (map h l) = map (fun x => f (g x) (h x)) l.
Proof. induction l as [|x l IH]; [reflexivity|]. cbn. now rewrite IH. Qed.

Lemma column_of_records (name : str) (books : list dict) :
  Frame.column name (Frame.of_records books)
  = if existsb (Str.eqb name) (Pandas.union_keys books)
    then Some (map (fun d => Frame.cell_of (Dict.lookup name d)) books)
    else None.
Proof.
  unfold Frame.column, Frame.of_records, Pandas.from_records.
  cbn [Frame.columns Frame.rows Pandas.columns Pandas.rows].
  set (cols := Pandas.union_keys books).
  destruct (Frame.index_of name cols) as [i|] eqn:Ei; cbn [option_map].
  - apply index_of_some in Ei.
    assert (Hex : existsb (Str.eqb name) cols = true).
    { apply existsb_exists. exists name. split; [|apply eqb_refl].
      now apply nth_error_In in Ei. }
    rewrite Hex. f_equal. rewrite !map_map. apply map_ext. intros d.
    apply nth_error_nth. rewrite map_map.
    now apply (map_nth_error (fun k => Frame.cell_of (Dict.lookup k d))).
  - apply index_of_none in Ei.
    destruct (existsb (Str.eqb name) cols) eqn:Hex; [|reflexivity].
    apply existsb_exists in Hex as (x & Hx & E). apply eqb_eq in E.
    subst x. contradiction.
Qed.

Lemma price_column_known (books : list dict) :
  existsb (Str.eqb (py "Price")) (Pandas.union_keys books) = true
  <-> exists d, In d books /\ Dict.mem (py "Price") d = true.
Proof.
  rewrite existsb_exists. unfold Pandas.union_keys. split.
  - intros (x & Hx & E). apply eqb_eq in E. subst x.
    apply union_keys_from_in in Hx as [[]|(d & Hd & Hk)].
    exists d. split; [assumption | now apply mem_keys].
  - intros (d & Hd & Hm). exists (py "Price"). split; [|apply eqb_refl].
    apply union_keys_from_in. right. exists d.
    split; [assumption | now apply mem_keys].
Qed.

Section SaveBooksMore.

Variable flushed : str -> str.
Variable unicode_decimal : char -> option N.
Variable render_cells : list Frame.cell -> str.
Variable now : str.

Lemma clean_price_total (s : str) :
  clean_price unicode_decimal s = Ok (price_number unicode_decimal s).
Proof.
  unfold price_number. destruct s as [|c s]; [reflexivity|].
  rewrite clean_price_eq by discriminate.
  destruct (PyFloat.of_str unicode_decimal _) as [f|e] eqn:E; [reflexivity|].
  apply of_str_raises_only_ValueError in E. now subst.
Qed.

Lemma clean_prices (books : list dict) :
  mapM (clean_price_cell unicode_decimal)
    (map (fun d => Frame.cell_of (Dict.lookup (py "Price") d)) books)
  = if forallb (Dict.mem (py "Price")) books
    then Some (map (fun d => price_number unicode_decimal
                               (default [] (Dict.lookup (py "Price") d)))
                 books)
    else None.
Proof.
  induction books as [|d books IH]; [reflexivity|].
  cbn [map forallb]. 
  cbn [mapM].
  rewrite IH.
  destruct (Dict.mem (py "Price") d) eqn:Em; cbn [andb].
  - apply mem_lookup in Em as (v & ->). cbn [Frame.cell_of clean_price_cell].
    rewrite clean_price_total. cbn [default].
    now destruct (forallb _ books).
  - destruct (Dict.lookup (py "Price") d) as [v|] eqn:El.
    + assert (Dict.mem (py "Price") d = true) by (apply mem_lookup; eauto).
      congruence.
    + reflexivity.
Qed.

(** The saver through the table it writes. *)
Lemma save_books_to_csv_eq (books : list dict) (filename : str)
    (fs : filesystem) :
  books <> [] ->
  save_books_to_csv flushed unicode_decimal render_cells now books filename fs
  = match book_table unicode_decimal now books with
    | None => (false, fs)
    | Some df =>
        match frame_to_csv flushed render_cells df filename fs with
        | (Ok _, fs') => (true, fs')
        | (Raise _, fs') => (false, fs')
        end
    end.
Proof.
  intros Hne. destruct books as [|b books]; [congruence|].
  unfold save_books_to_csv, book_table. cbv zeta.
  destruct (Frame.column (py "Price") (Frame.of_records (b :: books)));
    [|reflexivity].
  destruct (mapM (clean_price_cell unicode_decimal) l); reflexivity.
Qed.

(** The table is there when the key [Price] is in every record or in
    none. *)
Lemma book_table_some (books : list dict) :
  (exists df, book_table unicode_decimal now books = Some df) <->
  ((exists d, In d books /\ Dict.mem (py "Price") d = true) ->
   forall d, In d books -> Dict.mem (py "Price") d = true).
Proof.
  unfold book_table. cbv zeta. rewrite column_of_records.
  destruct (existsb (Str.eqb (py "Price")) (Pandas.union_keys books)) eqn:Ecol.
  - rewrite clean_prices.
    destruct (forallb (Dict.mem (py "Price")) books) eqn:Eall;
      cbn [option_map].
    + split; [|eauto]. intros _ _ d Hd.
      rewrite forallb_forall in Eall. now apply Eall.
    + split; [now intros (df & H)|]. intros H. exfalso.
      apply price_column_known in Ecol. specialize (H Ecol).
      assert (forallb (Dict.mem (py "Price")) books = true)
        by (apply forallb_forall; exact H).
      congruence.
  - cbn [option_map]. split; [|eauto]. intros _ H.
    apply price_column_known in H. congruence.
Qed.

(** X26.  When the book table is saved.  [save_books_to_csv] answers
    [True] exactly when there are records, the path can be written, the
    key [Price] is in every record or in none, and the text of the
    table can be encoded: a price missing from some of the records makes
    the numeric conversion raise, and the answer is [False].  When the
    answer is [False], either nothing was written, or the text of the
    table was refused by the encoder after the file had been opened:
    the file then holds what had reached it, and no other file has
    changed. *)
Theorem save_books_to_csv_answer (books : list dict) (filename : str)
    (fs : filesystem) :
  exists ok fs',
    save_books_to_csv flushed unicode_decimal render_cells now books
      filename fs = (ok, fs') /\
    (ok = true <->
       books <> [] /\ (filename ∉ unwritable fs) /\
       ((exists d, In d books /\ Dict.mem (py "Price") d = true) ->
        forall d, In d books -> Dict.mem (py "Price") d = true) /\
       (forall df, book_table unicode_decimal now books = Some df ->
                   encodable (frame_text render_cells df) = true)) /\
    (ok = false ->
       fs' = fs \/
       exists df,
         book_table unicode_decimal now books = Some df /\
         encodable (frame_text render_cells df) = false /\
         read_file fs' filename = Some (flushed (frame_text render_cells df)) /\
         forall p, p <> filename -> read_file fs' p = read_file fs p).
Proof.
  destruct books as [|b books].
  { exists false, fs. split; [reflexivity|]. split; [|now left].
    split; [discriminate|]. intros (H & _). congruence. }
  set (bs := b :: books).
  rewrite save_books_to_csv_eq by discriminate.
  pose proof (book_table_some bs) as Hsome.
  destruct (book_table unicode_decimal now bs) as [df|].
  - assert (Hprice : (exists d, In d bs /\ Dict.mem (py "Price") d = true) ->
                     forall d, In d bs -> Dict.mem (py "Price") d = true)
      by (apply Hsome; eauto).
    unfold frame_to_csv.
    destruct (decide (filename ∈ unwritable fs)) as [Hin|Hnin].
    + rewrite write_file_fails by assumption. exists false, fs.
      split; [reflexivity|]. split; [|now left].
      split; [discriminate|]. intros (_ & Hw & _). contradiction.
    + destruct (encodable (frame_text render_cells df)) eqn:Henc.
      * rewrite write_file_ok by assumption. eexists true, _.
        split; [reflexivity|]. split; [|discriminate].
        split; [|reflexivity]. intros _. split; [discriminate|].
        split; [assumption|]. split; [assumption|].
        now intros df' [= <-].
      * rewrite write_file_refused by assumption. eexists false, _.
        split; [reflexivity|]. split.
        -- split; [discriminate|]. intros (_ & _ & _ & H).
           specialize (H df eq_refl). congruence.
        -- intros _. right. exists df. split; [reflexivity|].
           split; [assumption|].
           split; intros; rewrite read_file_insert;
             [now rewrite decide_True | now rewrite decide_False].
  - exists false, fs. split; [reflexivity|]. split; [|now left].
    split; [discriminate|]. intros (_ & _ & H & _).
    apply Hsome in H as (df & H). discriminate.
Qed.

Lemma set_column_new (name : str) (values : list Frame.cell)
    (cols : list str) (rows : list (list Frame.cell)) :
  Frame.index_of name cols = None ->
  Frame.set_column name values {| Frame.columns := cols; Frame.rows := rows |}
  = {| Frame.columns := cols ++ [name];
       Frame.rows := zip_with (fun row v => row ++ [v]) rows values |}.
Proof. unfold Frame.set_column. cbn [Frame.columns]. now intros ->. Qed.

Lemma of_records_shaped (books : list dict) :
  books <> [] ->
  Forall (fun r => exists t p, r = [(py "Title", t); (py "Price", p)]) books ->
  Frame.of_records books
  = {| Frame.columns := [py "Title"; py "Price"];
       Frame.rows := map (fun r => map Frame.Text (map snd r)) books |}.
Proof.
  intros Hne Hshape. unfold Frame.of_records, Pandas.from_records.
  cbn [Pandas.columns Pandas.rows].
  rewrite (shaped_columns books Hne Hshape). f_equal.
  rewrite (shaped_rows books Hshape), map_map.
  apply map_ext. intros r. now rewrite map_map.
Qed.

(** The table of records with a title and a price. *)
Lemma book_table_shaped (books : list dict) :
  books <> [] ->
  Forall (fun r => exists t p, r = [(py "Title", t); (py "Price", p)]) books ->
  book_table unicode_decimal now books
  = Some {| Frame.columns := [py "Title"; py "Price"; py "Price_Numeric";
                              py "Scraped_At"];
            Frame.rows := map (book_row unicode_decimal now) books |}.
Proof.
  intros Hne Hshape. unfold book_table. cbv zeta.
  rewrite column_of_records, (shaped_columns books Hne Hshape).
  change (existsb (Str.eqb (py "Price")) [py "Title"; py "Price"]) with true.
  cbv iota. rewrite clean_prices.
  assert (Hall : forallb (Dict.mem (py "Price")) books = true).
  { apply forallb_forall. intros r Hr.
    rewrite List.Forall_forall in Hshape.
    now destruct (Hshape r Hr) as (t & p & ->). }
  rewrite Hall. cbn [option_map].
  rewrite (of_records_shaped books Hne Hshape).
  rewrite set_column_new by reflexivity.
  rewrite map_map, zip_with_map. cbn [Frame.rows].
  rewrite set_column_new by reflexivity.
  rewrite map_map, zip_with_map. cbn [app]. do 2 f_equal.
  apply map_ext_in.
  intros r Hr. rewrite List.Forall_forall in Hshape.
  destruct (Hshape r Hr) as (t & p & ->). reflexivity.
Qed.

Lemma save_shaped_books (books : list dict) (filename : str)
    (fs : filesystem) :
  books <> [] ->
  Forall (fun r => exists t p, r = [(py "Title", t); (py "Price", p)]) books ->
  filename ∉ unwritable fs ->
  encodable (render_cells
               (map Frame.Text
                  [py "Title"; py "Price"; py "Price_Numeric";
                   py "Scraped_At"])
             ++ concat (map (fun r => render_cells
                                        (book_row unicode_decimal now r))
                          books)) = true ->
  save_books_to_csv flushed unicode_decimal render_cells now books filename fs
  = (true,
     {| files :=
          <[filename :=
              render_cells
                (map Frame.Text
                   [py "Title"; py "Price"; py "Price_Numeric";
                    py "Scraped_At"])
              ++ concat (map (fun r => render_cells
                                         (book_row unicode_decimal now r))
                           books)]> (files fs);
        unwritable := unwritable fs |}).
Proof.
  intros Hne Hshape Hw Henc.
  rewrite save_books_to_csv_eq, (book_table_shaped books Hne Hshape)
    by assumption.
  unfold frame_to_csv, frame_text. cbn [Frame.columns Frame.rows].
  rewrite map_map.
  rewrite write_file_ok by assumption. reflexivity.
Qed.

Section SavePipeline.

Variable BeautifulSoup : str -> node.

(** X27.  From the extractor to the file.  A non-empty list of
    records returned by [parse_books_from_html] is saved by
    [save_books_to_csv] when the path can be written and the text of
    the table can be encoded: the file then holds the header [Title],
    [Price], [Price_Numeric], [Scraped_At] and one line per record, with
    the price as text, the price as a float and the time of the call,
    whatever the file held before.  No other file changes. *)
Theorem save_books_to_csv_parsed (html_content : option str)
    (books : list dict) (filename : str) (fs : filesystem) :
  parse_books_from_html BeautifulSoup html_content = Ok books ->
  books <> [] ->
  filename ∉ unwritable fs ->
  encodable (render_cells
               (map Frame.Text
                  [py "Title"; py "Price"; py "Price_Numeric";
                   py "Scraped_At"])
             ++ concat (map (fun r => render_cells
                                        (book_row unicode_decimal now r))
                          books)) = true ->
  exists fs',
    save_books_to_csv flushed unicode_decimal render_cells now books
      filename fs = (true, fs') /\
    read_file fs' filename
    = Some (render_cells
              (map Frame.Text
                 [py "Title"; py "Price"; py "Price_Numeric";
                  py "Scraped_At"])
            ++ concat (map (fun r => render_cells
                                       (book_row unicode_decimal now r))
                         books)) /\
    forall p, p <> filename -> read_file fs' p = read_file fs p.
Proof.
  intros Hparse Hne Hw Henc. apply parsed_books_shape in Hparse.
  rewrite (save_shaped_books books filename fs Hne Hparse Hw Henc).
  eexists. split; [reflexivity|].
  split; intros; rewrite read_file_insert.
  - now rewrite decide_True.
  - now rewrite decide_False.
Qed.

End SavePipeline.

End SaveBooksMore.


(** ** The theorems at work *)

Import Container Samples Cases.

Lemma fetch_html_returns_first_success_witness :
  fetch_html flaky_server base_url 30 3 []
  = (Ok (Some (py "<html></html>")), [] ++ retry_trace base_url 30 3).
Proof.
  apply (fetch_html_returns_first_success flaky_server base_url 30 3 2
           (Response 200 (py "<html></html>")) []).
  - lia.
  - intros i Hi. assert (i = 0 \/ i = 1) as [-> | ->] by lia; reflexivity.
  - reflexivity.
  - reflexivity.
Defined.

Lemma fetch_html_raises_only_foreign_witness :
  ValueError <> RequestException /\
  exists n, broken_server n base_url 30 = Raise ValueError.
Proof.
  apply (fetch_html_raises_only_foreign broken_server base_url 30 3 []
           ValueError).
  vm_compute. reflexivity.
Defined.

Lemma get_book_urls_lists_links_witness :
  get_book_urls Markup.tree_of (Some catalog_page_1)
  = Ok (omap href_of (containers (Markup.tree_of catalog_page_1))) /\
  Forall (fun u => u <> [])
    (omap href_of (containers (Markup.tree_of catalog_page_1))) /\
  length (omap href_of (containers (Markup.tree_of catalog_page_1)))
  <= length (containers (Markup.tree_of catalog_page_1)).
Proof.
  apply (get_book_urls_lists_links Markup.tree_of catalog_page_1).
  - discriminate.
  - vm_compute. reflexivity.
Defined.

Lemma parse_books_values_stripped_witness :
  Forall (fun r => Forall (fun kv => trimmed (snd kv)
                                     /\ strip (snd kv) = snd kv) r)
    [ [ (py "Title", py "A Light in the Attic");
        (py "Price", pound :: py "51.77") ];
      [ (py "Title", py "Soumission");
        (py "Price", pound :: py "50.10") ] ].
Proof.
  apply (parse_books_values_stripped Markup.tree_of (Some mixed_page)).
  vm_compute. reflexivity.
Defined.

Lemma clean_price_ignores_glyphs_witness :
  clean_price (fun _ => None) (py "51" ++ pound :: py ".77")
  = clean_price (fun _ => None) (py "51" ++ py ".77").
Proof.
  apply (clean_price_ignores_glyphs (fun _ => None) (py "51") (py ".77")
           pound).
  vm_compute. left. reflexivity.
Defined.

Lemma clean_price_ignores_outer_space_witness :
  clean_price (fun _ => None)
    ([32; 9]%N ++ (pound :: py "51.77") ++ [10]%N)
  = clean_price (fun _ => None) (pound :: py "51.77").
Proof.
  apply (clean_price_ignores_outer_space (fun _ => None) [32; 9]%N
           (pound :: py "51.77") [10]%N); reflexivity.
Defined.








Lemma append_to_missing_file_is_save_witness :
  append_books_to_csv nothing_flushed plain_row two_books books_csv empty_disk
  = save_to_csv nothing_flushed plain_row two_books books_csv false empty_disk.
Proof.
  apply (append_to_missing_file_is_save nothing_flushed plain_row two_books
           books_csv empty_disk).
  reflexivity.
Defined.

Lemma append_in_batches_is_one_save_witness :
  exists fs1 fs2,
    append_books_to_csv nothing_flushed plain_row two_books books_csv
      empty_disk = (true, fs1) /\
    append_books_to_csv nothing_flushed plain_row one_book books_csv fs1
      = (true, fs2) /\
    save_to_csv nothing_flushed plain_row (two_books ++ one_book) books_csv
      false empty_disk = (true, fs2) /\
    read_file fs2 books_csv
    = Some (Pandas.header_line plain_row (Pandas.from_records two_books)
            ++ Pandas.data_lines plain_row (Pandas.from_records two_books)
            ++ Pandas.data_lines plain_row (Pandas.from_records one_book)).
Proof.
  apply (append_in_batches_is_one_save nothing_flushed plain_row two_books
           one_book books_csv empty_disk).
  - discriminate.
  - discriminate.
  - vm_compute. discriminate.
  - reflexivity.
  - vm_compute. reflexivity.
  - vm_compute. reflexivity.
Defined.

Lemma parsed_books_frame_witness :
  Pandas.columns (Pandas.from_records two_books) = [py "Title"; py "Price"] /\
  Pandas.rows (Pandas.from_records two_books)
  = map (fun r => map Some (map snd r)) two_books.
Proof.
  apply (parsed_books_frame Markup.tree_of (Some catalog_page_1) two_books).
  - vm_compute. reflexivity.
  - discriminate.
Defined.

Lemma parse_book_details_precedence_witness :
  Dict.lookup (py "Title")
    (parse_book_details Markup.tree_of (Some detail_page))
  = Detail.field_of (Markup.tree_of detail_page) (py "Title").
Proof.
  apply (parse_book_details_precedence Markup.tree_of detail_page
           (py "Title")).
  discriminate.
Defined.

Lemma parse_book_details_rating_witness :
  In (py "Three") rating_words \/
  exists html, Some detail_page = Some html /\
    Detail.rating (Markup.tree_of html) = None /\
    Detail.last_entry (py "Rating")
      (Detail.table_entries (Markup.tree_of html)) = Some (py "Three").
Proof.
  apply (parse_book_details_rating Markup.tree_of (Some detail_page)
           (py "Three")).
  vm_compute. reflexivity.
Defined.

(** The details of the sample page: the table has replaced the title
    of the heading, and the rating element the rating of the table. *)
Example parse_detail_page :
  parse_book_details Markup.tree_of (Some detail_page)
  = [ (py "Title", py "From the table");
      (py "Price", pound :: py "51.77");
      (py "Availability", py "In stock (22 available)");
      (py "UPC", py "a897fe39b1053632");
      (py "Product Type", py "Books");
      (py "Rating", py "Three");
      (py "Description", py "Poems and drawings.") ].
Proof. vm_compute. reflexivity. Qed.

Lemma scrape_book_details_visits_witness :
  scrape_book_details Markup.tree_of detail_server [] 5 []
  = (Ok (omap (detail_of Markup.tree_of detail_site)
           (slice_to 5 [attic_link; velvet_link])),
     [] ++ [Request (page_url 1) 30]
        ++ flat_map (detail_events detail_site)
             (slice_to 5 [attic_link; velvet_link])) /\
  pauses (flat_map (detail_events detail_site)
            (slice_to 5 [attic_link; velvet_link]))
    >= length (slice_to 5 [attic_link; velvet_link]) /\
  Forall (fun e => match e with
                   | Request url timeout =>
                       timeout = 30%Z /\
                       startswith (py "http") url = true /\
                       exists u, In u (slice_to 5 [attic_link; velvet_link]) /\
                                 url = detail_url u
                   | Sleep _ => True
                   end)
    (flat_map (detail_events detail_site)
       (slice_to 5 [attic_link; velvet_link])).
Proof.
  apply (scrape_book_details_visits Markup.tree_of detail_server detail_site
           [] 5 catalog_page_1 [attic_link; velvet_link] []).
  - intros n. eexists. split; [reflexivity|]. split; reflexivity.
  - discriminate.
  - vm_compute. reflexivity.
  - constructor; [|constructor; [|constructor]].
    + intros n. eexists. split; [vm_compute; reflexivity|].
      split; reflexivity.
    + intros n. vm_compute. reflexivity.
Defined.

(** The detail pass over the sample site: the details of the first
    record, none for the second, half a second of sleep after each. *)
Example scrape_sample_details :
  scrape_book_details Markup.tree_of detail_server [] 5 []
  = (Ok [ parse_book_details Markup.tree_of (Some detail_page) ],
     [ Request (page_url 1) 30;
       Request (base_url ++ attic_link) 30; Sleep (1 # 2);
       Request (base_url ++ velvet_link) 30; Sleep 2;
       Request (base_url ++ velvet_link) 30; Sleep 2;
       Request (base_url ++ velvet_link) 30; Sleep (1 # 2) ]).
Proof. vm_compute. reflexivity. Qed.

(** A negative bound leaves out links from the end. *)
Example scrape_sample_details_negative :
  fst (scrape_book_details Markup.tree_of detail_server [] (-1) [])
  = Ok [ parse_book_details Markup.tree_of (Some detail_page) ] /\
  snd (scrape_book_details Markup.tree_of detail_server [] (-1) [])
  = [ Request (page_url 1) 30;
      Request (base_url ++ attic_link) 30; Sleep (1 # 2) ].
Proof. split; vm_compute; reflexivity. Qed.

Lemma scrape_book_details_without_first_page_witness :
  scrape_book_details Markup.tree_of dead_server two_books 5 []
  = (Ok [], [] ++ retry_trace (page_url 1) 30 3).
Proof.
  apply (scrape_book_details_without_first_page Markup.tree_of dead_server
           two_books 5 []).
  intros n. reflexivity.
Defined.

Lemma scrape_book_details_raises_with_extractor_witness :
  scrape_book_details Markup.tree_of headless_first_server two_books 5 []
  = (Raise AttributeError, [] ++ [Request (page_url 1) 30]).
Proof.
  apply (scrape_book_details_raises_with_extractor Markup.tree_of
           headless_first_server two_books 5 headless_page []).
  - intros n. eexists. split; [reflexivity|]. split; reflexivity.
  - discriminate.
  - vm_compute. reflexivity.
Defined.


Lemma save_books_to_csv_parsed_witness :
  exists fs',
    save_books_to_csv nothing_flushed (fun _ => None) plain_cells noon
      two_books books_csv stocked_disk = (true, fs') /\
    read_file fs' books_csv
    = Some (plain_cells
              (map Frame.Text
                 [py "Title"; py "Price"; py "Price_Numeric";
                  py "Scraped_At"])
            ++ concat (map (fun r => plain_cells
                                       (book_row (fun _ => None) noon r))
                         two_books)) /\
    forall p, p <> books_csv -> read_file fs' p = read_file stocked_disk p.
Proof.
  apply (save_books_to_csv_parsed nothing_flushed (fun _ => None) plain_cells
           noon Markup.tree_of (Some catalog_page_1) two_books books_csv
           stocked_disk).
  - vm_compute. reflexivity.
  - discriminate.
  - vm_compute. discriminate.
  - vm_compute. reflexivity.
Defined.

(** A record without a price among priced ones: nothing is saved. *)
Example save_books_with_a_price_missing :
  save_books_to_csv nothing_flushed (fun _ => None) plain_cells noon
    (two_books ++ [ [ (py "Title", py "Soumission") ] ]) books_csv
    stocked_disk
  = (false, stocked_disk).
Proof. vm_compute. reflexivity. Qed.

(** A title with a lone surrogate: the answer is [False], and the file
    that was there has been emptied. *)
Example save_books_with_a_surrogate :
  exists fs',
    save_books_to_csv nothing_flushed (fun _ => None) plain_cells noon
      surrogate_book books_csv stocked_disk = (false, fs') /\
    read_file fs' books_csv = Some [] /\
    read_file stocked_disk books_csv <> Some [].
Proof.
  eexists. split; [vm_compute; reflexivity|].
  split; [vm_compute; reflexivity|]. vm_compute. discriminate.
Qed.

(** A link that starts with [http] without being an URL is asked for
    as it stands. *)
Example detail_url_of_odd_link :
  detail_url (py "httpfoo/x.html") = py "httpfoo/x.html" /\
  detail_url (py "../../a_1/index.html")
  = py "https://books.toscrape.com/a_1/index.html".
Proof. split; vm_compute; reflexivity. Qed.
